(** * CMSMobile: the UserStore session flows, its views and the I3Host API client

    A shallow embedding of
      - app/stores/UserStore/models.ts, views.ts, actions.ts (the
        token/preferences based UserStore), and
      - app/services/api/i3hostApi.ts (the 401 interceptor),
    together with the parts of the JavaScript runtime these files lean on:
    JSON.stringify / JSON.parse, truthiness, property access, exceptions with
    try / catch / finally, and the key-value storage object.

    Conventions of the model
      - a JavaScript string is a [string]: a sequence of code units, limited
        here to the code units 0..255;
      - a value whose static type the source leaves open (what JSON.parse
        returns, what a caller hands to an action) is a [json] value;
        [undefined] is the [None] of an [option];
      - the store and the world around it (storage, clock) are threaded
        through an exception-and-state monad [Action]: an observable mutation
        made before a throw stays made, as in mobx-state-tree;
      - a flow runs without interruption except where it yields a timer
        promise; what the rest of the application does meanwhile is the
        parameter [interleave] of the flows. *)

From Stdlib Require Import ZArith String Ascii List Bool Lia DecimalString.
From stdpp Require Import base gmap strings.
Import ListNotations.

Local Open Scope string_scope.
Local Open Scope Z_scope.

(** ** JavaScript values *)

Module JS.

#[local] Set Warnings "-register-all".

(** What JSON.parse can return. A number keeps its literal: the store never
    computes with one, it only tests it for truthiness. *)
Inductive json : Type :=
  | JNull
  | JBool (b : bool)
  | JNum (literal : string)
  | JStr (s : string)
  | JArr (items : list json)
  | JObj (members : list (string * json)).

(** What a [throw] carries: an Error instance with its message, or any other
    thrown value. The catch blocks of the store only test
    [error instanceof Error] and read [error.message]. *)
Inductive exception : Type :=
  | ErrorObject (name message : string)
  | Thrown (v : json).

Definition code (c : ascii) : N := N_of_ascii c.

Definition is_digit (c : ascii) : bool := (48 <=? code c)%N && (code c <=? 57)%N.

(** Mantissa of a number literal: everything before the exponent mark. *)
Fixpoint mantissa (s : string) : string :=
  match s with
  | EmptyString => EmptyString
  | String c r =>
      if (code c =? 101)%N || (code c =? 69)%N then EmptyString
      else String c (mantissa r)
  end.

Fixpoint has_nonzero_digit (s : string) : bool :=
  match s with
  | EmptyString => false
  | String c r => (is_digit c && negb (code c =? 48)%N) || has_nonzero_digit r
  end.

(** ToBoolean. A number is falsy when it is zero; a literal so small that it
    rounds to zero in double precision is not told apart from its exact
    value. *)
Definition truthy (v : json) : bool :=
  match v with
  | JNull => false
  | JBool b => b
  | JNum l => has_nonzero_digit (mantissa l)
  | JStr s => negb (String.eqb s "")
  | JArr _ => true
  | JObj _ => true
  end.

(** ToBoolean of a possibly-undefined value, as in [if (x.theme)]. *)
Definition truthy_opt (v : option json) : bool :=
  match v with
  | Some x => truthy x
  | None => false
  end.

Fixpoint assoc (k : string) (ms : list (string * json)) : option json :=
  match ms with
  | [] => None
  | (k', v) :: r => if String.eqb k k' then Some v else assoc k r
  end.

(** [v.k] for a [v] that is neither null nor undefined and a [k] that no
    prototype defines (none of the names the store reads is one): own
    properties of an object, undefined on everything else. *)
Definition get (v : json) (k : string) : option json :=
  match v with
  | JObj ms => assoc k ms
  | _ => None
  end.

(** [o[k] = v] on an object under construction: a key seen again keeps its
    place and takes the new value. *)
Fixpoint obj_set (k : string) (v : json) (ms : list (string * json))
  : list (string * json) :=
  match ms with
  | [] => [(k, v)]
  | (k', v') :: r =>
      if String.eqb k k' then (k', v) :: r else (k', v') :: obj_set k v r
  end.

End JS.

(** ** JSON.stringify and JSON.parse *)

Module JSON.
Import JS.

Definition dquote : ascii := "034"%char.
Definition backslash : ascii := "092"%char.

Definition hex_digit (n : N) : ascii :=
  ascii_of_N (if (n <? 10)%N then 48 + n else 87 + n)%N.

(** QuoteJSONString, one code unit at a time. *)
Definition quote_char (c : ascii) : string :=
  let n := code c in
  if (n =? 34)%N then String backslash (String dquote EmptyString)
  else if (n =? 92)%N then String backslash (String backslash EmptyString)
  else if (n =? 8)%N then String backslash "b"
  else if (n =? 12)%N then String backslash "f"
  else if (n =? 10)%N then String backslash "n"
  else if (n =? 13)%N then String backslash "r"
  else if (n =? 9)%N then String backslash "t"
  else if (n <? 32)%N then
    String backslash (String "u" (String "0" (String "0"
      (String (hex_digit (n / 16)) (String (hex_digit (n mod 16)) EmptyString)))))
  else String c EmptyString.

Fixpoint quote_body (s : string) : string :=
  match s with
  | EmptyString => EmptyString
  | String c r => quote_char c ++ quote_body r
  end.

Definition quote (s : string) : string :=
  String dquote (quote_body s ++ String dquote EmptyString).

Fixpoint join (parts : list string) : string :=
  match parts with
  | [] => ""
  | [p] => p
  | p :: ps => p ++ "," ++ join ps
  end.

(** JSON.stringify(value), without indentation. Every [json] value
    serialises: there is no undefined, function or cycle in one. A number
    prints as the literal it was read from (JavaScript prints the shortest
    literal of the same double); the store never writes a number of its
    own. *)
Fixpoint stringify (v : json) : string :=
  match v with
  | JNull => "null"
  | JBool true => "true"
  | JBool false => "false"
  | JNum l => l
  | JStr s => quote s
  | JArr items => "[" ++ join (map stringify items) ++ "]"
  | JObj ms =>
      "{" ++ join (map (fun kv => quote (fst kv) ++ ":" ++ stringify (snd kv)) ms)
          ++ "}"
  end.

(** *** The parser *)

Definition is_ws (c : ascii) : bool :=
  let n := code c in
  (n =? 32)%N || (n =? 9)%N || (n =? 10)%N || (n =? 13)%N.

Fixpoint skip_ws (s : string) : string :=
  match s with
  | EmptyString => EmptyString
  | String c r => if is_ws c then skip_ws r else s
  end.

Definition hex_value (c : ascii) : option N :=
  let n := code c in
  if (48 <=? n)%N && (n <=? 57)%N then Some (n - 48)%N
  else if (97 <=? n)%N && (n <=? 102)%N then Some (n - 87)%N
  else if (65 <=? n)%N && (n <=? 70)%N then Some (n - 55)%N
  else None.

(** The code unit of [\uXXXX]; one above 255 has no place in a [string]
    and is refused. *)
Definition hex4 (a b c d : ascii) : option ascii :=
  match hex_value a, hex_value b, hex_value c, hex_value d with
  | Some x, Some y, Some z, Some w =>
      let n := (((x * 16 + y) * 16 + z) * 16 + w)%N in
      if (n <? 256)%N then Some (ascii_of_N n) else None
  | _, _, _, _ => None
  end.

Definition unescape (e : ascii) : option ascii :=
  let n := code e in
  if (n =? 34)%N then Some dquote
  else if (n =? 92)%N then Some backslash
  else if (n =? 47)%N then Some "/"%char
  else if (n =? 98)%N then Some "008"%char
  else if (n =? 102)%N then Some "012"%char
  else if (n =? 110)%N then Some "010"%char
  else if (n =? 114)%N then Some "013"%char
  else if (n =? 116)%N then Some "009"%char
  else None.

Definition push (c : ascii) (r : option (string * string)) : option (string * string) :=
  match r with
  | Some (s, rest) => Some (String c s, rest)
  | None => None
  end.

(** The characters of a string literal after its opening quote, up to and
    including the closing one. *)
Fixpoint string_body (s : string) : option (string * string) :=
  match s with
  | EmptyString => None
  | String c r =>
      if (code c =? 34)%N then Some (EmptyString, r)
      else if (code c =? 92)%N then
        match r with
        | EmptyString => None
        | String e r1 =>
            match unescape e with
            | Some c' => push c' (string_body r1)
            | None =>
                if (code e =? 117)%N then
                  match r1 with
                  | String h1 (String h2 (String h3 (String h4 r2))) =>
                      match hex4 h1 h2 h3 h4 with
                      | Some c' => push c' (string_body r2)
                      | None => None
                      end
                  | _ => None
                  end
                else None
            end
        end
      else if (code c <? 32)%N then None
      else push c (string_body r)
  end.

Fixpoint digits (s : string) : string * string :=
  match s with
  | EmptyString => (EmptyString, EmptyString)
  | String c r =>
      if is_digit c then let (d, rest) := digits r in (String c d, rest)
      else (EmptyString, s)
  end.

(** int: a single 0, or a non-zero digit followed by digits. *)
Definition number_int (s : string) : option (string * string) :=
  match s with
  | String c r =>
      if (code c =? 48)%N then Some (String c EmptyString, r)
      else if is_digit c then let (d, rest) := digits r in Some (String c d, rest)
      else None
  | EmptyString => None
  end.

Definition number_frac (s : string) : option (string * string) :=
  match s with
  | String c r =>
      if (code c =? 46)%N then
        match digits r with
        | (EmptyString, _) => None
        | (d, rest) => Some (String c d, rest)
        end
      else Some (EmptyString, s)
  | EmptyString => Some (EmptyString, s)
  end.

Definition number_exp (s : string) : option (string * string) :=
  match s with
  | String c r =>
      if (code c =? 101)%N || (code c =? 69)%N then
        let (sign, r1) :=
          match r with
          | String g r' =>
              if (code g =? 43)%N || (code g =? 45)%N
              then (String g EmptyString, r') else (EmptyString, r)
          | EmptyString => (EmptyString, r)
          end in
        match digits r1 with
        | (EmptyString, _) => None
        | (d, rest) => Some (String c (sign ++ d), rest)
        end
      else Some (EmptyString, s)
  | EmptyString => Some (EmptyString, s)
  end.

(** number: -? int frac? exp? *)
Definition number (s : string) : option (string * string) :=
  let (minus, s0) :=
    match s with
    | String c r => if (code c =? 45)%N then (String c EmptyString, r) else (EmptyString, s)
    | EmptyString => (EmptyString, s)
    end in
  match number_int s0 with
  | None => None
  | Some (i, s1) =>
      match number_frac s1 with
      | None => None
      | Some (f, s2) =>
          match number_exp s2 with
          | None => None
          | Some (e, s3) => Some (minus ++ i ++ f ++ e, s3)
          end
      end
  end.

Fixpoint literal (word s : string) : option string :=
  match word, s with
  | EmptyString, _ => Some s
  | String a w, String b r => if Ascii.eqb a b then literal w r else None
  | String _ _, EmptyString => None
  end.

(** value, members and elements of the JSON grammar. [fuel] bounds the
    number of nested calls; each one is made after at least one character has
    been consumed, so the length of the text plus one is enough. *)
Fixpoint value (fuel : nat) (s : string) : option (json * string) :=
  match fuel with
  | O => None
  | S fuel' =>
      match skip_ws s with
      | EmptyString => None
      | String c r =>
          let n := code c in
          if (n =? 123)%N then
            match skip_ws r with
            | String c1 r1 =>
                if (code c1 =? 125)%N then Some (JObj [], r1)
                else members fuel' (String c1 r1) []
            | EmptyString => None
            end
          else if (n =? 91)%N then
            match skip_ws r with
            | String c1 r1 =>
                if (code c1 =? 93)%N then Some (JArr [], r1)
                else elements fuel' (String c1 r1) []
            | EmptyString => None
            end
          else if (n =? 34)%N then
            match string_body r with
            | Some (str, rest) => Some (JStr str, rest)
            | None => None
            end
          else if (n =? 116)%N then
            match literal "rue" r with Some rest => Some (JBool true, rest) | None => None end
          else if (n =? 102)%N then
            match literal "alse" r with Some rest => Some (JBool false, rest) | None => None end
          else if (n =? 110)%N then
            match literal "ull" r with Some rest => Some (JNull, rest) | None => None end
          else
            match number (String c r) with
            | Some (l, rest) => Some (JNum l, rest)
            | None => None
            end
      end
  end

with members (fuel : nat) (s : string) (acc : list (string * json))
  : option (json * string) :=
  match fuel with
  | O => None
  | S fuel' =>
      match s with
      | String c r =>
          if (code c =? 34)%N then
            match string_body r with
            | None => None
            | Some (k, r1) =>
                match skip_ws r1 with
                | String c2 r2 =>
                    if (code c2 =? 58)%N then
                      match value fuel' r2 with
                      | None => None
                      | Some (v, r3) =>
                          match skip_ws r3 with
                          | String c4 r4 =>
                              if (code c4 =? 44)%N
                              then members fuel' (skip_ws r4) (obj_set k v acc)
                              else if (code c4 =? 125)%N
                              then Some (JObj (obj_set k v acc), r4)
                              else None
                          | EmptyString => None
                          end
                      end
                    else None
                | EmptyString => None
                end
            end
          else None
      | EmptyString => None
      end
  end

with elements (fuel : nat) (s : string) (acc : list json)
  : option (json * string) :=
  match fuel with
  | O => None
  | S fuel' =>
      match value fuel' s with
      | None => None
      | Some (v, r1) =>
          match skip_ws r1 with
          | String c2 r2 =>
              if (code c2 =? 44)%N then elements fuel' r2 (acc ++ [v])
              else if (code c2 =? 93)%N then Some (JArr (acc ++ [v]), r2)
              else None
          | EmptyString => None
          end
      end
  end.

(** JSON.parse(text): [None] stands for the SyntaxError it throws. *)
Definition parse (text : string) : option json :=
  match value (S (String.length text)) text with
  | Some (v, rest) =>
      match skip_ws rest with
      | EmptyString => Some v
      | String _ _ => None
      end
  | None => None
  end.

(** The text of one member of an object, as [stringify] writes it. *)
Definition member_text (kv : string * json) : string :=
  quote (fst kv) ++ ":" ++ stringify (snd kv).

(** A value the store itself puts into an object: a string or a boolean. *)
Definition scalar (v : json) : bool :=
  match v with
  | JStr _ | JBool _ => true
  | _ => false
  end.

(** Members with scalar values under keys that differ from each other and
    from the keys in [seen]. *)
Fixpoint flat_members (seen : list string) (ms : list (string * json)) : bool :=
  match ms with
  | [] => true
  | (k, v) :: r =>
      scalar v && negb (existsb (String.eqb k) seen) && flat_members (seen ++ [k])%list r
  end.

End JSON.

(** ** Regular expressions, as far as views.ts uses them *)

Module RegExp.

Inductive regex : Type :=
  | Never
  | Empty
  | Class (p : ascii -> bool)
  | Seq (r1 r2 : regex)
  | Alt (r1 r2 : regex)
  | Plus (r : regex).

Fixpoint nullable (r : regex) : bool :=
  match r with
  | Never => false
  | Empty => true
  | Class _ => false
  | Seq a b => nullable a && nullable b
  | Alt a b => nullable a || nullable b
  | Plus a => nullable a
  end.

(** What remains to be matched after reading [c]. *)
Fixpoint deriv (c : ascii) (r : regex) : regex :=
  match r with
  | Never => Never
  | Empty => Never
  | Class p => if p c then Empty else Never
  | Seq a b =>
      if nullable a then Alt (Seq (deriv c a) b) (deriv c b)
      else Seq (deriv c a) b
  | Alt a b => Alt (deriv c a) (deriv c b)
  | Plus a => Seq (deriv c a) (Alt Empty (Plus a))
  end.

Fixpoint after (s : string) (r : regex) : regex :=
  match s with
  | EmptyString => r
  | String c s' => after s' (deriv c r)
  end.

(** [/^r$/.test(s)]: the whole of [s] matches [r]. *)
Definition test (r : regex) (s : string) : bool := nullable (after s r).

(** [\s] on the code units 0..255: tab, line feed, vertical tab, form feed,
    carriage return, space and no-break space. *)
Definition is_space (c : ascii) : bool :=
  let n := JS.code c in
  ((9 <=? n)%N && (n <=? 13)%N) || (n =? 32)%N || (n =? 160)%N.

Definition is_char (x c : ascii) : bool := Ascii.eqb x c.

(** The strings a regular expression denotes. *)
Inductive matches : regex -> string -> Prop :=
  | matches_Empty : matches Empty ""
  | matches_Class (p : ascii -> bool) (c : ascii) :
      p c = true -> matches (Class p) (String c "")
  | matches_Seq (r1 r2 : regex) (s1 s2 : string) :
      matches r1 s1 -> matches r2 s2 -> matches (Seq r1 r2) (s1 ++ s2)
  | matches_Alt_l (r1 r2 : regex) (s : string) : matches r1 s -> matches (Alt r1 r2) s
  | matches_Alt_r (r1 r2 : regex) (s : string) : matches r2 s -> matches (Alt r1 r2) s
  | matches_Plus_one (r : regex) (s : string) : matches r s -> matches (Plus r) s
  | matches_Plus_more (r : regex) (s1 s2 : string) :
      matches r s1 -> matches (Plus r) s2 -> matches (Plus r) (s1 ++ s2).

(** Every code unit of [s] satisfies [p]. *)
Fixpoint every (p : ascii -> bool) (s : string) : bool :=
  match s with
  | EmptyString => true
  | String c r => p c && every p r
  end.

End RegExp.

(** ** The UserStore *)

Module FlowResult.
(** What the flows resolve to: [{ success, error? }]. *)
Record t : Type := { success : bool; error : option string }.
End FlowResult.

Module UserStore.
Import JS.

(** *** models.ts *)

Record User : Type :=
  { id : string; email : string; name : option string; avatar : option string }.

Record UserSession : Type :=
  { token : string; expiresAt : option string; refreshToken : option string }.

Inductive Theme : Type := light | dark | system.

Record UserPreferences : Type :=
  { theme : Theme; language : string; notifications : bool }.

(** UserStore.ts: the model the views and actions are attached to. *)
Record UserStoreModel : Type :=
  { currentUser : option User;
    session : option UserSession;
    preferences : option UserPreferences;
    isLoading : bool;
    isAuthenticating : bool;
    error : option string }.

(** [UserStore.create({})]: every [types.maybe] undefined, every flag at
    its default. *)
Definition fresh : UserStoreModel :=
  {| currentUser := None; session := None; preferences := None;
     isLoading := false; isAuthenticating := false; error := None |}.

(** What mobx-state-tree throws when a snapshot or an assigned value does
    not fit the declared type (its message, abbreviated). *)
Definition mst_error (type_name : string) : exception :=
  ErrorObject "Error" ("[mobx-state-tree] Error while converting to " ++ type_name).

Definition TypeError (message : string) : exception := ErrorObject "TypeError" message.
Definition SyntaxError (message : string) : exception := ErrorObject "SyntaxError" message.

(** [types.string] on a property value. *)
Definition as_string (v : option json) : option string :=
  match v with
  | Some (JStr s) => Some s
  | _ => None
  end.

(** [types.maybe(types.string)]: a string or undefined; null does not fit. *)
Definition as_maybe_string (v : option json) : option (option string) :=
  match v with
  | None => Some None
  | Some (JStr s) => Some (Some s)
  | Some _ => None
  end.

(** [types.enumeration(["light", "dark", "system"])]. *)
Definition as_theme (v : option json) : option Theme :=
  match v with
  | Some (JStr s) =>
      if String.eqb s "light" then Some light
      else if String.eqb s "dark" then Some dark
      else if String.eqb s "system" then Some system
      else None
  | _ => None
  end.

Definition as_boolean (v : option json) : option bool :=
  match v with
  | Some (JBool b) => Some b
  | _ => None
  end.

(** [types.optional(t, d)]: undefined takes the default. *)
Definition optional {A : Type} (check : option json -> option A) (default : A)
    (v : option json) : option A :=
  match v with
  | None => Some default
  | Some _ => check v
  end.

(** [UserSession.create({ token, expiresAt, refreshToken })] on the three
    property values setSession reads off its argument. *)
Definition UserSession_create (tok exp ref : option json) : exception + UserSession :=
  match as_string tok, as_maybe_string exp, as_maybe_string ref with
  | Some t, Some e, Some r => inr {| token := t; expiresAt := e; refreshToken := r |}
  | _, _, _ => inl (mst_error "UserSession")
  end.

(** [User.create(snapshot)]: the snapshot is a plain object whose declared
    properties fit; other properties are ignored. *)
Definition User_create (snapshot : json) : exception + User :=
  match snapshot with
  | JObj ms =>
      match as_string (assoc "id" ms), as_string (assoc "email" ms),
            as_maybe_string (assoc "name" ms), as_maybe_string (assoc "avatar" ms) with
      | Some i, Some e, Some n, Some a =>
          inr {| id := i; email := e; name := n; avatar := a |}
      | _, _, _, _ => inl (mst_error "User")
      end
  | _ => inl (mst_error "User")
  end.

Definition UserPreferences_create (snapshot : json) : exception + UserPreferences :=
  match snapshot with
  | JObj ms =>
      match optional as_theme system (assoc "theme" ms),
            optional as_string "en" (assoc "language" ms),
            optional as_boolean true (assoc "notifications" ms) with
      | Some t, Some l, Some n =>
          inr {| theme := t; language := l; notifications := n |}
      | _, _, _ => inl (mst_error "UserPreferences")
      end
  | _ => inl (mst_error "UserPreferences")
  end.

Definition Theme_string (t : Theme) : string :=
  match t with
  | light => "light"
  | dark => "dark"
  | system => "system"
  end.

Definition field (k : string) (v : option string) : list (string * json) :=
  match v with
  | Some s => [(k, JStr s)]
  | None => []
  end.

(** The snapshots JSON.stringify sees through a node's toJSON; an undefined
    property is left out of the text, so it is left out here. *)
Definition User_snapshot (u : User) : json :=
  JObj ([("id", JStr (id u)); ("email", JStr (email u))]
        ++ field "name" (name u) ++ field "avatar" (avatar u)).

Definition UserSession_snapshot (s : UserSession) : json :=
  JObj ([("token", JStr (token s))]
        ++ field "expiresAt" (expiresAt s) ++ field "refreshToken" (refreshToken s)).

Definition UserPreferences_snapshot (p : UserPreferences) : json :=
  JObj [("theme", JStr (Theme_string (theme p)));
        ("language", JStr (language p));
        ("notifications", JBool (notifications p))].

(** *** The world an action runs in *)

(** The store, the storage object and the clock. [clock n] is what the
    [n]-th call of Date.now() returns. *)
Record World : Type :=
  { self : UserStoreModel;
    storage : gmap string string;
    clock : nat -> Z;
    reads : nat }.

Inductive completion (A : Type) : Type :=
  | Normal (a : A)
  | Throw (e : exception).
Arguments Normal {A} a.
Arguments Throw {A} e.

Definition Action (A : Type) : Type := World -> completion A * World.

Definition ret {A : Type} (a : A) : Action A := fun w => (Normal a, w).

Definition throw {A : Type} (e : exception) : Action A := fun w => (Throw e, w).

Definition bind {A B : Type} (m : Action A) (k : A -> Action B) : Action B :=
  fun w =>
    match m w with
    | (Normal a, w1) => k a w1
    | (Throw e, w1) => (Throw e, w1)
    end.

Declare Scope action_scope.
Delimit Scope action_scope with action.
Bind Scope action_scope with Action.
Notation "x <- m ;; k" := (bind m (fun x => k))
  (at level 100, m at next level, k at level 200, right associativity)
  : action_scope.
Notation "m ;; k" := (bind m (fun _ => k))
  (at level 100, k at level 200, right associativity) : action_scope.
Local Open Scope action_scope.

Definition lift {A : Type} (r : exception + A) : Action A :=
  match r with
  | inl e => throw e
  | inr a => ret a
  end.

(** [try { body } catch (error) { handler }] *)
Definition try_catch {A : Type} (body : Action A) (handler : exception -> Action A)
  : Action A :=
  fun w =>
    match body w with
    | (Normal a, w1) => (Normal a, w1)
    | (Throw e, w1) => handler e w1
    end.

(** [try { body } finally { finalizer }]: the finalizer runs on every way
    out of the body and, when it completes normally, the body's own
    completion (value or exception) stands. *)
Definition try_finally {A : Type} (body : Action A) (finalizer : Action unit)
  : Action A :=
  fun w =>
    let (c, w1) := body w in
    match finalizer w1 with
    | (Normal _, w2) => (c, w2)
    | (Throw e, w2) => (Throw e, w2)
    end.

Definition try_catch_finally {A : Type} (body : Action A)
    (handler : exception -> Action A) (finalizer : Action unit) : Action A :=
  try_finally (try_catch body handler) finalizer.

Definition get_self : Action UserStoreModel := fun w => (Normal (self w), w).

Definition modify (f : UserStoreModel -> UserStoreModel) : Action unit :=
  fun w =>
    (Normal tt,
     {| self := f (self w); storage := storage w; clock := clock w; reads := reads w |}).

(** Date.now() *)
Definition Date_now : Action Z :=
  fun w =>
    (Normal (clock w (reads w)),
     {| self := self w; storage := storage w; clock := clock w; reads := S (reads w) |}).

(** [v.k] on a value that may be null. *)
Definition prop (v : json) (k : string) : Action (option json) :=
  match v with
  | JNull => throw (TypeError ("Cannot read property '" ++ k ++ "' of null"))
  | _ => ret (get v k)
  end.

(** JSON.parse inside an action. *)
Definition JSON_parse (text : string) : Action json :=
  match JSON.parse text with
  | Some v => ret v
  | None => throw (SyntaxError "JSON Parse error")
  end.

(** Number to string, for the integers Date.now() returns. *)
Definition Number_toString (n : Z) : string := NilZero.string_of_int (Z.to_int n).

(** Modelled from the spec: app/utils/storage is not among the sources. Its
    [storage] object is the key-value storage of the spec's Persistence
    interface: a finite map from string keys to string blobs, with the three
    operations the store calls. *)
Definition storage_set (key value : string) : Action unit :=
  fun w =>
    (Normal tt,
     {| self := self w; storage := <[key := value]> (storage w);
        clock := clock w; reads := reads w |}).

Definition storage_delete (key : string) : Action unit :=
  fun w =>
    (Normal tt,
     {| self := self w; storage := delete key (storage w);
        clock := clock w; reads := reads w |}).

Definition storage_getString (key : string) : Action (option string) :=
  fun w => (Normal (storage w !! key), w).

(** *** views.ts *)

(** [a || d] on a string that may be undefined. *)
Definition or_string (a : option string) (d : string) : string :=
  match a with
  | Some x => if String.eqb x "" then d else x
  | None => d
  end.

(** [!!self.session?.token] *)
Definition has_token (self : UserStoreModel) : bool :=
  match session self with
  | Some s => negb (String.eqb (token s) "")
  | None => false
  end.

Definition isAuthenticated (self : UserStoreModel) : bool :=
  has_token self && match currentUser self with Some _ => true | None => false end.

Definition userEmail (self : UserStoreModel) : string :=
  or_string (option_map email (currentUser self)) "".

(** [[^\s@]] *)
Definition email_atom (c : ascii) : bool :=
  negb (RegExp.is_space c || RegExp.is_char "@" c).

(** [/^[^\s@]+@[^\s@]+\.[^\s@]+$/] *)
Definition email_pattern : RegExp.regex :=
  RegExp.Seq (RegExp.Plus (RegExp.Class email_atom))
    (RegExp.Seq (RegExp.Class (RegExp.is_char "@"))
       (RegExp.Seq (RegExp.Plus (RegExp.Class email_atom))
          (RegExp.Seq (RegExp.Class (RegExp.is_char "."))
             (RegExp.Plus (RegExp.Class email_atom))))).

Definition emailValidationError (self : UserStoreModel) : string :=
  let email := userEmail self in
  if String.eqb email "" || (Z.of_nat (String.length email) =? 0) then "Email can't be blank"
  else if Z.of_nat (String.length email) <? 6 then "Email must be at least 6 characters"
  else if negb (RegExp.test email_pattern email) then "Must be a valid email address"
  else "".

Definition isLoginValid (self : UserStoreModel) : bool :=
  String.eqb (emailValidationError self) "".

Section Views.

(** [new Date(text).getTime()]: the time value in milliseconds, [None]
    for an Invalid Date (NaN). *)
Variable Date_parse : string -> option Z.

(** [now] is the time value of [new Date()]. A comparison with NaN is
    false. *)
Definition isSessionExpired (now : Z) (self : UserStoreModel) : bool :=
  match session self with
  | None => false
  | Some s =>
      match expiresAt s with
      | None => false
      | Some e =>
          if String.eqb e "" then false
          else
            match Date_parse e with
            | Some t => now >? t
            | None => false
            end
      end
  end.

End Views.

(** *** actions.ts: userStoreActions *)

Definition setLoading (loading : bool) : Action unit :=
  modify (fun s =>
    {| currentUser := currentUser s; session := session s; preferences := preferences s;
       isLoading := loading; isAuthenticating := isAuthenticating s; error := error s |}).

Definition setAuthenticating (authenticating : bool) : Action unit :=
  modify (fun s =>
    {| currentUser := currentUser s; session := session s; preferences := preferences s;
       isLoading := isLoading s; isAuthenticating := authenticating; error := error s |}).

Definition assign_error (e : option string) : Action unit :=
  modify (fun s =>
    {| currentUser := currentUser s; session := session s; preferences := preferences s;
       isLoading := isLoading s; isAuthenticating := isAuthenticating s; error := e |}).

Definition assign_session (v : option UserSession) : Action unit :=
  modify (fun s =>
    {| currentUser := currentUser s; session := v; preferences := preferences s;
       isLoading := isLoading s; isAuthenticating := isAuthenticating s; error := error s |}).

Definition assign_currentUser (v : option User) : Action unit :=
  modify (fun s =>
    {| currentUser := v; session := session s; preferences := preferences s;
       isLoading := isLoading s; isAuthenticating := isAuthenticating s; error := error s |}).

Definition assign_preferences (v : option UserPreferences) : Action unit :=
  modify (fun s =>
    {| currentUser := currentUser s; session := session s; preferences := v;
       isLoading := isLoading s; isAuthenticating := isAuthenticating s; error := error s |}).

(** [self.error = error || undefined], [error] a string or null. *)
Definition setError (error : option string) : Action unit :=
  assign_error
    (match error with
     | Some m => if String.eqb m "" then None else Some m
     | None => None
     end).

Definition clearError : Action unit := assign_error None.

Definition setSession (sessionData : json) : Action unit :=
  if truthy sessionData then
    s <- lift (UserSession_create (get sessionData "token")
                                  (get sessionData "expiresAt")
                                  (get sessionData "refreshToken")) ;;
    assign_session (Some s) ;;
    storage_set "userSession" (JSON.stringify sessionData)
  else
    assign_session None ;;
    storage_delete "userSession".

Definition setCurrentUser (userData : json) : Action unit :=
  if truthy userData then
    u <- lift (User_create userData) ;;
    assign_currentUser (Some u) ;;
    storage_set "currentUser" (JSON.stringify userData)
  else
    assign_currentUser None ;;
    storage_delete "currentUser".

(** [self.preferences.theme = v] and its two siblings: an assignment to a
    property of the preferences node, type-checked by mobx-state-tree. *)
Definition with_preferences (f : UserPreferences -> exception + UserPreferences)
  : Action unit :=
  s <- get_self ;;
  match preferences s with
  | Some p => q <- lift (f p) ;; assign_preferences (Some q)
  | None => throw (TypeError "Cannot set property of undefined")
  end.

Definition assign_theme (v : option json) : Action unit :=
  with_preferences (fun p =>
    match as_theme v with
    | Some t => inr {| theme := t; language := language p; notifications := notifications p |}
    | None => inl (mst_error "theme")
    end).

Definition assign_language (v : option json) : Action unit :=
  with_preferences (fun p =>
    match as_string v with
    | Some l => inr {| theme := theme p; language := l; notifications := notifications p |}
    | None => inl (mst_error "language")
    end).

Definition assign_notifications (v : option json) : Action unit :=
  with_preferences (fun p =>
    match as_boolean v with
    | Some n => inr {| theme := theme p; language := language p; notifications := n |}
    | None => inl (mst_error "notifications")
    end).

(** [storage.set("userPreferences", JSON.stringify(self.preferences))];
    the preferences are defined wherever the store does this. *)
Definition persist_preferences : Action unit :=
  s <- get_self ;;
  match preferences s with
  | Some p => storage_set "userPreferences" (JSON.stringify (UserPreferences_snapshot p))
  | None => ret tt
  end.

Definition setPreferences (preferences_arg : json) : Action unit :=
  s <- get_self ;;
  match preferences s with
  | None =>
      p <- lift (UserPreferences_create preferences_arg) ;;
      assign_preferences (Some p)
  | Some _ =>
      th <- prop preferences_arg "theme" ;;
      (if truthy_opt th then assign_theme th else ret tt) ;;
      la <- prop preferences_arg "language" ;;
      (if truthy_opt la then assign_language la else ret tt) ;;
      no <- prop preferences_arg "notifications" ;;
      match no with
      | Some _ => assign_notifications no
      | None => ret tt
      end
  end ;;
  persist_preferences.

Definition with_currentUser (f : User -> exception + User) : Action unit :=
  s <- get_self ;;
  match currentUser s with
  | Some u => v <- lift (f u) ;; assign_currentUser (Some v)
  | None => throw (TypeError "Cannot set property of undefined")
  end.

(** [storage.set("currentUser", JSON.stringify(self.currentUser))] *)
Definition persist_currentUser : Action unit :=
  s <- get_self ;;
  match currentUser s with
  | Some u => storage_set "currentUser" (JSON.stringify (User_snapshot u))
  | None => ret tt
  end.

Definition setUserEmail (new_email : string) : Action unit :=
  s <- get_self ;;
  match currentUser s with
  | Some _ =>
      with_currentUser (fun u =>
        inr {| id := id u; email := new_email; name := name u; avatar := avatar u |}) ;;
      persist_currentUser
  | None => ret tt
  end.

Definition assign_name (v : option json) : Action unit :=
  with_currentUser (fun u =>
    match as_maybe_string v with
    | Some n => inr {| id := id u; email := email u; name := n; avatar := avatar u |}
    | None => inl (mst_error "name")
    end).

Definition assign_avatar (v : option json) : Action unit :=
  with_currentUser (fun u =>
    match as_maybe_string v with
    | Some a => inr {| id := id u; email := email u; name := name u; avatar := a |}
    | None => inl (mst_error "avatar")
    end).

Definition updateProfile (updates : json) : Action unit :=
  s <- get_self ;;
  match currentUser s with
  | Some _ =>
      n <- prop updates "name" ;;
      (if truthy_opt n then assign_name n else ret tt) ;;
      a <- prop updates "avatar" ;;
      (if truthy_opt a then assign_avatar a else ret tt) ;;
      persist_currentUser
  | None => ret tt
  end.

(** *** actions.ts: userStoreAsyncActions *)

(** [error instanceof Error ? error.message : fallback] *)
Definition errorMessage (error : exception) (fallback : string) : string :=
  match error with
  | ErrorObject _ message => message
  | Thrown _ => fallback
  end.

Definition failure (message : string) : FlowResult.t :=
  {| FlowResult.success := false; FlowResult.error := Some message |}.

Definition success : FlowResult.t :=
  {| FlowResult.success := true; FlowResult.error := None |}.

(** [if (saved) { ... }] on what getString returned. *)
Definition when_saved (saved : option string) (k : string -> Action unit) : Action unit :=
  match saved with
  | Some text => if String.eqb text "" then ret tt else k text
  | None => ret tt
  end.

(** logout and hydrate contain no [yield]: they run to completion within
    the call. *)
Definition logout : Action unit :=
  setLoading true ;;
  try_catch_finally
    (setSession JNull ;;
     setCurrentUser JNull ;;
     clearError)
    (fun error =>
       setSession JNull ;;
       setCurrentUser JNull)
    (setLoading false).

(** The two [if]s that close the try block of hydrate have empty bodies
    (their calls are commented out) and conditions without effect; they
    are left out. *)
Definition hydrate_try : Action unit :=
  savedSession <- storage_getString "userSession" ;;
  when_saved savedSession (fun text =>
    sessionData <- JSON_parse text ;;
    setSession sessionData) ;;
  savedUserData <- storage_getString "currentUser" ;;
  when_saved savedUserData (fun text =>
    userData <- JSON_parse text ;;
    setCurrentUser userData) ;;
  savedPreferences <- storage_getString "userPreferences" ;;
  when_saved savedPreferences (fun text =>
    preferences_arg <- JSON_parse text ;;
    setPreferences preferences_arg).

Definition hydrate_catch (error : exception) : Action unit :=
  setSession JNull ;;
  setCurrentUser JNull.

Definition hydrate : Action unit :=
  setLoading true ;;
  try_catch_finally hydrate_try hydrate_catch (setLoading false).

Section Flows.

(** [new Date(t).toISOString()] for the time values the clock gives. *)
Variable Date_toISOString : Z -> string.

(** What the rest of the application does to the world while a flow is
    suspended on a timer: any other action may run then. The identity
    when the flow is the only activity. *)
Variable interleave : World -> World.

(** [yield new Promise((resolve) => setTimeout(resolve, ms))]: the
    promise always resolves, after [interleave]. *)
Definition sleep (ms : Z) : Action unit := fun w => (Normal tt, interleave w).

(** The try block of login. *)
Definition login_try (email_arg password : string) : Action FlowResult.t :=
  sleep 1000 ;;
  if String.eqb email_arg "demo@example.com" && String.eqb password "password" then
    let mockUser :=
      JObj [("id", JStr "1"); ("email", JStr email_arg);
            ("name", JStr "Demo User");
            ("avatar", JStr "https://via.placeholder.com/150")] in
    t1 <- Date_now ;;
    t2 <- Date_now ;;
    t3 <- Date_now ;;
    let mockSession :=
      JObj [("token", JStr ("mock_jwt_token_" ++ Number_toString t1));
            ("expiresAt", JStr (Date_toISOString (t2 + 24 * 60 * 60 * 1000)));
            ("refreshToken", JStr ("mock_refresh_token_" ++ Number_toString t3))] in
    let defaultPreferences :=
      JObj [("theme", JStr "system"); ("language", JStr "en");
            ("notifications", JBool true)] in
    setSession mockSession ;;
    setCurrentUser mockUser ;;
    setPreferences defaultPreferences ;;
    ret success
  else
    setError (Some "Invalid email or password") ;;
    ret (failure "Invalid email or password").

Definition login_catch (error : exception) : Action FlowResult.t :=
  let message := errorMessage error "Login failed" in
  setError (Some message) ;;
  ret (failure message).

Definition login (email_arg password : string) : Action FlowResult.t :=
  setAuthenticating true ;;
  clearError ;;
  try_catch_finally (login_try email_arg password) login_catch (setAuthenticating false).

Definition refreshUser : Action unit :=
  s <- get_self ;;
  if negb (has_token s) then ret tt
  else
    setLoading true ;;
    try_catch_finally
      (sleep 500)
      (fun error => setError (Some "Failed to refresh user data"))
      (setLoading false).

Definition updateUserProfile (updates : json) : Action FlowResult.t :=
  s <- get_self ;;
  if negb (has_token s) then
    setError (Some "Not authenticated") ;;
    ret (failure "Not authenticated")
  else
    setLoading true ;;
    try_catch_finally
      (sleep 800 ;;
       updateProfile updates ;;
       ret success)
      (fun error =>
         let message := errorMessage error "Update failed" in
         setError (Some message) ;;
         ret (failure message))
      (setLoading false).

Definition updatePreferences (preferences_arg : json) : Action FlowResult.t :=
  setLoading true ;;
  try_catch_finally
    (sleep 300 ;;
     setPreferences preferences_arg ;;
     ret success)
    (fun error =>
       let message := errorMessage error "Failed to update preferences" in
       setError (Some message) ;;
       ret (failure message))
    (setLoading false).

(** [self.session.refreshToken] after the timer: a TypeError when the
    session is gone by then. *)
Definition session_refreshToken : Action (option string) :=
  s <- get_self ;;
  match session s with
  | Some ses => ret (refreshToken ses)
  | None => throw (TypeError "Cannot read property 'refreshToken' of undefined")
  end.

(** [!self.session?.refreshToken] negated: a refresh token is there. *)
Definition has_refreshToken (self : UserStoreModel) : bool :=
  match session self with
  | Some ses =>
      match refreshToken ses with
      | Some r => negb (String.eqb r "")
      | None => false
      end
  | None => false
  end.

(** The try block of refreshSession. *)
Definition refreshSession_try : Action FlowResult.t :=
  sleep 500 ;;
  t1 <- Date_now ;;
  t2 <- Date_now ;;
  r <- session_refreshToken ;;
  let newSession :=
    JObj ([("token", JStr ("refreshed_token_" ++ Number_toString t1));
           ("expiresAt", JStr (Date_toISOString (t2 + 24 * 60 * 60 * 1000)))]
          ++ field "refreshToken" r) in
  setSession newSession ;;
  ret success.

(** Its catch block. [yield self.logout()] runs logout to completion:
    logout never suspends. *)
Definition refreshSession_catch (error : exception) : Action FlowResult.t :=
  let message := errorMessage error "Session refresh failed" in
  setError (Some message) ;;
  logout ;;
  ret (failure message).

Definition refreshSession : Action FlowResult.t :=
  s <- get_self ;;
  if negb (has_refreshToken s) then
    setError (Some "No refresh token available") ;;
    ret (failure "No refresh token available")
  else
    try_catch refreshSession_try refreshSession_catch.

End Flows.

(** *** The arguments callers pass *)

(** [{ theme?: string; language?: string; notifications?: boolean }], the
    parameter type of setPreferences and updatePreferences. *)
Record PreferencesInput : Type :=
  { theme_in : option string;
    language_in : option string;
    notifications_in : option bool }.

Definition PreferencesInput_js (p : PreferencesInput) : json :=
  JObj (field "theme" (theme_in p) ++ field "language" (language_in p)
        ++ match notifications_in p with
           | Some b => [("notifications", JBool b)]
           | None => []
           end).

(** The theme, when given, is one of the enumeration. *)
Definition theme_valid (p : PreferencesInput) : bool :=
  match theme_in p with
  | None => true
  | Some t => match as_theme (Some (JStr t)) with Some _ => true | None => false end
  end.

(** The preferences a store holds after [setPreferences(p)] went through:
    the fields of [p] laid over the defaults of the model when the store had
    no preferences, over the previous preferences (an empty theme or
    language counting as not given) when it had. *)
Definition merged_preferences (old : option UserPreferences) (p : PreferencesInput)
  : UserPreferences :=
  match old with
  | None =>
      {| theme := match theme_in p with
                  | Some t => default system (as_theme (Some (JStr t)))
                  | None => system
                  end;
         language := default "en" (language_in p);
         notifications := default true (notifications_in p) |}
  | Some o =>
      {| theme := match theme_in p with
                  | Some t => default (theme o) (as_theme (Some (JStr t)))
                  | None => theme o
                  end;
         language := match language_in p with
                     | Some l => if String.eqb l "" then language o else l
                     | None => language o
                     end;
         notifications := default (notifications o) (notifications_in p) |}
  end.

(** [p] names every field, with the values [q] has. *)
Definition preferences_equal (p : PreferencesInput) (q : UserPreferences) : Prop :=
  theme_in p = Some (Theme_string (theme q))
  /\ language_in p = Some (language q)
  /\ notifications_in p = Some (notifications q).

(** setSession(s), setCurrentUser(u), setPreferences(p) in a row. *)
Definition persist_all (s : UserSession) (u : User) (p : PreferencesInput) : Action unit :=
  setSession (UserSession_snapshot s) ;;
  setCurrentUser (User_snapshot u) ;;
  setPreferences (PreferencesInput_js p).

(** A store created anew over what is in storage: the next start of the
    application. *)
Definition restart (w : World) : World :=
  {| self := fresh; storage := storage w; clock := clock w; reads := reads w |}.

(** *** Vocabulary of the proofs *)

(** One of the three loading steps of hydrate: read [key], and when
    something is saved there parse it and hand it to [setter]. *)
Definition load (key : string) (setter : json -> Action unit) : Action unit :=
  saved <- storage_getString key ;;
  when_saved saved (fun text => v <- JSON_parse text ;; setter v).

(** What a setter may change besides its own field: nothing of the error
    field, and in storage only its own key. *)
Definition keeps (key : string) (m : Action unit) : Prop :=
  forall w,
    error (self (snd (m w))) = error (self w)
    /\ forall k, k <> key -> storage (snd (m w)) !! k = storage w !! k.

End UserStore.

(** ** Sample runs *)

Module Sample.
Import JS UserStore.

(** A clock stopped at 2023-11-14T22:13:20.000Z. *)
Definition stopped_clock (n : nat) : Z := 1700000000000.

(** toISOString and the Date constructor on the one time value the sample
    runs produce, a day after the clock. *)
Definition toISOString (t : Z) : string :=
  if t =? 1700086400000 then "2023-11-15T22:13:20.000Z" else "".

Definition Date_parse (text : string) : option Z :=
  if String.eqb text "2023-11-15T22:13:20.000Z" then Some 1700086400000 else None.

(** Nothing else runs while a flow waits. *)
Definition quiet (w : World) : World := w.

(** The user logs out while a flow waits. *)
Definition logs_out (w : World) : World := snd (logout w).

(** First start: an empty store over empty storage. *)
Definition start : World :=
  {| self := fresh; storage := ∅; clock := stopped_clock; reads := 0 |}.

(** After the demo user has logged in. *)
Definition signed_in : World :=
  snd (login toISOString quiet "demo@example.com" "password" start).

(** A store whose loading flag is up, with no session. *)
Definition busy : World :=
  {| self := {| currentUser := None; session := None; preferences := None;
                isLoading := true; isAuthenticating := false; error := None |};
     storage := ∅; clock := stopped_clock; reads := 0 |}.

Definition alice : User :=
  {| id := "7"; email := "alice@example.com"; name := Some "Alice"; avatar := None |}.

Definition alice_session : UserSession :=
  {| token := "t0k3n"; expiresAt := Some "2023-11-15T22:13:20.000Z";
     refreshToken := None |}.

Definition dark_only : PreferencesInput :=
  {| theme_in := Some "dark"; language_in := None; notifications_in := None |}.

(** Storage whose session blob is the empty string, next to a sound user
    blob. *)
Definition empty_session_blob : World :=
  {| self := fresh;
     storage := <["userSession" := ""]>
                  (<["currentUser" := JSON.stringify (User_snapshot alice)]> ∅);
     clock := stopped_clock; reads := 0 |}.

(** Storage whose preferences blob was cut short. *)
Definition truncated_preferences_blob : World :=
  {| self := self signed_in;
     storage := <["userPreferences" := "{"]> (storage signed_in);
     clock := stopped_clock; reads := 0 |}.

End Sample.

(** ** services/api/i3hostApi.ts *)

Module I3HostApi.

Section Client.

(** Whatever the registered logout callback acts on. *)
Variable App : Type.

(** The client object: of its fields only the callback changes after
    construction. A callback [() => void] is a change of [App]. *)
Record I3HostApi : Type := { logoutCallback : option (App -> App) }.

(** What navigationRef holds: whether the container is mounted, and the
    stack of route names with the index of the active one. *)
Record Navigation : Type :=
  { isReady : bool; routes : list string; index : Z }.

Record Env : Type := { navigation : Navigation; app : App }.

(** The object the constructor leaves behind: no callback yet. *)
Definition create : I3HostApi := {| logoutCallback := None |}.

Definition setLogoutCallback (callback : App -> App) (this : I3HostApi) : I3HostApi :=
  {| logoutCallback := Some callback |}.

(** [navigationRef.reset({ index: 0, routes: [{ name: "Login" }] })] *)
Definition reset_to_Login (n : Navigation) : Navigation :=
  {| isReady := isReady n; routes := ["Login"]; index := 0 |}.

Definition handle401Error (this : I3HostApi) (env : Env) : Env :=
  let app1 :=
    match logoutCallback this with
    | Some callback => callback (app env)
    | None => app env
    end in
  let nav1 :=
    if isReady (navigation env) then reset_to_Login (navigation env)
    else navigation env in
  {| navigation := nav1; app := app1 |}.

(** The response transform setupInterceptors registers; apisauce calls
    it on every response, with [status] undefined when there was none. *)
Definition responseTransform (this : I3HostApi) (status : option Z) (env : Env) : Env :=
  match status with
  | Some code => if code =? 401 then handle401Error this env else env
  | None => env
  end.

End Client.

End I3HostApi.

(** ** views.ts: the views the flows do not use *)

Module UserStoreViews.
Import JS UserStore.

(** [self.currentUser?.name] *)
Definition currentUser_name (self : UserStoreModel) : option string :=
  match currentUser self with
  | Some u => name u
  | None => None
  end.

Definition userDisplayName (self : UserStoreModel) : string :=
  or_string (currentUser_name self)
    (or_string (option_map email (currentUser self)) "Unknown User").

(** [s.split(" ")]: the pieces between single spaces; never an empty
    list. *)
Fixpoint split_space (s : string) : list string :=
  match s with
  | EmptyString => [EmptyString]
  | String c r =>
      if (code c =? 32)%N then EmptyString :: split_space r
      else
        match split_space r with
        | p :: ps => String c p :: ps
        | [] => [String c EmptyString]
        end
  end.

(** [n[0]] under [join("")]: the first code unit, or nothing for an empty
    piece (undefined joins as the empty string). *)
Definition first_unit (piece : string) : string :=
  match piece with
  | String c _ => String c EmptyString
  | EmptyString => EmptyString
  end.

(** [name.split(" ").map((n) => n[0]).join("")] *)
Definition first_letters (text : string) : string :=
  fold_right String.append EmptyString (map first_unit (split_space text)).

Section Initials.

(** String.prototype.toUpperCase. *)
Variable toUpperCase : string -> string.

Definition userInitials (self : UserStoreModel) : string :=
  let text := or_string (currentUser_name self)
                (or_string (option_map email (currentUser self)) "") in
  String.substring 0 2 (toUpperCase (first_letters text)).

End Initials.

Definition hasAvatar (self : UserStoreModel) : bool :=
  match currentUser self with
  | Some u =>
      match avatar u with
      | Some a => negb (String.eqb a "")
      | None => false
      end
  | None => false
  end.

Definition hasPreferences (self : UserStoreModel) : bool :=
  match preferences self with Some _ => true | None => false end.

Definition currentTheme (self : UserStoreModel) : string :=
  or_string (option_map (fun p => Theme_string (theme p)) (preferences self)) "system".

(** [self.preferences?.notifications ?? true] *)
Definition notificationsEnabled (self : UserStoreModel) : bool :=
  match preferences self with
  | Some p => notifications p
  | None => true
  end.

Definition preferredLanguage (self : UserStoreModel) : string :=
  or_string (option_map language (preferences self)) "en".

Definition isAnyLoading (self : UserStoreModel) : bool :=
  isLoading self || isAuthenticating self.

Record AuthStatus : Type :=
  { status_isAuthenticated : bool;
    status_isLoading : bool;
    hasUser : bool;
    hasSession : bool;
    isExpired : bool }.

Definition authStatus (Date_parse : string -> option Z) (now : Z) (self : UserStoreModel)
  : AuthStatus :=
  {| status_isAuthenticated := isAuthenticated self;
     status_isLoading := isAuthenticating self;
     hasUser := match currentUser self with Some _ => true | None => false end;
     hasSession := match session self with Some _ => true | None => false end;
     isExpired := isSessionExpired Date_parse now self |}.

(** The space-separated words of [text]: the non-empty pieces. *)
Definition words (text : string) : list string :=
  List.filter (fun piece => negb (String.eqb piece "")) (split_space text).

(** [{ name?: string; avatar?: string }], the parameter type of
    updateProfile and updateUserProfile. *)
Record ProfileUpdates : Type :=
  { name_in : option string; avatar_in : option string }.

Definition ProfileUpdates_js (p : ProfileUpdates) : json :=
  JObj (field "name" (name_in p) ++ field "avatar" (avatar_in p)).

(** [a || b] on two strings that may be undefined, the result possibly
    undefined. *)
Definition or_maybe (a b : option string) : option string :=
  match a with
  | Some x => if String.eqb x "" then b else Some x
  | None => b
  end.

(** The user updateProfile leaves: a name or avatar that is given and not
    the empty string replaces the one the user had. *)
Definition merged_profile (p : ProfileUpdates) (u : User) : User :=
  {| id := id u; email := email u;
     name := or_maybe (name_in p) (name u);
     avatar := or_maybe (avatar_in p) (avatar u) |}.

(** The mock data of login, as the store holds it once the setters went
    through; [t1], [t2], [t3] are the three readings of Date.now(). *)
Definition mockUser : User :=
  {| id := "1"; email := "demo@example.com"; name := Some "Demo User";
     avatar := Some "https://via.placeholder.com/150" |}.

Definition mockSession (Date_toISOString : Z -> string) (t1 t2 t3 : Z) : UserSession :=
  {| token := "mock_jwt_token_" ++ Number_toString t1;
     expiresAt := Some (Date_toISOString (t2 + 24 * 60 * 60 * 1000));
     refreshToken := Some ("mock_refresh_token_" ++ Number_toString t3) |}.

Definition defaultPreferences : UserPreferences :=
  {| theme := system; language := "en"; notifications := true |}.

(** The session refreshSession assigns: a new token and expiry around the
    refresh token [r] of the session it found. *)
Definition newSession (Date_toISOString : Z -> string) (t1 t2 : Z) (r : option string)
  : UserSession :=
  {| token := "refreshed_token_" ++ Number_toString t1;
     expiresAt := Some (Date_toISOString (t2 + 24 * 60 * 60 * 1000));
     refreshToken := r |}.

(** Storage holds, under each of the three keys, exactly the blob of what
    the store holds in the matching field, and nothing when the field is
    undefined. *)
Definition in_sync (w : World) : Prop :=
  storage w !! "userSession"
    = option_map (fun s => JSON.stringify (UserSession_snapshot s)) (session (self w))
  /\ storage w !! "currentUser"
    = option_map (fun u => JSON.stringify (User_snapshot u)) (currentUser (self w))
  /\ storage w !! "userPreferences"
    = option_map (fun p => JSON.stringify (UserPreferences_snapshot p)) (preferences (self w)).

(** [m] takes every world to one that is [R]-related to it, whether it
    returns or throws. *)
Definition preserves {A : Type} (R : World -> World -> Prop) (m : Action A) : Prop :=
  forall w, R w (snd (m w)).

(** [m] takes a world in which [I] holds to one in which it holds, whether
    it returns or throws. *)
Definition maintains {A : Type} (I : World -> Prop) (m : Action A) : Prop :=
  forall w, I w -> I (snd (m w)).

(** No session in the store and no session blob in storage. *)
Definition signed_out (w : World) : Prop :=
  session (self w) = None /\ storage w !! "userSession" = None.

(** The session and its blob are the same in both worlds. *)
Definition same_session_slot (w w' : World) : Prop :=
  session (self w') = session (self w)
  /\ storage w' !! "userSession" = storage w !! "userSession".

(** Session, current user and preferences are the same in both worlds. *)
Definition same_user_state (w w' : World) : Prop :=
  session (self w') = session (self w)
  /\ currentUser (self w') = currentUser (self w)
  /\ preferences (self w') = preferences (self w).

Definition same_error (w w' : World) : Prop := error (self w') = error (self w).

(** Storage differs at most at the three keys of the store. *)
Definition same_foreign_keys (w w' : World) : Prop :=
  forall k, k <> "userSession" -> k <> "currentUser" -> k <> "userPreferences" ->
    storage w' !! k = storage w !! k.

(** The error field, when defined, is not the empty string. *)
Definition error_shown (self : UserStoreModel) : Prop := error self <> Some "".

End UserStoreViews.

(** ** RootStore.ts *)

Module RootStore.
Import JS UserStore.
Local Open Scope action_scope.

(** The root model has the one child [userStore]; its world is the world
    of that store. *)
Definition isLoading (userStore : UserStoreModel) : bool :=
  UserStore.isLoading userStore || isAuthenticating userStore.

Definition isAuthenticated (userStore : UserStoreModel) : bool :=
  UserStore.isAuthenticated userStore.

(** [try { yield self.userStore.hydrate() ... } catch (error) { console.error }] *)
Definition initialize : Action unit :=
  try_catch hydrate (fun error => ret tt).

Definition reset : Action unit :=
  try_catch logout (fun error => ret tt).

End RootStore.

(** ** ProductStore: the cart *)

Module ProductStore.

Section Numbers.

(** JavaScript numbers, with the operations the cart uses: [0], [1],
    [a + b], [a <= 0]. No law of arithmetic is assumed of them. *)
Variable number : Type.
Variable zero : number.
Variable one : number.
Variable add : number -> number -> number.
Variable le_zero : number -> bool.

(** models.ts *)
Record CartItem : Type :=
  { productId : string; quantity : number; addedAt : string }.

(** [item.productId === productId] *)
Definition is_product (id : string) (item : CartItem) : bool :=
  String.eqb (productId item) id.

(** [list.findIndex(p)] followed by [list.splice(index, 1)] when the index
    is not -1: the first element that satisfies [p] is taken out. *)
Fixpoint remove_first (p : CartItem -> bool) (l : list CartItem) : list CartItem :=
  match l with
  | [] => []
  | x :: r => if p x then r else x :: remove_first p r
  end.

(** An assignment to a property of [list.find(p)]: the first element that
    satisfies [p] is changed in place. *)
Fixpoint update_first (p : CartItem -> bool) (f : CartItem -> CartItem)
    (l : list CartItem) : list CartItem :=
  match l with
  | [] => []
  | x :: r => if p x then f x :: r else x :: update_first p f r
  end.

(** Modelled from the spec: the model declaration of the demo store is not
    among the sources. [cartItems] is its array of cart items, the one the
    actions below search, push to, splice and clear. *)
Definition Cart : Type := list CartItem.

(** [quantity: number = 1]: the default stands in for an argument that is
    left out. [now_iso] is [new Date().toISOString()] at the time of the
    call. *)
Definition addToCart (id : string) (quantity_arg : option number) (now_iso : string)
    (cartItems : Cart) : Cart :=
  let q := default one quantity_arg in
  match List.find (is_product id) cartItems with
  | Some _ =>
      update_first (is_product id)
        (fun item => {| productId := productId item;
                        quantity := add (quantity item) q;
                        addedAt := addedAt item |})
        cartItems
  | None =>
      (cartItems ++ [{| productId := id; quantity := q; addedAt := now_iso |}])%list
  end.

Definition removeFromCart (id : string) (cartItems : Cart) : Cart :=
  remove_first (is_product id) cartItems.

Definition updateCartItemQuantity (id : string) (q : number) (cartItems : Cart) : Cart :=
  match List.find (is_product id) cartItems with
  | Some _ =>
      if le_zero q then removeFromCart id cartItems
      else
        update_first (is_product id)
          (fun item => {| productId := productId item; quantity := q;
                          addedAt := addedAt item |})
          cartItems
  | None => cartItems
  end.

Definition clearCart (cartItems : Cart) : Cart := [].

(** views.ts *)
Definition cartItemCount (cartItems : Cart) : number :=
  fold_left (fun count item => add count (quantity item)) cartItems zero.

Definition isCartEmpty (cartItems : Cart) : bool :=
  (length cartItems =? 0)%nat.

(** The products of the cart, in its order. *)
Definition products_of (cartItems : Cart) : list string := map productId cartItems.

End Numbers.

End ProductStore.

(** ** The responses the client sees *)

Module I3HostApiTraffic.
Import I3HostApi.

Section Traffic.

Variable App : Type.

(** [response.status === 401] *)
Definition is_401 (status : option Z) : bool :=
  match status with
  | Some code => code =? 401
  | None => false
  end.

(** apisauce runs the transform on every response, in the order the
    responses arrive. *)
Definition responses (this : I3HostApi App) (statuses : list (option Z)) (env : Env App)
  : Env App :=
  fold_left (fun e status => responseTransform App this status e) statuses env.

(** What a 401 does to the application: the registered callback, or
    nothing when none is registered. *)
Definition on_401 (this : I3HostApi App) : App -> App :=
  match logoutCallback App this with
  | Some callback => callback
  | None => fun a => a
  end.

End Traffic.

End I3HostApiTraffic.

(** ** More sample data *)

Module MoreSamples.
Import JS UserStore UserStoreViews Sample.


(** The store of the signed-in demo user over storage that was wiped. *)
Definition wiped_storage : World :=
  {| self := self signed_in; storage := ∅; clock := stopped_clock; reads := 0 |}.

Definition blue_theme : PreferencesInput :=
  {| theme_in := Some "blue"; language_in := Some "fr"; notifications_in := Some false |}.

Definition french : PreferencesInput :=
  {| theme_in := Some "dark"; language_in := Some "fr"; notifications_in := Some false |}.

Definition new_name : ProfileUpdates :=
  {| name_in := Some "Demo Two"; avatar_in := Some "" |}.

(** A cart over the integers. *)
Definition cart : ProductStore.Cart Z :=
  [ {| ProductStore.productId := "p1"; ProductStore.quantity := 2;
       ProductStore.addedAt := "2023-11-14T22:13:20.000Z" |};
    {| ProductStore.productId := "p2"; ProductStore.quantity := 1;
       ProductStore.addedAt := "2023-11-14T22:13:20.000Z" |} ].

End MoreSamples.

(** * Properties *)

(** ** JSON.parse undoes JSON.stringify on what the store writes *)

#[local] Arguments String.append !_ _ / : simpl nomatch.

Section JsonRoundTrip.
Import JS JSON.

Lemma append_assoc (a b c : string) : ((a ++ b) ++ c = a ++ (b ++ c))%string.
Proof. induction a as [|x a IH]; simpl; [reflexivity | now rewrite IH]. Qed.

Lemma string_body_quote_char (c : ascii) (tail : string) :
  string_body (quote_char c ++ tail) = push c (string_body tail).
Proof.
  destruct c as [[] [] [] [] [] [] [] []]; reflexivity.
Qed.

Lemma string_body_quote_body (s rest : string) :
  string_body (quote_body s ++ String dquote rest) = Some (s, rest).
Proof.
  induction s as [|c s IH]; cbn [quote_body].
  - reflexivity.
  - rewrite append_assoc, string_body_quote_char, IH. reflexivity.
Qed.

Lemma value_scalar (fuel : nat) (v : json) (rest : string) :
  scalar v = true ->
  value (S fuel) (stringify v ++ rest) = Some (v, rest).
Proof.
  destruct v as [| [] | | s | |]; try discriminate; intros _.
  - reflexivity.
  - reflexivity.
  - cbn [stringify]. unfold quote. cbn [append]. rewrite append_assoc. cbn [append].
    simpl. rewrite string_body_quote_body. reflexivity.
Qed.

Lemma obj_set_fresh (k : string) (v : json) (acc : list (string * json)) :
  existsb (String.eqb k) (map fst acc) = false -> obj_set k v acc = (acc ++ [(k, v)])%list.
Proof.
  induction acc as [|[k' v'] acc IH]; simpl; intros H.
  - reflexivity.
  - apply orb_false_iff in H as [H1 H2]. rewrite H1, IH by exact H2. reflexivity.
Qed.

Lemma join_cons_text (m : string) (ms : list string) (tail : string) :
  exists tail', join (m :: ms) ++ tail = m ++ tail'.
Proof.
  destruct ms as [|m2 ms]; cbn [join].
  - now exists tail.
  - exists ("," ++ join (m2 :: ms) ++ tail). now rewrite append_assoc.
Qed.

Lemma skip_ws_member_text (kv : string * json) (l : list (string * json)) (tail : string) :
  skip_ws (join (map member_text (kv :: l)) ++ tail) = join (map member_text (kv :: l)) ++ tail.
Proof.
  cbn [map]. destruct (join_cons_text (member_text kv) (map member_text l) tail) as [t' ->].
  reflexivity.
Qed.

Lemma member_text_shape (k : string) (v : json) (tail : string) :
  member_text (k, v) ++ tail =
  String dquote (quote_body k ++ String dquote (String ":" (stringify v ++ tail))).
Proof.
  unfold member_text, quote. cbn [fst snd].
  rewrite !append_assoc. cbn [append]. rewrite !append_assoc. reflexivity.
Qed.

Lemma members_unfold (fuel : nat) (r : string) (acc : list (string * json)) :
  members (S fuel) (String dquote r) acc =
  match string_body r with
  | None => None
  | Some (k, r1) =>
      match skip_ws r1 with
      | String c2 r2 =>
          if (code c2 =? 58)%N then
            match value fuel r2 with
            | None => None
            | Some (v, r3) =>
                match skip_ws r3 with
                | String c4 r4 =>
                    if (code c4 =? 44)%N
                    then members fuel (skip_ws r4) (obj_set k v acc)
                    else if (code c4 =? 125)%N
                    then Some (JObj (obj_set k v acc), r4)
                    else None
                | EmptyString => None
                end
            end
          else None
      | EmptyString => None
      end
  end.
Proof. reflexivity. Qed.

Lemma members_then_comma (fuel : nat) (k : string) (v : json) (tail : string)
    (acc : list (string * json)) :
  scalar v = true ->
  members (S (S fuel)) (member_text (k, v) ++ String "," tail) acc =
  members (S fuel) (skip_ws tail) (obj_set k v acc).
Proof.
  intros Hv. rewrite member_text_shape, members_unfold, string_body_quote_body.
  change (skip_ws (String ":" ?x)) with (String ":" x).
  change (code ":" =? 58)%N with true. cbv iota.
  rewrite (value_scalar fuel v _ Hv). reflexivity.
Qed.

Lemma members_then_close (fuel : nat) (k : string) (v : json) (tail : string)
    (acc : list (string * json)) :
  scalar v = true ->
  members (S (S fuel)) (member_text (k, v) ++ String "}" tail) acc =
  Some (JObj (obj_set k v acc), tail).
Proof.
  intros Hv. rewrite member_text_shape, members_unfold, string_body_quote_body.
  change (skip_ws (String ":" ?x)) with (String ":" x).
  change (code ":" =? 58)%N with true. cbv iota.
  rewrite (value_scalar fuel v _ Hv). reflexivity.
Qed.

Lemma members_flat (ms : list (string * json)) :
  forall (fuel : nat) (acc : list (string * json)) (tail : string),
  ms <> [] ->
  flat_members (map fst acc) ms = true ->
  (length ms < fuel)%nat ->
  members fuel (join (map member_text ms) ++ String "}" tail) acc =
  Some (JObj (acc ++ ms)%list, tail).
Proof.
  induction ms as [|[k v] ms IH]; intros fuel acc tail Hne Hflat Hfuel; [congruence|].
  cbn [flat_members] in Hflat.
  apply andb_true_iff in Hflat as [Hflat Hrest].
  apply andb_true_iff in Hflat as [Hv Hk].
  apply negb_true_iff in Hk.
  destruct fuel as [|[|fuel]]; cbn [length] in Hfuel; try lia.
  destruct ms as [|kv2 ms].
  - cbn [map join]. rewrite members_then_close by exact Hv.
    now rewrite obj_set_fresh.
  - change (join (map member_text ((k, v) :: kv2 :: ms)))
      with (member_text (k, v) ++ "," ++ join (map member_text (kv2 :: ms))).
    rewrite !append_assoc.
    change ("," ++ ?x) with (String "," x).
    rewrite members_then_comma by exact Hv.
    rewrite skip_ws_member_text, obj_set_fresh by exact Hk.
    rewrite IH.
    + now rewrite <- app_assoc.
    + discriminate.
    + now rewrite map_app.
    + cbn [length] in *. lia.
Qed.

Lemma string_length_append (a b : string) :
  String.length (a ++ b) = (String.length a + String.length b)%nat.
Proof. induction a as [|x a IH]; simpl; [reflexivity | now rewrite IH]. Qed.

Lemma member_text_length (kv : string * json) : (1 <= String.length (member_text kv))%nat.
Proof.
  destruct kv as [k v]. unfold member_text, quote. cbn [fst append String.length]. lia.
Qed.

Lemma join_member_length (ms : list (string * json)) :
  (length ms <= String.length (join (map member_text ms)))%nat.
Proof.
  induction ms as [|kv ms IH]; [simpl; lia|].
  destruct ms as [|kv2 ms].
  - cbn [map join length]. apply member_text_length.
  - change (join (map member_text (kv :: kv2 :: ms)))
      with (member_text kv ++ "," ++ join (map member_text (kv2 :: ms))).
    rewrite !string_length_append.
    pose proof (member_text_length kv).
    cbn [length String.length] in *. lia.
Qed.

Lemma value_object (fuel : nat) (r : string) :
  value (S fuel) (String "{" (String dquote r)) = members fuel (String dquote r) [].
Proof. reflexivity. Qed.

(** JSON.parse undoes JSON.stringify on the objects the store writes. *)
Lemma parse_stringify_flat (ms : list (string * json)) :
  flat_members [] ms = true ->
  parse (stringify (JObj ms)) = Some (JObj ms).
Proof.
  intros Hflat. destruct ms as [|kv ms]; [reflexivity|].
  unfold parse.
  change (stringify (JObj (kv :: ms)))
    with (String "{" (join (map member_text (kv :: ms)) ++ String "}" "")).
  cbn [String.length].
  destruct (join_cons_text (member_text kv) (map member_text ms) (String "}" "")) as [t' Ht'].
  pose proof (join_member_length (kv :: ms)) as Hlen.
  assert (Hfuel : (length (kv :: ms) < String.length (join (map member_text (kv :: ms)) ++ String "}" ""))%nat).
  { rewrite string_length_append. cbn [String.length]. lia. }
  revert Hfuel.
  generalize (String.length (join (map member_text (kv :: ms)) ++ String "}" "")).
  intros fuel Hfuel.
  assert (Hobj : value (S (S fuel)) (String "{" (join (map member_text (kv :: ms)) ++ String "}" ""))
                 = members (S fuel) (join (map member_text (kv :: ms)) ++ String "}" "") []).
  { cbn [map] in *. rewrite Ht'. destruct kv as [k v]. rewrite member_text_shape.
    apply value_object. }
  rewrite Hobj, members_flat; [reflexivity | discriminate | exact Hflat | lia].
Qed.

End JsonRoundTrip.

(** ** The matcher decides the language of the expression *)

Section RegExpProperties.
Import RegExp.

Lemma append_nil_r (s : string) : s ++ "" = s.
Proof. induction s as [|c s IH]; simpl; [reflexivity | now rewrite IH]. Qed.

Lemma append_eq_nil (s1 s2 : string) : s1 ++ s2 = "" -> s1 = "" /\ s2 = "".
Proof. destruct s1; simpl; [auto | discriminate]. Qed.

Lemma append_eq_cons (s1 s2 s : string) (c : ascii) :
  s1 ++ s2 = String c s ->
  (s1 = "" /\ s2 = String c s) \/ (exists s1', s1 = String c s1' /\ s = s1' ++ s2).
Proof.
  destruct s1 as [|c1 s1]; simpl; intros H.
  - left. auto.
  - right. injection H as -> <-. eauto.
Qed.

Lemma nullable_matches (r : regex) : nullable r = true <-> matches r "".
Proof.
  split.
  - induction r; simpl; intros H; try discriminate.
    + constructor.
    + apply andb_true_iff in H as [H1 H2].
      change "" with ("" ++ ""). constructor; auto.
    + apply orb_true_iff in H as [H|H]; [apply matches_Alt_l | apply matches_Alt_r]; auto.
    + apply matches_Plus_one; auto.
  - intros H. remember "" as s eqn:Es.
    induction H; simpl; subst; try discriminate; auto.
    + apply append_eq_nil in Es as [-> ->]. rewrite IHmatches1, IHmatches2; auto.
    + rewrite IHmatches; auto.
    + rewrite IHmatches, orb_true_r; auto.
    + apply append_eq_nil in Es as [-> ->]. auto.
Qed.

Lemma matches_deriv (r : regex) (c : ascii) (s : string) :
  matches (deriv c r) s -> matches r (String c s).
Proof.
  revert s. induction r; simpl; intros s H.
  - inversion H.
  - inversion H.
  - destruct (p c) eqn:Ep; inversion H; subst. now constructor.
  - destruct (nullable r1) eqn:En.
    + inversion H as [| | | ? ? ? H1 | ? ? ? H2 | |]; subst.
      * inversion H1; subst.
        change (String c (s1 ++ s2)) with (String c s1 ++ s2). constructor; auto.
      * change (String c s) with ("" ++ String c s). constructor; auto.
        now apply nullable_matches.
    + inversion H; subst.
      change (String c (s1 ++ s2)) with (String c s1 ++ s2). constructor; auto.
  - inversion H; subst; [apply matches_Alt_l | apply matches_Alt_r]; auto.
  - inversion H as [| | ? ? ? ? H1 H2 | | | |]; subst.
    inversion H2 as [| | | ? ? ? H3 | ? ? ? H3 | |]; subst.
    + inversion H3; subst. rewrite append_nil_r. apply matches_Plus_one; auto.
    + change (String c (s1 ++ s2)) with (String c s1 ++ s2).
      apply matches_Plus_more; auto.
Qed.

Lemma deriv_matches (r : regex) (c : ascii) (s : string) :
  matches r (String c s) -> matches (deriv c r) s.
Proof.
  intros H. remember (String c s) as cs eqn:Ecs. revert c s Ecs.
  induction H; intros c0 s0 Ecs; simpl; try discriminate.
  - injection Ecs as -> <-. rewrite H. constructor.
  - apply append_eq_cons in Ecs as [[-> ->] | (s1' & -> & ->)].
    + assert (nullable r1 = true) as -> by now apply nullable_matches.
      apply matches_Alt_r; auto.
    + destruct (nullable r1);
        [apply matches_Alt_l|]; constructor; auto.
  - apply matches_Alt_l; auto.
  - apply matches_Alt_r; auto.
  - rewrite <- (append_nil_r s0). constructor; auto.
    apply matches_Alt_l. constructor.
  - apply append_eq_cons in Ecs as [[-> ->] | (s1' & -> & ->)].
    + now apply IHmatches2.
    + constructor; auto. now apply matches_Alt_r.
Qed.

Theorem test_matches (r : regex) (s : string) : test r s = true <-> matches r s.
Proof.
  unfold test. revert r. induction s as [|c s IH]; intros r; simpl.
  - apply nullable_matches.
  - rewrite IH. split; [apply matches_deriv | apply deriv_matches].
Qed.

Lemma matches_Plus_Class (p : ascii -> bool) (s : string) :
  matches (Plus (Class p)) s <-> s <> "" /\ every p s = true.
Proof.
  split.
  - intros H. remember (Plus (Class p)) as r eqn:Er.
    induction H; try discriminate; injection Er as ->.
    + inversion H as [| ? c Hc | | | | |]; subst. simpl. rewrite Hc.
      split; [discriminate | reflexivity].
    + inversion H as [| ? c Hc | | | | |]; subst.
      destruct (IHmatches2 eq_refl) as [_ He].
      simpl. rewrite Hc, He. split; [discriminate | reflexivity].
  - intros [Hne He]. induction s as [|c s IH]; [congruence|].
    simpl in He. apply andb_true_iff in He as [Hc He].
    destruct s as [|c2 s].
    + apply matches_Plus_one. now constructor.
    + change (String c (String c2 s)) with (String c "" ++ String c2 s).
      apply matches_Plus_more; [now constructor|]. apply IH; [discriminate | exact He].
Qed.

Lemma matches_is_char (x : ascii) (s : string) :
  matches (Class (is_char x)) s <-> s = String x "".
Proof.
  split.
  - intros H. inversion H as [| ? c Hc | | | | |]; subst. unfold is_char in Hc.
    apply Ascii.eqb_eq in Hc. now subst.
  - intros ->. constructor. apply Ascii.eqb_refl.
Qed.

End RegExpProperties.

(** ** The flows of the UserStore *)

Section FlowProperties.
Import JS UserStore.
Local Open Scope action_scope.

Variable Date_toISOString : Z -> string.
Variable interleave : World -> World.

Lemma try_normal {A : Type} (body : Action A) (handler : exception -> Action A)
    (finalizer : Action unit) (w w1 w2 : World) (a : A) :
  body w = (Normal a, w1) ->
  finalizer w1 = (Normal tt, w2) ->
  try_catch_finally body handler finalizer w = (Normal a, w2).
Proof.
  intros Hb Hf. unfold try_catch_finally, try_finally, try_catch. now rewrite Hb, Hf.
Qed.

Lemma try_caught {A : Type} (body : Action A) (handler : exception -> Action A)
    (finalizer : Action unit) (w w1 w2 w3 : World) (e : exception) (c : completion A) :
  body w = (Throw e, w1) ->
  handler e w1 = (c, w2) ->
  finalizer w2 = (Normal tt, w3) ->
  try_catch_finally body handler finalizer w = (c, w3).
Proof.
  intros Hb Hh Hf. unfold try_catch_finally, try_finally, try_catch.
  now rewrite Hb, Hh, Hf.
Qed.

(** Whatever the try and catch blocks do, a flow that ends in
    [finally { self.setLoading(false) }] ends with the flag down. *)
Lemma finally_setLoading {A : Type} (body : Action A) (handler : exception -> Action A)
    (w : World) :
  isLoading (self (snd (try_catch_finally body handler (setLoading false) w))) = false.
Proof.
  unfold try_catch_finally, try_finally, try_catch.
  destruct (body w) as [[a|e] w1]; [reflexivity|].
  destruct (handler e w1) as [c w2]; reflexivity.
Qed.

Lemma finally_setAuthenticating {A : Type} (body : Action A)
    (handler : exception -> Action A) (w : World) :
  isAuthenticating (self (snd (try_catch_finally body handler (setAuthenticating false) w)))
  = false.
Proof.
  unfold try_catch_finally, try_finally, try_catch.
  destruct (body w) as [[a|e] w1]; [reflexivity|].
  destruct (handler e w1) as [c w2]; reflexivity.
Qed.

Lemma credentials_test (email_arg password : string) :
  String.eqb email_arg "demo@example.com" && String.eqb password "password" = true
  <-> email_arg = "demo@example.com" /\ password = "password".
Proof.
  rewrite andb_true_iff, !String.eqb_eq. reflexivity.
Qed.

(** The three setters login calls on its mock data go through on any
    store. *)
Lemma login_setters (token_text expiry refresh : string) (w : World) :
  exists w',
    (setSession (JObj [("token", JStr token_text); ("expiresAt", JStr expiry);
                       ("refreshToken", JStr refresh)]) ;;
     setCurrentUser (JObj [("id", JStr "1"); ("email", JStr "demo@example.com");
                           ("name", JStr "Demo User");
                           ("avatar", JStr "https://via.placeholder.com/150")]) ;;
     setPreferences (JObj [("theme", JStr "system"); ("language", JStr "en");
                           ("notifications", JBool true)]) ;;
     ret success) w = (Normal success, w')
    /\ session (self w') =
         Some {| token := token_text; expiresAt := Some expiry; refreshToken := Some refresh |}
    /\ currentUser (self w') <> None.
Proof.
  unfold setSession, setCurrentUser, setPreferences, bind, get_self. cbn.
  destruct (preferences (self w)); cbn; eexists; repeat split; discriminate.
Qed.

Lemma login_try_demo (w : World) :
  exists w' t e f,
    login_try Date_toISOString interleave "demo@example.com" "password" w
      = (Normal success, w')
    /\ session (self w') =
         Some {| token := "mock_jwt_token_" ++ t; expiresAt := Some e; refreshToken := Some f |}
    /\ currentUser (self w') <> None.
Proof.
  unfold login_try, sleep. unfold bind at 1. generalize (interleave w) as w1. intros w1.
  cbn [String.eqb Ascii.eqb Bool.eqb andb].
  unfold bind at 1 2 3, Date_now.
  match goal with
  | |- context [ (setSession (JObj [("token", JStr (_ ++ ?t)); ("expiresAt", JStr ?e);
                                     ("refreshToken", JStr ?f)]) ;; _) ?w2 ] =>
      destruct (login_setters ("mock_jwt_token_" ++ t) e f w2) as (w3 & Hrun & Hs & Hu);
      exists w3, t, e, f
  end.
  repeat split; assumption.
Qed.

Lemma login_try_rejected (email_arg password : string) (w : World) :
  String.eqb email_arg "demo@example.com" && String.eqb password "password" = false ->
  exists w',
    login_try Date_toISOString interleave email_arg password w
      = (Normal (failure "Invalid email or password"), w')
    /\ session (self w') = session (self (interleave w))
    /\ storage w' = storage (interleave w).
Proof.
  intros Hne. unfold login_try, sleep. unfold bind at 1. rewrite Hne.
  eexists. repeat split.
Qed.

Lemma login_unfold (email_arg password : string) (w : World) :
  login Date_toISOString interleave email_arg password w =
  try_catch_finally (login_try Date_toISOString interleave email_arg password)
    login_catch (setAuthenticating false)
    (snd (clearError (snd (setAuthenticating true w)))).
Proof. reflexivity. Qed.

Lemma login_demo_run (w : World) :
  exists w' t e f,
    login Date_toISOString interleave "demo@example.com" "password" w = (Normal success, w')
    /\ session (self w') =
         Some {| token := "mock_jwt_token_" ++ t; expiresAt := Some e; refreshToken := Some f |}
    /\ currentUser (self w') <> None.
Proof.
  rewrite login_unfold.
  destruct (login_try_demo (snd (clearError (snd (setAuthenticating true w)))))
    as (w1 & t & e & f & Hrun & Hs & Hu).
  eexists _, t, e, f. split; [|split].
  - eapply try_normal; [exact Hrun | reflexivity].
  - exact Hs.
  - exact Hu.
Qed.

Lemma login_rejected_run (email_arg password : string) (w : World) :
  ~ (email_arg = "demo@example.com" /\ password = "password") ->
  exists w',
    login Date_toISOString interleave email_arg password w
      = (Normal (failure "Invalid email or password"), w')
    /\ session (self w')
       = session (self (interleave (snd (clearError (snd (setAuthenticating true w)))))).
Proof.
  intros Hne. rewrite login_unfold.
  destruct (login_try_rejected email_arg password
              (snd (clearError (snd (setAuthenticating true w))))) as (w1 & Hrun & Hs & _).
  { destruct (String.eqb email_arg "demo@example.com" && String.eqb password "password") eqn:E;
      [apply credentials_test in E; tauto | reflexivity]. }
  eexists. split.
  - eapply try_normal; [exact Hrun | reflexivity].
  - exact Hs.
Qed.

(** C1 (amended). login with demo@example.com and password resolves to
    [{ success: true }] and leaves the store authenticated, with a session
    whose token is not empty, whatever the store held before and whatever
    ran while login waited. With any other pair it resolves to
    [{ success: false, error: "Invalid email or password" }] and assigns no
    session: when nothing touches the session while login waits, the store
    ends with the session it had, unset when it was unset. *)
Theorem login_outcome (email_arg password : string) (w : World) :
  let r := fst (login Date_toISOString interleave email_arg password w) in
  let w' := snd (login Date_toISOString interleave email_arg password w) in
  (email_arg = "demo@example.com" /\ password = "password" ->
     r = Normal success
     /\ isAuthenticated (self w') = true
     /\ exists s, session (self w') = Some s /\ token s <> "")
  /\ (~ (email_arg = "demo@example.com" /\ password = "password") ->
     r = Normal (failure "Invalid email or password")
     /\ ((forall w0, session (self (interleave w0)) = session (self w0)) ->
         session (self w') = session (self w))).
Proof.
  cbv zeta. split.
  - intros [-> ->].
    destruct (login_demo_run w) as (w1 & t & e & f & -> & Hs & Hu).
    cbn [fst snd]. unfold isAuthenticated, has_token. rewrite Hs.
    destruct (currentUser (self w1)); [|congruence].
    repeat split. eexists; split; [reflexivity|]. discriminate.
  - intros Hne.
    destruct (login_rejected_run email_arg password w Hne) as (w1 & -> & Hs).
    cbn [fst snd]. split; [reflexivity|].
    intros Hquiet. now rewrite Hs, Hquiet.
Qed.

Lemma refreshUser_guarded (w : World) :
  has_token (self w) = false -> refreshUser interleave w = (Normal tt, w).
Proof.
  intros H. unfold refreshUser, bind, get_self. now rewrite H.
Qed.

Lemma updateUserProfile_guarded (updates : json) (w : World) :
  has_token (self w) = false ->
  isLoading (self (snd (updateUserProfile interleave updates w))) = isLoading (self w).
Proof.
  intros H. unfold updateUserProfile, bind at 1, get_self. now rewrite H.
Qed.

(** C7 (amended). When login completes isAuthenticating is false, and when
    logout, hydrate or updatePreferences completes isLoading is false,
    whether the try block returned or threw. refreshUser and
    updateUserProfile end with isLoading false when the session has a token;
    without one they return before they touch the flag, which keeps the
    value it had. *)
Theorem loading_flag_down_when_flow_completes
    (email_arg password : string) (updates preferences_arg : json) (w : World) :
  isAuthenticating (self (snd (login Date_toISOString interleave email_arg password w)))
    = false
  /\ isLoading (self (snd (logout w))) = false
  /\ isLoading (self (snd (hydrate w))) = false
  /\ isLoading (self (snd (updatePreferences interleave preferences_arg w))) = false
  /\ (has_token (self w) = true ->
        isLoading (self (snd (refreshUser interleave w))) = false
        /\ isLoading (self (snd (updateUserProfile interleave updates w))) = false)
  /\ (has_token (self w) = false ->
        isLoading (self (snd (refreshUser interleave w))) = isLoading (self w)
        /\ isLoading (self (snd (updateUserProfile interleave updates w)))
           = isLoading (self w)).
Proof.
  split; [apply finally_setAuthenticating|].
  split; [reflexivity|].
  split; [apply finally_setLoading|].
  split; [apply finally_setLoading|].
  split; intros H.
  - split.
    + unfold refreshUser, bind at 1, get_self. rewrite H. apply finally_setLoading.
    + unfold updateUserProfile, bind at 1, get_self. rewrite H. apply finally_setLoading.
  - split.
    + now rewrite refreshUser_guarded.
    + now apply updateUserProfile_guarded.
Qed.

(** logout on any world: nothing in it throws. *)
Lemma logout_run (w : World) :
  logout w =
  (Normal tt,
   {| self := {| currentUser := None; session := None;
                 preferences := preferences (self w);
                 isLoading := false;
                 isAuthenticating := isAuthenticating (self w);
                 error := None |};
      storage := delete "currentUser" (delete "userSession" (storage w));
      clock := clock w; reads := reads w |}).
Proof. reflexivity. Qed.

(** C2. After logout the current user and the session are undefined and
    the preferences are the ones the store held before logout was called;
    logout itself completes normally. In storage the two blobs of user and
    session are gone and the preferences blob is untouched. *)
Theorem logout_clears_user_and_session_keeps_preferences (w : World) :
  fst (logout w) = Normal tt
  /\ currentUser (self (snd (logout w))) = None
  /\ session (self (snd (logout w))) = None
  /\ preferences (self (snd (logout w))) = preferences (self w)
  /\ storage (snd (logout w)) !! "userPreferences" = storage w !! "userPreferences"
  /\ storage (snd (logout w)) = delete "currentUser" (delete "userSession" (storage w)).
Proof.
  rewrite logout_run. cbn [fst snd self storage currentUser session preferences].
  repeat split. now rewrite !lookup_delete_ne by discriminate.
Qed.

(** The try block of refreshSession throws exactly when the session is
    gone by the time the timer returns, and what it throws then is the
    TypeError of reading a property of undefined. *)
Lemma refreshSession_try_throws (w : World) :
  (session (self (interleave w)) = None ->
   fst (refreshSession_try Date_toISOString interleave w)
   = Throw (TypeError "Cannot read property 'refreshToken' of undefined"))
  /\ (session (self (interleave w)) <> None ->
      fst (refreshSession_try Date_toISOString interleave w) = Normal success).
Proof.
  unfold refreshSession_try, sleep. unfold bind at 1 6. cbv beta iota.
  generalize (interleave w) as w1.
  intros [[cu [[t e r]|] pr il ia er] st cl rd]; split; cbn [session self]; intros H;
    try congruence; try reflexivity.
  destruct r; reflexivity.
Qed.

Lemma refreshSession_unfold (w : World) :
  has_refreshToken (self w) = true ->
  refreshSession Date_toISOString interleave w =
  try_catch (refreshSession_try Date_toISOString interleave) refreshSession_catch w.
Proof.
  intros H. unfold refreshSession, bind at 1, get_self. now rewrite H.
Qed.

Lemma refreshSession_catch_run (e : exception) (w : World) :
  refreshSession_catch e w =
  (Normal (failure (errorMessage e "Session refresh failed")),
   snd (logout (snd (setError (Some (errorMessage e "Session refresh failed")) w)))).
Proof. reflexivity. Qed.

(** C6. With a refresh token present, when the try block of refreshSession
    throws, the catch block runs logout before refreshSession returns: the
    world refreshSession ends in is the one logout leaves, session and
    current user are undefined, and the result is [{ success: false }] with
    the message of the failure. *)
Theorem refreshSession_failure_cascades_into_logout (w w1 : World) (e : exception) :
  has_refreshToken (self w) = true ->
  refreshSession_try Date_toISOString interleave w = (Throw e, w1) ->
  let message := errorMessage e "Session refresh failed" in
  let r := fst (refreshSession Date_toISOString interleave w) in
  let w' := snd (refreshSession Date_toISOString interleave w) in
  w' = snd (logout (snd (setError (Some message) w1)))
  /\ session (self w') = None
  /\ currentUser (self w') = None
  /\ r = Normal (failure message)
  /\ FlowResult.success (failure message) = false.
Proof.
  intros Htoken Hthrow. cbv zeta.
  rewrite (refreshSession_unfold w Htoken). unfold try_catch. rewrite Hthrow.
  rewrite refreshSession_catch_run. cbn [fst snd]. rewrite logout_run.
  repeat split.
Qed.

(** C10. With a refresh token present, when the try block of refreshSession
    throws, the error field is undefined when refreshSession returns,
    although the catch block had set it and the result carries the message:
    the logout that follows setError clears it. *)
Theorem refreshSession_failure_leaves_error_cleared (w w1 : World) (e : exception) :
  has_refreshToken (self w) = true ->
  refreshSession_try Date_toISOString interleave w = (Throw e, w1) ->
  let message := errorMessage e "Session refresh failed" in
  let r := fst (refreshSession Date_toISOString interleave w) in
  let w' := snd (refreshSession Date_toISOString interleave w) in
  error (self w') = None
  /\ r = Normal {| FlowResult.success := false; FlowResult.error := Some message |}
  /\ error (self (snd (setError (Some message) w1)))
     = (if String.eqb message "" then None else Some message).
Proof.
  intros Htoken Hthrow. cbv zeta.
  rewrite (refreshSession_unfold w Htoken). unfold try_catch. rewrite Hthrow.
  rewrite refreshSession_catch_run. cbn [fst snd]. rewrite logout_run.
  repeat split.
Qed.

End FlowProperties.

(** ** hydrate *)

Section HydrateProperties.
Import JS UserStore.
Local Open Scope action_scope.

Lemma hydrate_try_steps (w : World) :
  hydrate_try w =
  (load "userSession" setSession ;;
   load "currentUser" setCurrentUser ;;
   load "userPreferences" setPreferences) w.
Proof. reflexivity. Qed.

Lemma setSession_keeps (v : json) : keeps "userSession" (setSession v).
Proof.
  intros w. unfold setSession, bind, lift.
  destruct (truthy v); [destruct (UserSession_create _ _ _)|]; cbn;
    (split; [reflexivity|]); intros k Hk; try reflexivity.
  - now rewrite lookup_insert_ne.
  - now rewrite lookup_delete_ne.
Qed.

Lemma setCurrentUser_keeps (v : json) : keeps "currentUser" (setCurrentUser v).
Proof.
  intros w. unfold setCurrentUser, bind, lift.
  destruct (truthy v); [destruct (User_create _)|]; cbn;
    (split; [reflexivity|]); intros k Hk; try reflexivity.
  - now rewrite lookup_insert_ne.
  - now rewrite lookup_delete_ne.
Qed.

Lemma load_run (key : string) (setter : json -> Action unit) (w : World) :
  load key setter w =
  when_saved (storage w !! key) (fun text => v <- JSON_parse text ;; setter v) w.
Proof. reflexivity. Qed.

Lemma load_keeps (key : string) (setter : json -> Action unit) :
  (forall v, keeps key (setter v)) -> keeps key (load key setter).
Proof.
  intros Hset w. rewrite load_run. unfold when_saved.
  destruct (storage w !! key) as [text|]; [|split; reflexivity].
  destruct (String.eqb text ""); [split; reflexivity|].
  unfold bind, JSON_parse. destruct (JSON.parse text) as [v|]; [|split; reflexivity].
  apply Hset.
Qed.

Lemma load_corrupted (key blob : string) (setter : json -> Action unit) (w : World) :
  storage w !! key = Some blob ->
  blob <> "" ->
  JSON.parse blob = None ->
  load key setter w = (Throw (SyntaxError "JSON Parse error"), w).
Proof.
  intros Hsaved Hne Hparse. rewrite load_run. unfold when_saved.
  rewrite Hsaved. apply String.eqb_neq in Hne. rewrite Hne.
  unfold bind, JSON_parse. now rewrite Hparse.
Qed.

Lemma hydrate_try_corrupted (w : World) (key blob : string) :
  key = "userSession" \/ key = "currentUser" \/ key = "userPreferences" ->
  storage w !! key = Some blob ->
  blob <> "" ->
  JSON.parse blob = None ->
  exists e w1, hydrate_try w = (Throw e, w1) /\ error (self w1) = error (self w).
Proof.
  intros Hkey Hsaved Hne Hparse. rewrite hydrate_try_steps.
  pose proof (load_keeps "userSession" setSession setSession_keeps w) as [He1 Hs1].
  unfold bind at 1.
  destruct Hkey as [-> | Hkey].
  { rewrite (load_corrupted _ blob) by assumption. eauto. }
  destruct (load "userSession" setSession w) as [[[]|e1] w1]; cbn [snd] in *; [|eauto].
  pose proof (load_keeps "currentUser" setCurrentUser setCurrentUser_keeps w1) as [He2 Hs2].
  unfold bind at 1.
  destruct Hkey as [-> | ->].
  { rewrite (load_corrupted _ blob); [| rewrite Hs1 by discriminate | |]; eauto. }
  destruct (load "currentUser" setCurrentUser w1) as [[[]|e2] w2]; cbn [snd] in *.
  - rewrite (load_corrupted _ blob); [| rewrite Hs2, Hs1 by discriminate | |]; eauto.
    do 2 eexists; split; [reflexivity|]. congruence.
  - do 2 eexists; split; [reflexivity|]. congruence.
Qed.

Lemma hydrate_unfold (w : World) :
  hydrate w = try_catch_finally hydrate_try hydrate_catch (setLoading false)
                (snd (setLoading true w)).
Proof. reflexivity. Qed.

(** C3 (amended). When one of the three blobs in storage is a non-empty
    string that JSON.parse rejects, hydrate completes normally, session and
    current user end undefined, and the error field is what it was before:
    the failure is not shown to the user. *)
Theorem hydrate_survives_corrupted_blob (w : World) (key blob : string) :
  key = "userSession" \/ key = "currentUser" \/ key = "userPreferences" ->
  storage w !! key = Some blob ->
  blob <> "" ->
  JSON.parse blob = None ->
  fst (hydrate w) = Normal tt
  /\ session (self (snd (hydrate w))) = None
  /\ currentUser (self (snd (hydrate w))) = None
  /\ error (self (snd (hydrate w))) = error (self w).
Proof.
  intros Hkey Hsaved Hne Hparse.
  destruct (hydrate_try_corrupted (snd (setLoading true w)) key blob Hkey Hsaved Hne Hparse)
    as (e & w1 & Hthrow & Herr).
  rewrite hydrate_unfold.
  erewrite try_caught by (first [exact Hthrow | reflexivity]).
  cbn. repeat split. exact Herr.
Qed.


(** *** What is written is what is read back *)

Lemma UserSession_create_snapshot (s : UserSession) :
  let v := UserSession_snapshot s in
  UserSession_create (get v "token") (get v "expiresAt") (get v "refreshToken") = inr s.
Proof. destruct s as [t [e|] [r|]]; reflexivity. Qed.

Lemma User_create_snapshot (u : User) : User_create (User_snapshot u) = inr u.
Proof. destruct u as [i e [n|] [a|]]; reflexivity. Qed.

Lemma UserPreferences_create_snapshot (q : UserPreferences) :
  UserPreferences_create (UserPreferences_snapshot q) = inr q.
Proof. destruct q as [[] l n]; reflexivity. Qed.

Lemma parse_UserSession_snapshot (s : UserSession) :
  JSON.parse (JSON.stringify (UserSession_snapshot s)) = Some (UserSession_snapshot s).
Proof. destruct s as [t [e|] [r|]]; apply parse_stringify_flat; reflexivity. Qed.

Lemma parse_User_snapshot (u : User) :
  JSON.parse (JSON.stringify (User_snapshot u)) = Some (User_snapshot u).
Proof. destruct u as [i e [n|] [a|]]; apply parse_stringify_flat; reflexivity. Qed.

Lemma parse_UserPreferences_snapshot (q : UserPreferences) :
  JSON.parse (JSON.stringify (UserPreferences_snapshot q))
  = Some (UserPreferences_snapshot q).
Proof. apply parse_stringify_flat; reflexivity. Qed.

Lemma stringify_object_not_empty (ms : list (string * json)) :
  String.eqb (JSON.stringify (JObj ms)) "" = false.
Proof. reflexivity. Qed.

Lemma setSession_snapshot (s : UserSession) (w : World) :
  setSession (UserSession_snapshot s) w =
  (Normal tt,
   {| self := {| currentUser := currentUser (self w); session := Some s;
                 preferences := preferences (self w); isLoading := isLoading (self w);
                 isAuthenticating := isAuthenticating (self w); error := error (self w) |};
      storage := <["userSession" := JSON.stringify (UserSession_snapshot s)]> (storage w);
      clock := clock w; reads := reads w |}).
Proof.
  unfold setSession. change (truthy (UserSession_snapshot s)) with true. cbv iota.
  unfold bind at 1. rewrite UserSession_create_snapshot. reflexivity.
Qed.

Lemma setCurrentUser_snapshot (u : User) (w : World) :
  setCurrentUser (User_snapshot u) w =
  (Normal tt,
   {| self := {| currentUser := Some u; session := session (self w);
                 preferences := preferences (self w); isLoading := isLoading (self w);
                 isAuthenticating := isAuthenticating (self w); error := error (self w) |};
      storage := <["currentUser" := JSON.stringify (User_snapshot u)]> (storage w);
      clock := clock w; reads := reads w |}).
Proof.
  unfold setCurrentUser. change (truthy (User_snapshot u)) with true. cbv iota.
  unfold bind at 1. rewrite User_create_snapshot. reflexivity.
Qed.

Lemma as_theme_not_empty (t : string) (th : Theme) :
  as_theme (Some (JStr t)) = Some th -> String.eqb t "" = false.
Proof. destruct t; [discriminate | reflexivity]. Qed.

Ltac run_setPreferences :=
  unfold setPreferences, PreferencesInput_js, UserPreferences_create, merged_preferences,
    bind, prop, truthy_opt, truthy, assign_theme, assign_language, assign_notifications,
    with_preferences, persist_preferences, assign_preferences, modify, storage_set,
    get_self, lift, ret, throw, optional, field;
  cbn -[JSON.stringify as_theme].

Lemma setPreferences_input (p : PreferencesInput) (w : World) :
  theme_valid p = true ->
  let q := merged_preferences (preferences (self w)) p in
  setPreferences (PreferencesInput_js p) w =
  (Normal tt,
   {| self := {| currentUser := currentUser (self w); session := session (self w);
                 preferences := Some q; isLoading := isLoading (self w);
                 isAuthenticating := isAuthenticating (self w); error := error (self w) |};
      storage := <["userPreferences" := JSON.stringify (UserPreferences_snapshot q)]>
                   (storage w);
      clock := clock w; reads := reads w |}).
Proof.
  destruct p as [th la no]. destruct w as [[cu se pr il ia er] st cl rd].
  unfold theme_valid. cbn [theme_in]. intros Hvalid. cbv zeta.
  destruct th as [t|].
  - destruct (as_theme (Some (JStr t))) as [tv|] eqn:Et; [|discriminate].
    pose proof (as_theme_not_empty t tv Et) as Hne.
    destruct pr as [[ot ol on]|]; destruct la as [l|]; destruct no as [n|];
      try (destruct (String.eqb l "") eqn:El);
      run_setPreferences; rewrite ?Hne, ?Et, ?El;
      run_setPreferences; rewrite ?Hne, ?Et, ?El;
      run_setPreferences; reflexivity.
  - destruct pr as [[ot ol on]|]; destruct la as [l|]; destruct no as [n|];
      try (destruct (String.eqb l "") eqn:El);
      run_setPreferences; rewrite ?El; run_setPreferences; reflexivity.
Qed.

Lemma setPreferences_snapshot (q : UserPreferences) (w : World) :
  preferences (self w) = None ->
  setPreferences (UserPreferences_snapshot q) w =
  (Normal tt,
   {| self := {| currentUser := currentUser (self w); session := session (self w);
                 preferences := Some q; isLoading := isLoading (self w);
                 isAuthenticating := isAuthenticating (self w); error := error (self w) |};
      storage := <["userPreferences" := JSON.stringify (UserPreferences_snapshot q)]>
                   (storage w);
      clock := clock w; reads := reads w |}).
Proof.
  intros Hnone. unfold setPreferences. unfold bind at 1 2, get_self. rewrite Hnone.
  unfold bind at 1. rewrite UserPreferences_create_snapshot. reflexivity.
Qed.

Lemma load_saved (key text : string) (setter : json -> Action unit) (v : json) (w : World) :
  storage w !! key = Some text ->
  String.eqb text "" = false ->
  JSON.parse text = Some v ->
  load key setter w = setter v w.
Proof.
  intros Hsaved Hne Hparse. rewrite load_run. unfold when_saved.
  rewrite Hsaved, Hne. unfold bind, JSON_parse. now rewrite Hparse.
Qed.

(** hydrate on a store without preferences whose storage holds the three
    blobs of [s], [u] and [q]. *)
Lemma hydrate_restores (s : UserSession) (u : User) (q : UserPreferences) (w : World) :
  preferences (self w) = None ->
  storage w !! "userSession" = Some (JSON.stringify (UserSession_snapshot s)) ->
  storage w !! "currentUser" = Some (JSON.stringify (User_snapshot u)) ->
  storage w !! "userPreferences" = Some (JSON.stringify (UserPreferences_snapshot q)) ->
  fst (hydrate w) = Normal tt
  /\ session (self (snd (hydrate w))) = Some s
  /\ currentUser (self (snd (hydrate w))) = Some u
  /\ preferences (self (snd (hydrate w))) = Some q.
Proof.
  intros Hnone Hs Hu Hq.
  assert (Hrun : exists w', hydrate_try (snd (setLoading true w)) = (Normal tt, w')
                   /\ session (self w') = Some s /\ currentUser (self w') = Some u
                   /\ preferences (self w') = Some q).
  { rewrite hydrate_try_steps. unfold bind at 1.
    erewrite load_saved;
      [| exact Hs | apply stringify_object_not_empty | apply parse_UserSession_snapshot].
    rewrite setSession_snapshot. unfold bind at 1.
    erewrite load_saved;
      [| cbn [storage]; rewrite lookup_insert_ne by discriminate; exact Hu
       | apply stringify_object_not_empty | apply parse_User_snapshot].
    rewrite setCurrentUser_snapshot.
    erewrite load_saved;
      [| cbn [storage]; rewrite !lookup_insert_ne by discriminate; exact Hq
       | apply stringify_object_not_empty | apply parse_UserPreferences_snapshot].
    rewrite setPreferences_snapshot by exact Hnone.
    eexists. repeat split. }
  destruct Hrun as (w' & Hrun & Hs' & Hu' & Hq').
  rewrite hydrate_unfold.
  erewrite try_normal by (first [exact Hrun | reflexivity]).
  cbn. auto.
Qed.

Lemma persist_all_run (s : UserSession) (u : User) (p : PreferencesInput) (w : World) :
  theme_valid p = true ->
  let q := merged_preferences (preferences (self w)) p in
  persist_all s u p w =
  (Normal tt,
   {| self := {| currentUser := Some u; session := Some s; preferences := Some q;
                 isLoading := isLoading (self w);
                 isAuthenticating := isAuthenticating (self w); error := error (self w) |};
      storage :=
        <["userPreferences" := JSON.stringify (UserPreferences_snapshot q)]>
          (<["currentUser" := JSON.stringify (User_snapshot u)]>
             (<["userSession" := JSON.stringify (UserSession_snapshot s)]> (storage w)));
      clock := clock w; reads := reads w |}).
Proof.
  intros Hvalid. cbv zeta. unfold persist_all. unfold bind at 1.
  rewrite setSession_snapshot. unfold bind at 1. rewrite setCurrentUser_snapshot.
  rewrite setPreferences_input by exact Hvalid. reflexivity.
Qed.

Lemma merged_preferences_complete (old : option UserPreferences) (p : PreferencesInput)
    (q : UserPreferences) :
  preferences_equal p q -> language q <> "" -> merged_preferences old p = q.
Proof.
  destruct p as [th la no], q as [t l n]. unfold preferences_equal.
  cbn [theme_in language_in notifications_in theme language notifications].
  intros (-> & -> & ->) Hl. apply String.eqb_neq in Hl.
  destruct old as [o|], t; cbn; rewrite ?Hl; reflexivity.
Qed.

(** C8 (amended). For every session [s], user [u] and preferences argument
    [p] whose theme, when given, is light, dark or system: setSession(s),
    setCurrentUser(u) and setPreferences(p) complete and change storage at
    the three keys userSession, currentUser and userPreferences only, and
    hydrate on a new store over that storage completes with session [s],
    current user [u] and the preferences the writing store ended with: the
    fields of [p] over that store's earlier preferences or over the
    defaults system, en, true. They are [p] itself when [p] names all three
    fields and its language is not empty. *)
Theorem persistence_round_trip (w : World) (s : UserSession) (u : User)
    (p : PreferencesInput) :
  theme_valid p = true ->
  let q := merged_preferences (preferences (self w)) p in
  let w1 := snd (persist_all s u p w) in
  let w2 := snd (hydrate (restart w1)) in
  fst (persist_all s u p w) = Normal tt
  /\ storage w1 =
       <["userPreferences" := JSON.stringify (UserPreferences_snapshot q)]>
         (<["currentUser" := JSON.stringify (User_snapshot u)]>
            (<["userSession" := JSON.stringify (UserSession_snapshot s)]> (storage w)))
  /\ fst (hydrate (restart w1)) = Normal tt
  /\ session (self w2) = Some s
  /\ currentUser (self w2) = Some u
  /\ preferences (self w2) = Some q
  /\ preferences (self w2) = preferences (self w1)
  /\ (forall q0, preferences_equal p q0 -> language q0 <> "" -> q = q0).
Proof.
  intros Hvalid. cbv zeta. rewrite (persist_all_run s u p w Hvalid). cbn [fst snd].
  split; [reflexivity|]. split; [reflexivity|].
  match goal with
  | |- context [ hydrate ?w0 ] =>
      destruct (hydrate_restores s u (merged_preferences (preferences (self w)) p) w0)
        as (H0 & H1 & H2 & H3)
  end.
  - reflexivity.
  - cbn [restart storage]. rewrite !lookup_insert_ne by discriminate.
    apply lookup_insert_eq.
  - cbn [restart storage]. rewrite lookup_insert_ne by discriminate.
    apply lookup_insert_eq.
  - cbn [restart storage]. apply lookup_insert_eq.
  - repeat split; try assumption.
    intros q0 Heq Hl. now apply merged_preferences_complete.
Qed.

End HydrateProperties.

Section EmailPattern.
Import RegExp UserStore.

(** The email pattern accepts exactly local@domain.tld where each of the
    three parts is a non-empty run of code units other than white space
    and [@] (the domain part may itself contain dots). *)
Lemma email_pattern_spec (s : string) :
  test email_pattern s = true <->
  exists local domain tld,
    s = local ++ "@" ++ domain ++ "." ++ tld
    /\ (local <> "" /\ every email_atom local = true)
    /\ (domain <> "" /\ every email_atom domain = true)
    /\ (tld <> "" /\ every email_atom tld = true).
Proof.
  rewrite test_matches. unfold email_pattern. split.
  - intros H.
    inversion H as [| | ? ? l r1 Hl H1 | | | |]; subst.
    inversion H1 as [| | ? ? a r2 Ha H2 | | | |]; subst.
    inversion H2 as [| | ? ? d r3 Hd H3 | | | |]; subst.
    inversion H3 as [| | ? ? o t Ho Ht | | | |]; subst.
    apply matches_is_char in Ha, Ho. subst.
    apply matches_Plus_Class in Hl, Hd, Ht.
    exists l, d, t. auto.
  - intros (l & d & t & -> & Hl & Hd & Ht).
    apply matches_Plus_Class in Hl, Hd, Ht.
    constructor; [exact Hl|].
    change ("@" ++ d ++ "." ++ t) with (String "@" "" ++ (d ++ String "." "" ++ t)).
    constructor; [now apply matches_is_char|].
    constructor; [exact Hd|].
    constructor; [now apply matches_is_char | exact Ht].
Qed.

End EmailPattern.

(** ** The views *)

Section ViewProperties.
Import JS UserStore.

(** C4. emailValidationError applies three rules in order: an empty email
    is reported blank; a non-empty one shorter than 6 is reported too
    short; one of length 6 or more that fails
    [/^[^\s@]+@[^\s@]+\.[^\s@]+$/] is reported invalid; any other email
    gives the empty string. *)
Theorem emailValidationError_rules (self : UserStoreModel) :
  let email := userEmail self in
  let result := emailValidationError self in
  (email = "" -> result = "Email can't be blank")
  /\ (email <> "" -> (String.length email < 6)%nat ->
      result = "Email must be at least 6 characters")
  /\ ((6 <= String.length email)%nat -> RegExp.test email_pattern email = false ->
      result = "Must be a valid email address")
  /\ ((6 <= String.length email)%nat -> RegExp.test email_pattern email = true ->
      result = "").
Proof.
  cbv zeta. unfold emailValidationError.
  destruct (userEmail self) as [|c e] eqn:E.
  - repeat split; intros; cbn in *; try reflexivity; try congruence; lia.
  - change (String.eqb (String c e) "") with false.
    change (Z.of_nat (String.length (String c e)) =? 0) with false.
    cbn [orb].
    destruct (Z.ltb_spec (Z.of_nat (String.length (String c e))) 6) as [Hlt|Hge].
    + repeat split; intros; try reflexivity; try discriminate; lia.
    + split; [discriminate|]. split; [intros _ Hlt; lia|].
      split; intros _ Htest; now rewrite Htest.
Qed.

Variable Date_parse : string -> option Z.

(** JavaScript: [new Date("")] is an Invalid Date. *)
Hypothesis Date_parse_empty : Date_parse "" = None.

(** C5. isSessionExpired is true exactly when the session stores an expiry
    timestamp that lies strictly before the current time; without a
    stored timestamp it is false. *)
Theorem isSessionExpired_iff (now : Z) (self : UserStoreModel) :
  (isSessionExpired Date_parse now self = true <->
   exists s e t,
     session self = Some s /\ expiresAt s = Some e /\ Date_parse e = Some t /\ t < now)
  /\ ((forall s, session self = Some s -> expiresAt s = None) ->
      isSessionExpired Date_parse now self = false).
Proof.
  unfold isSessionExpired. split; [split|].
  - destruct (session self) as [s|]; [|discriminate].
    destruct (expiresAt s) as [e|] eqn:Ee; [|discriminate].
    destruct (String.eqb e ""); [discriminate|].
    destruct (Date_parse e) as [t|] eqn:Et; [|discriminate].
    intros H. exists s, e, t. repeat split; try assumption. lia.
  - intros (s & e & t & -> & -> & Ht & Hlt).
    destruct (String.eqb_spec e "") as [->|_]; [congruence|].
    rewrite Ht. lia.
  - intros H. destruct (session self) as [s|]; [|reflexivity].
    now rewrite (H s eq_refl).
Qed.

End ViewProperties.

(** ** The 401 interceptor *)

Section ApiProperties.
Import I3HostApi.

Variable App : Type.

(** C9. A response with status 401 runs handle401Error: the registered
    logout callback is invoked (when one is set) and, when navigation is
    ready, the stack is reset to the single route Login; a response with
    any other status, or none, leaves everything as it was. *)
Theorem responseTransform_handles_401 (this : I3HostApi App) (status : option Z)
    (env : Env App) :
  (status = Some 401 ->
   let env' := responseTransform App this status env in
   env' = handle401Error App this env
   /\ (forall callback, logoutCallback App this = Some callback ->
       app App env' = callback (app App env))
   /\ (logoutCallback App this = None -> app App env' = app App env)
   /\ (isReady (navigation App env) = true ->
       routes (navigation App env') = ["Login"] /\ index (navigation App env') = 0)
   /\ (isReady (navigation App env) = false -> navigation App env' = navigation App env))
  /\ (status <> Some 401 -> responseTransform App this status env = env).
Proof.
  split.
  - intros ->. cbv zeta. cbn [responseTransform Z.eqb Pos.eqb]. unfold handle401Error.
    split; [reflexivity|]. cbn [app navigation].
    repeat split.
    + intros callback ->. reflexivity.
    + intros ->. reflexivity.
    + now rewrite H.
    + now rewrite H.
    + intros ->. reflexivity.
  - intros Hne. unfold responseTransform. destruct status as [code|]; [|reflexivity].
    destruct (Z.eqb_spec code 401) as [->|_]; [congruence | reflexivity].
Qed.

Lemma setLogoutCallback_registers (callback : App -> App) (this : I3HostApi App) :
  logoutCallback App (setLogoutCallback App callback this) = Some callback.
Proof. reflexivity. Qed.

End ApiProperties.

(** ** The theorems at sample inputs *)

Section SampleRuns.
Import JS UserStore Sample.

(** A first login with the demo credentials, and a rejected login on the
    store it leaves behind. *)
Lemma login_outcome_witness :
  (fst (login toISOString quiet "demo@example.com" "password" start) = Normal success
   /\ isAuthenticated (self (snd (login toISOString quiet "demo@example.com" "password" start)))
      = true)
  /\ (fst (login toISOString quiet "alice@example.com" "password" signed_in)
        = Normal (failure "Invalid email or password")
      /\ session (self (snd (login toISOString quiet "alice@example.com" "password" signed_in)))
         = session (self signed_in)).
Proof.
  split.
  - destruct (login_outcome toISOString quiet "demo@example.com" "password" start)
      as [Hdemo _].
    destruct (Hdemo (conj eq_refl eq_refl)) as (Hr & Hauth & _). split; assumption.
  - destruct (login_outcome toISOString quiet "alice@example.com" "password" signed_in)
      as [_ Hother].
    destruct Hother as [Hr Hs].
    + intros [H _]. discriminate H.
    + split; [exact Hr | apply Hs; intros w0; reflexivity].
Defined.

(** A rejected login on a store that holds a session: the session is
    still there afterwards. *)
Lemma login_rejected_keeps_session :
  ~ ("alice@example.com" = "demo@example.com" /\ "password" = "password")
  /\ session (self signed_in) <> None
  /\ session (self (snd (login toISOString quiet "alice@example.com" "password" signed_in)))
     = session (self signed_in)
  /\ session (self (snd (login toISOString quiet "alice@example.com" "password" signed_in)))
     <> None.
Proof.
  split; [intros [H _]; discriminate H|].
  split; [vm_compute; discriminate|].
  split; [vm_compute; reflexivity | vm_compute; discriminate].
Qed.

(** hydrate over a preferences blob cut short, on a store with a session. *)
Lemma hydrate_survives_corrupted_blob_witness :
  storage truncated_preferences_blob !! "userPreferences" = Some "{"
  /\ JSON.parse "{" = None
  /\ session (self truncated_preferences_blob) <> None
  /\ fst (hydrate truncated_preferences_blob) = Normal tt
  /\ session (self (snd (hydrate truncated_preferences_blob))) = None
  /\ currentUser (self (snd (hydrate truncated_preferences_blob))) = None
  /\ error (self (snd (hydrate truncated_preferences_blob)))
     = error (self truncated_preferences_blob).
Proof.
  assert (Hsaved : storage truncated_preferences_blob !! "userPreferences" = Some "{")
    by (vm_compute; reflexivity).
  assert (Hparse : JSON.parse "{" = None) by reflexivity.
  split; [exact Hsaved|]. split; [exact Hparse|].
  split; [vm_compute; discriminate|].
  apply (hydrate_survives_corrupted_blob truncated_preferences_blob "userPreferences" "{").
  - right. right. reflexivity.
  - exact Hsaved.
  - discriminate.
  - exact Hparse.
Defined.

(** hydrate over an empty session blob: JSON.parse rejects the empty
    string, yet hydrate never parses it and restores the user. *)
Lemma hydrate_skips_empty_blob :
  storage empty_session_blob !! "userSession" = Some ""
  /\ JSON.parse "" = None
  /\ fst (hydrate empty_session_blob) = Normal tt
  /\ currentUser (self (snd (hydrate empty_session_blob))) = Some alice
  /\ currentUser (self (snd (hydrate empty_session_blob))) <> None.
Proof.
  repeat split; try (vm_compute; reflexivity). vm_compute. discriminate.
Qed.

(** The four outcomes of the validation, one store each. *)
Lemma emailValidationError_rules_witness :
  emailValidationError fresh = "Email can't be blank"
  /\ emailValidationError (self signed_in) = ""
  /\ emailValidationError
       {| currentUser := Some {| id := "2"; email := "a@b.c"; name := None; avatar := None |};
          session := None; preferences := None; isLoading := false;
          isAuthenticating := false; error := None |}
     = "Email must be at least 6 characters"
  /\ emailValidationError
       {| currentUser := Some {| id := "3"; email := "no at sign"; name := None;
                                 avatar := None |};
          session := None; preferences := None; isLoading := false;
          isAuthenticating := false; error := None |}
     = "Must be a valid email address".
Proof.
  split; [|split; [|split]].
  - apply (emailValidationError_rules fresh). reflexivity.
  - apply (emailValidationError_rules (self signed_in)).
    + vm_compute. repeat constructor.
    + vm_compute. reflexivity.
  - match goal with
    | |- emailValidationError ?st = _ => apply (emailValidationError_rules st)
    end.
    + discriminate.
    + vm_compute. repeat constructor.
  - match goal with
    | |- emailValidationError ?st = _ => apply (emailValidationError_rules st)
    end.
    + vm_compute. repeat constructor.
    + vm_compute. reflexivity.
Defined.

(** The session of the demo user expires a day after the login. *)
Lemma isSessionExpired_iff_witness :
  Date_parse "" = None
  /\ isSessionExpired Date_parse 1700086400001 (self signed_in) = true
  /\ isSessionExpired Date_parse 1700086400000 (self signed_in) = false
  /\ isSessionExpired Date_parse 1700086400001 fresh = false.
Proof.
  split; [reflexivity|]. split; [|split].
  - apply (isSessionExpired_iff Date_parse eq_refl 1700086400001 (self signed_in)).
    eexists _, "2023-11-15T22:13:20.000Z", 1700086400000.
    repeat split; vm_compute; reflexivity.
  - vm_compute. reflexivity.
  - apply (isSessionExpired_iff Date_parse eq_refl 1700086400001 fresh).
    intros s H. discriminate H.
Defined.

(** A refresh during which the user logs out. *)
Lemma refreshSession_failure_cascades_into_logout_witness :
  has_refreshToken (self signed_in) = true
  /\ fst (refreshSession_try toISOString logs_out signed_in)
     = Throw (TypeError "Cannot read property 'refreshToken' of undefined")
  /\ session (self (snd (refreshSession toISOString logs_out signed_in))) = None
  /\ currentUser (self (snd (refreshSession toISOString logs_out signed_in))) = None
  /\ fst (refreshSession toISOString logs_out signed_in)
     = Normal (failure "Cannot read property 'refreshToken' of undefined").
Proof.
  assert (Htoken : has_refreshToken (self signed_in) = true) by (vm_compute; reflexivity).
  assert (Hthrow : refreshSession_try toISOString logs_out signed_in
                   = (Throw (TypeError "Cannot read property 'refreshToken' of undefined"),
                      snd (refreshSession_try toISOString logs_out signed_in)))
    by (vm_compute; reflexivity).
  split; [exact Htoken|]. split; [now rewrite Hthrow|].
  destruct (refreshSession_failure_cascades_into_logout toISOString logs_out signed_in
              _ _ Htoken Hthrow) as (_ & Hs & Hu & Hr & _).
  split; [exact Hs|]. split; [exact Hu | exact Hr].
Defined.

(** The same run: the message is in the result and not in the store. *)
Lemma refreshSession_failure_leaves_error_cleared_witness :
  has_refreshToken (self signed_in) = true
  /\ fst (refreshSession_try toISOString logs_out signed_in)
     = Throw (TypeError "Cannot read property 'refreshToken' of undefined")
  /\ error (self (snd (refreshSession toISOString logs_out signed_in))) = None
  /\ FlowResult.error
       (match fst (refreshSession toISOString logs_out signed_in) with
        | Normal r => r
        | Throw _ => success
        end)
     = Some "Cannot read property 'refreshToken' of undefined".
Proof.
  assert (Htoken : has_refreshToken (self signed_in) = true) by (vm_compute; reflexivity).
  assert (Hthrow : refreshSession_try toISOString logs_out signed_in
                   = (Throw (TypeError "Cannot read property 'refreshToken' of undefined"),
                      snd (refreshSession_try toISOString logs_out signed_in)))
    by (vm_compute; reflexivity).
  split; [exact Htoken|]. split; [now rewrite Hthrow|].
  destruct (refreshSession_failure_leaves_error_cleared toISOString logs_out signed_in
              _ _ Htoken Hthrow) as (He & Hr & _).
  split; [exact He | now rewrite Hr].
Defined.

(** refreshUser and updateUserProfile with a session token, and refreshUser
    without one. *)
Lemma loading_flag_down_when_flow_completes_witness :
  has_token (self signed_in) = true
  /\ isLoading (self (snd (refreshUser quiet signed_in))) = false
  /\ isLoading (self (snd (updateUserProfile quiet (JObj [("name", JStr "Demo")]) signed_in)))
     = false
  /\ has_token (self busy) = false
  /\ isLoading (self (snd (refreshUser quiet busy))) = isLoading (self busy).
Proof.
  assert (Htoken : has_token (self signed_in) = true) by (vm_compute; reflexivity).
  assert (Hnone : has_token (self busy) = false) by reflexivity.
  destruct (loading_flag_down_when_flow_completes toISOString quiet "" ""
              (JObj [("name", JStr "Demo")]) JNull signed_in) as (_ & _ & _ & _ & Hup & _).
  destruct (loading_flag_down_when_flow_completes toISOString quiet "" ""
              JNull JNull busy) as (_ & _ & _ & _ & _ & Hdown).
  destruct (Hup Htoken) as [H1 H2]. destruct (Hdown Hnone) as [H3 _].
  repeat split; assumption.
Defined.

(** Without a session token refreshUser and updateUserProfile complete
    with isLoading as it was: up, on a store where it was up. *)
Lemma refreshUser_returns_early_with_flag_up :
  isLoading (self busy) = true
  /\ fst (refreshUser quiet busy) = Normal tt
  /\ isLoading (self (snd (refreshUser quiet busy))) = true
  /\ isLoading (self (snd (updateUserProfile quiet (JObj []) busy))) = true.
Proof. repeat split. Qed.

(** Writing a session, a user and a dark theme, and reading them back. *)
Lemma persistence_round_trip_witness :
  theme_valid dark_only = true
  /\ session (self (snd (hydrate (restart (snd (persist_all alice_session alice dark_only start))))))
     = Some alice_session
  /\ currentUser
       (self (snd (hydrate (restart (snd (persist_all alice_session alice dark_only start))))))
     = Some alice
  /\ preferences
       (self (snd (hydrate (restart (snd (persist_all alice_session alice dark_only start))))))
     = Some {| theme := dark; language := "en"; notifications := true |}.
Proof.
  split; [reflexivity|].
  destruct (persistence_round_trip start alice_session alice dark_only eq_refl)
    as (_ & _ & _ & Hs & Hu & Hq & _).
  split; [exact Hs|]. split; [exact Hu | exact Hq].
Defined.

(** What is read back for the preferences argument [{ theme: "dark" }]
    has a language and a notifications flag the argument does not have. *)
Lemma round_trip_fills_in_defaults :
  fst (persist_all alice_session alice dark_only start) = Normal tt
  /\ preferences
       (self (snd (hydrate (restart (snd (persist_all alice_session alice dark_only start))))))
     = Some {| theme := dark; language := "en"; notifications := true |}
  /\ ~ preferences_equal dark_only {| theme := dark; language := "en"; notifications := true |}.
Proof.
  split; [vm_compute; reflexivity|]. split; [vm_compute; reflexivity|].
  intros (_ & H & _). discriminate H.
Qed.

(** A client with a callback that counts its calls, on a ready navigation
    container two routes deep. *)
Lemma responseTransform_handles_401_witness :
  let api := I3HostApi.setLogoutCallback nat S (I3HostApi.create nat) in
  let env := {| I3HostApi.navigation :=
                  {| I3HostApi.isReady := true; I3HostApi.routes := ["Home"; "Profile"];
                     I3HostApi.index := 1 |};
                I3HostApi.app := 0%nat |} in
  I3HostApi.app nat (I3HostApi.responseTransform nat api (Some 401) env) = 1%nat
  /\ I3HostApi.routes (I3HostApi.navigation nat
                         (I3HostApi.responseTransform nat api (Some 401) env)) = ["Login"]
  /\ I3HostApi.responseTransform nat api (Some 403) env = env.
Proof.
  cbv zeta.
  match goal with
  | |- I3HostApi.app nat (I3HostApi.responseTransform nat ?api _ ?env) = _ /\ _ =>
      destruct (responseTransform_handles_401 nat api (Some 401) env) as [H401 _];
      destruct (responseTransform_handles_401 nat api (Some 403) env) as [_ Hother]
  end.
  destruct (H401 eq_refl) as (_ & Hcb & _ & Hnav & _).
  split; [exact (Hcb S eq_refl)|].
  split; [exact (proj1 (Hnav eq_refl))|].
  apply Hother. discriminate.
Defined.

End SampleRuns.

(** * Further properties *)

(** ** The remaining views *)

Section MoreViewProperties.
Import JS UserStore UserStoreViews.

Lemma or_string_not_empty (a : option string) (d : string) :
  d <> "" -> or_string a d <> "".
Proof.
  intros Hd. unfold or_string. destruct a as [x|]; [|exact Hd].
  destruct (String.eqb_spec x ""); assumption.
Qed.

(** X1. userDisplayName is never the empty string: it is the name when the
    user has a non-empty one, else the email when that is not empty, else
    the text Unknown User, which is also what a store without a user
    shows. *)
Theorem userDisplayName_never_empty (self : UserStoreModel) :
  userDisplayName self <> ""
  /\ (currentUser self = None -> userDisplayName self = "Unknown User")
  /\ (forall u n, currentUser self = Some u -> name u = Some n -> n <> "" ->
      userDisplayName self = n)
  /\ (forall u, currentUser self = Some u -> (name u = None \/ name u = Some "") ->
      email u <> "" -> userDisplayName self = email u)
  /\ (forall u, currentUser self = Some u -> (name u = None \/ name u = Some "") ->
      email u = "" -> userDisplayName self = "Unknown User").
Proof.
  unfold userDisplayName, currentUser_name. split; [|split; [|split; [|split]]].
  - apply or_string_not_empty, or_string_not_empty. discriminate.
  - intros ->. reflexivity.
  - intros u n -> Hn Hne. cbn. rewrite Hn. cbn.
    apply String.eqb_neq in Hne. now rewrite Hne.
  - intros u -> Hn He. cbn. apply String.eqb_neq in He.
    destruct Hn as [-> | ->]; cbn; now rewrite He.
  - intros u -> Hn He. cbn. rewrite He.
    destruct Hn as [-> | ->]; reflexivity.
Qed.

(** X2. isLoginValid holds exactly when the email of the current user has
    at least 6 code units and reads local@domain.tld, each part a
    non-empty run of code units other than white space and [@]. A store
    without a user is never valid. *)
Theorem isLoginValid_iff (self : UserStoreModel) :
  (isLoginValid self = true <->
   (6 <= String.length (userEmail self))%nat
   /\ exists local domain tld,
        userEmail self = local ++ "@" ++ domain ++ "." ++ tld
        /\ (local <> "" /\ RegExp.every email_atom local = true)
        /\ (domain <> "" /\ RegExp.every email_atom domain = true)
        /\ (tld <> "" /\ RegExp.every email_atom tld = true))
  /\ (currentUser self = None -> isLoginValid self = false).
Proof.
  split.
  - rewrite <- email_pattern_spec. unfold isLoginValid, emailValidationError.
    destruct (userEmail self) as [|c e] eqn:E.
    + cbn. split; [discriminate | intros [H _]; inversion H].
    + change (String.eqb (String c e) "") with false.
      change (Z.of_nat (String.length (String c e)) =? 0) with false.
      cbn [orb].
      destruct (Z.ltb_spec (Z.of_nat (String.length (String c e))) 6) as [Hlt|Hge].
      * split; [discriminate | intros [H _]; lia].
      * destruct (RegExp.test email_pattern (String c e)); cbn [negb].
        -- split; [intros _; split; [lia | reflexivity] | reflexivity].
        -- split; [discriminate | intros [_ H]; discriminate].
  - intros Hnone. unfold isLoginValid, emailValidationError, userEmail. now rewrite Hnone.
Qed.

(** X3. The preference views always give a usable value: currentTheme is
    one of light, dark and system, preferredLanguage is never empty (an
    empty stored language reads as en), and a store without preferences
    shows system, en and notifications on. *)
Theorem preference_views_defaults (self : UserStoreModel) :
  (currentTheme self = "light" \/ currentTheme self = "dark"
   \/ currentTheme self = "system")
  /\ preferredLanguage self <> ""
  /\ (forall p, preferences self = Some p ->
      currentTheme self = Theme_string (theme p)
      /\ notificationsEnabled self = notifications p
      /\ preferredLanguage self = (if String.eqb (language p) "" then "en" else language p))
  /\ (preferences self = None ->
      currentTheme self = "system" /\ preferredLanguage self = "en"
      /\ notificationsEnabled self = true /\ hasPreferences self = false).
Proof.
  unfold currentTheme, preferredLanguage, notificationsEnabled, hasPreferences.
  split; [|split; [|split]].
  - destruct (preferences self) as [[[] l n]|]; cbn; auto.
  - apply or_string_not_empty. discriminate.
  - intros p ->. cbn. destruct (theme p); repeat split.
  - intros ->. repeat split.
Qed.

Variable Date_parse : string -> option Z.

(** X4. In authStatus, isAuthenticated holds exactly when there is a user
    and a session whose token is not empty; so it implies hasUser and
    hasSession, while a session with an empty token counts as a session
    but not as authenticated. The RootStore view agrees with it. *)
Theorem authStatus_consistent (now : Z) (self : UserStoreModel) :
  let st := authStatus Date_parse now self in
  (status_isAuthenticated st = true <->
   hasUser st = true /\ exists s, session self = Some s /\ token s <> "")
  /\ (status_isAuthenticated st = true -> hasUser st = true /\ hasSession st = true)
  /\ (isExpired st = true -> hasSession st = true)
  /\ RootStore.isAuthenticated self = status_isAuthenticated st.
Proof.
  cbv zeta. unfold authStatus, RootStore.isAuthenticated, isAuthenticated, has_token,
    isSessionExpired.
  cbn [status_isAuthenticated hasUser hasSession isExpired].
  split; [|split; [|split]].
  - destruct (session self) as [s|], (currentUser self) as [u|]; cbn.
    + destruct (String.eqb_spec (token s) "") as [He|Hne]; cbn.
      * split; [discriminate|]. intros (_ & s0 & Hs & Ht). congruence.
      * split; [eauto | reflexivity].
    + rewrite andb_false_r. split; [discriminate | intros [H _]; discriminate].
    + split; [discriminate | intros (_ & s0 & Hs & _); discriminate].
    + split; [discriminate | intros [H _]; discriminate].
  - destruct (session self) as [s|], (currentUser self) as [u|]; cbn;
      rewrite ?andb_false_r; auto; discriminate.
  - destruct (session self) as [s|]; [reflexivity | discriminate].
  - reflexivity.
Qed.

Variable toUpperCase : string -> string.

Lemma substring_prefix_length (m : nat) (s : string) :
  String.length (String.substring 0 m s) = Nat.min m (String.length s).
Proof.
  revert s. induction m as [|m IH]; intros [|c s]; simpl; auto.
Qed.

Lemma first_letters_cons_space (r : string) :
  first_letters (String " " r) = first_letters r.
Proof. reflexivity. Qed.

Lemma split_space_not_nil (s : string) : split_space s <> [].
Proof.
  induction s as [|c s IH]; simpl; [discriminate|].
  destruct (code c =? 32)%N; [discriminate|].
  destruct (split_space s); discriminate.
Qed.

(** One letter per word. *)
Lemma first_letters_length (text : string) :
  String.length (first_letters text) = length (words text).
Proof.
  unfold first_letters, words.
  induction text as [|c r IH]; [reflexivity|].
  cbn [split_space]. destruct (code c =? 32)%N.
  - cbn. exact IH.
  - destruct (split_space r) as [|p ps] eqn:E; [now apply split_space_not_nil in E|].
    cbn in *. destruct p as [|c0 p]; cbn in *; lia.
Qed.

(** X5. userInitials has at most two code units; when upper-casing keeps
    the length of the first letters (as it does on ASCII), it has one code
    unit per space-separated word of the name, or of the email when the
    name is missing or empty, up to two. *)
Theorem userInitials_length (self : UserStoreModel) :
  let text := or_string (currentUser_name self)
                (or_string (option_map email (currentUser self)) "") in
  (String.length (userInitials toUpperCase self) <= 2)%nat
  /\ (String.length (toUpperCase (first_letters text)) = String.length (first_letters text) ->
      String.length (userInitials toUpperCase self) = Nat.min 2 (length (words text))).
Proof.
  cbv zeta. unfold userInitials. rewrite substring_prefix_length. split; [lia|].
  intros ->. now rewrite first_letters_length.
Qed.

End MoreViewProperties.

(** ** What the actions leave alone *)

Section MoreActionProperties.
Import JS UserStore UserStoreViews.
Local Open Scope action_scope.

#[local] Instance same_error_refl : Reflexive same_error.
Proof. intros w. reflexivity. Qed.

#[local] Instance same_error_trans : Transitive same_error.
Proof. intros a b c H1 H2. unfold same_error in *. congruence. Qed.

#[local] Instance same_user_state_refl : Reflexive same_user_state.
Proof. intros w. repeat split. Qed.

#[local] Instance same_user_state_trans : Transitive same_user_state.
Proof.
  intros a b c (H1 & H2 & H3) (H4 & H5 & H6). unfold same_user_state. repeat split; congruence.
Qed.

#[local] Instance same_foreign_keys_refl : Reflexive same_foreign_keys.
Proof. intros w k _ _ _. reflexivity. Qed.

#[local] Instance same_foreign_keys_trans : Transitive same_foreign_keys.
Proof.
  intros a b c H1 H2 k Hs Hu Hp. rewrite H2, H1 by assumption. reflexivity.
Qed.

Lemma preserves_ret {A : Type} (R : World -> World -> Prop) `{!Reflexive R} (a : A) :
  preserves R (ret a).
Proof. intros w. reflexivity. Qed.

Lemma preserves_throw {A : Type} (R : World -> World -> Prop) `{!Reflexive R}
    (e : exception) :
  preserves R (@throw A e).
Proof. intros w. reflexivity. Qed.

Lemma preserves_bind {A B : Type} (R : World -> World -> Prop) `{!Transitive R}
    (m : Action A) (k : A -> Action B) :
  preserves R m -> (forall a, preserves R (k a)) -> preserves R (bind m k).
Proof.
  intros Hm Hk w. unfold bind. specialize (Hm w).
  destruct (m w) as [[a|e] w1]; cbn [snd] in *; [|exact Hm].
  etransitivity; [exact Hm | apply Hk].
Qed.

Lemma preserves_try_catch {A : Type} (R : World -> World -> Prop) `{!Transitive R}
    (body : Action A) (handler : exception -> Action A) :
  preserves R body -> (forall e, preserves R (handler e)) ->
  preserves R (try_catch body handler).
Proof.
  intros Hb Hh w. unfold try_catch. specialize (Hb w).
  destruct (body w) as [[a|e] w1]; cbn [snd] in *; [exact Hb|].
  etransitivity; [exact Hb | apply Hh].
Qed.

Lemma preserves_try_finally {A : Type} (R : World -> World -> Prop) `{!Transitive R}
    (body : Action A) (finalizer : Action unit) :
  preserves R body -> preserves R finalizer -> preserves R (try_finally body finalizer).
Proof.
  intros Hb Hf w. unfold try_finally. specialize (Hb w).
  destruct (body w) as [c w1]. specialize (Hf w1). cbn [snd] in *.
  destruct (finalizer w1) as [[[]|e] w2]; cbn [snd] in *; etransitivity; eassumption.
Qed.

(** One step of a proof that an action preserves a relation: through the
    binds and the case distinctions of the action, down to its
    assignments. *)
Ltac frame_step :=
  lazymatch goal with
  | |- preserves _ (bind _ _) => apply preserves_bind; [exact _ | | intros ?]
  | |- preserves _ (try_catch_finally _ _ _) =>
      unfold try_catch_finally; apply preserves_try_finally; [exact _ | | ]
  | |- preserves _ (try_catch _ _) => apply preserves_try_catch; [exact _ | | intros ?]
  | |- preserves _ (ret _) => apply preserves_ret; exact _
  | |- preserves _ (throw _) => apply preserves_throw; exact _
  | |- preserves _ (lift ?r) => destruct r; cbn [lift]
  | |- preserves _ (match ?x with _ => _ end) => destruct x
  | |- preserves _ (if ?b then _ else _) => destruct b
  end.

Ltac frame_leaf :=
  let w := fresh "w" in
  intros w;
  unfold same_error, same_user_state, same_foreign_keys, same_session_slot;
  cbn;
  repeat split; try reflexivity;
  intros; rewrite ?lookup_insert_ne, ?lookup_delete_ne by congruence; reflexivity.

Ltac frame :=
  repeat frame_step;
  try (unfold get_self, storage_getString, storage_set, storage_delete, assign_session,
         assign_currentUser, assign_preferences, assign_error, setLoading,
         setAuthenticating, modify, Date_now;
       frame_leaf).

Lemma setSession_same_error (v : json) : preserves same_error (setSession v).
Proof. unfold setSession. frame. Qed.

Lemma setCurrentUser_same_error (v : json) : preserves same_error (setCurrentUser v).
Proof. unfold setCurrentUser. frame. Qed.

Lemma setPreferences_same_error (v : json) : preserves same_error (setPreferences v).
Proof.
  unfold setPreferences, prop, assign_theme, assign_language, assign_notifications,
    with_preferences, persist_preferences.
  frame.
Qed.

Lemma hydrate_try_same_error : preserves same_error hydrate_try.
Proof.
  unfold hydrate_try, when_saved, JSON_parse.
  repeat frame_step;
    first [apply setSession_same_error | apply setCurrentUser_same_error
          | apply setPreferences_same_error | frame].
Qed.

Lemma setSession_same_foreign_keys (v : json) : preserves same_foreign_keys (setSession v).
Proof. unfold setSession. frame. Qed.

Lemma setCurrentUser_same_foreign_keys (v : json) :
  preserves same_foreign_keys (setCurrentUser v).
Proof. unfold setCurrentUser. frame. Qed.

Lemma setPreferences_same_foreign_keys (v : json) :
  preserves same_foreign_keys (setPreferences v).
Proof.
  unfold setPreferences, prop, assign_theme, assign_language, assign_notifications,
    with_preferences, persist_preferences.
  frame.
Qed.

Lemma hydrate_try_same_foreign_keys : preserves same_foreign_keys hydrate_try.
Proof.
  unfold hydrate_try, when_saved, JSON_parse.
  repeat frame_step;
    first [apply setSession_same_foreign_keys | apply setCurrentUser_same_foreign_keys
          | apply setPreferences_same_foreign_keys | frame].
Qed.

Lemma hydrate_catch_run (e : exception) (w : World) :
  hydrate_catch e w =
  (Normal tt,
   {| self := {| currentUser := None; session := None;
                 preferences := preferences (self w); isLoading := isLoading (self w);
                 isAuthenticating := isAuthenticating (self w); error := error (self w) |};
      storage := delete "currentUser" (delete "userSession" (storage w));
      clock := clock w; reads := reads w |}).
Proof. reflexivity. Qed.

Lemma hydrate_completes (w : World) : fst (hydrate w) = Normal tt.
Proof.
  rewrite hydrate_unfold. unfold try_catch_finally, try_finally, try_catch.
  destruct (hydrate_try (snd (setLoading true w))) as [[[]|e] w1]; reflexivity.
Qed.

(** X6. hydrate never throws, whatever storage holds and whatever the
    store held: it completes with isLoading false, the error field as it
    was, and storage changed at most under the three keys of the store. *)
Theorem hydrate_never_throws (w : World) :
  fst (hydrate w) = Normal tt
  /\ isLoading (self (snd (hydrate w))) = false
  /\ error (self (snd (hydrate w))) = error (self w)
  /\ (forall k, k <> "userSession" -> k <> "currentUser" -> k <> "userPreferences" ->
      storage (snd (hydrate w)) !! k = storage w !! k).
Proof.
  split; [apply hydrate_completes|].
  rewrite hydrate_unfold.
  pose proof (hydrate_try_same_error (snd (setLoading true w))) as He.
  pose proof (hydrate_try_same_foreign_keys (snd (setLoading true w))) as Hk.
  unfold try_catch_finally, try_finally, try_catch.
  destruct (hydrate_try (snd (setLoading true w))) as [[[]|e] w1]; cbn [snd] in He, Hk.
  - cbn. repeat split; [exact He | exact Hk].
  - rewrite hydrate_catch_run. cbn. repeat split; [exact He|].
    intros k H1 H2 H3. rewrite !lookup_delete_ne by congruence. now apply Hk.
Qed.

Lemma load_absent (key : string) (setter : json -> Action unit) (w : World) :
  storage w !! key = None \/ storage w !! key = Some "" ->
  load key setter w = (Normal tt, w).
Proof.
  intros [H|H]; rewrite load_run, H; reflexivity.
Qed.

(** X7. With nothing stored under the three keys (or only empty strings),
    hydrate leaves session, current user, preferences, error and storage
    as they are: a store that is signed in stays signed in. *)
Theorem hydrate_without_blobs (w : World) :
  (forall k, k = "userSession" \/ k = "currentUser" \/ k = "userPreferences" ->
     storage w !! k = None \/ storage w !! k = Some "") ->
  hydrate w = (Normal tt, snd (setLoading false w)).
Proof.
  intros Habsent. rewrite hydrate_unfold.
  assert (Hrun : hydrate_try (snd (setLoading true w)) = (Normal tt, snd (setLoading true w))).
  { rewrite hydrate_try_steps. unfold bind.
    rewrite !load_absent by (apply Habsent; auto). reflexivity. }
  erewrite try_normal by (first [exact Hrun | reflexivity]).
  reflexivity.
Qed.


Variable Date_toISOString : Z -> string.
Variable interleave : World -> World.

Ltac run_store :=
  unfold setPreferences, PreferencesInput_js, UserPreferences_create, merged_preferences,
    updateProfile, ProfileUpdates_js, setUserEmail, assign_name, assign_avatar,
    with_currentUser, persist_currentUser, assign_currentUser,
    bind, prop, truthy_opt, truthy, assign_theme, assign_language, assign_notifications,
    with_preferences, persist_preferences, assign_preferences, modify, storage_set,
    get_self, lift, ret, throw, optional, field;
  cbn -[JSON.stringify as_theme].

Lemma setError_run (m : string) (w : World) :
  m <> "" ->
  setError (Some m) w =
  (Normal tt,
   {| self := {| currentUser := currentUser (self w); session := session (self w);
                 preferences := preferences (self w); isLoading := isLoading (self w);
                 isAuthenticating := isAuthenticating (self w); error := Some m |};
      storage := storage w; clock := clock w; reads := reads w |}).
Proof.
  intros Hm. apply String.eqb_neq in Hm. unfold setError. rewrite Hm. reflexivity.
Qed.

(** X9. The guards of the flows: without a session token refreshUser
    returns at once and changes nothing, and updateUserProfile resolves to
    a failure with error Not authenticated; without a refresh token
    refreshSession resolves to a failure with error No refresh token
    available. Neither waits on its timer, and all they change is the
    error field, set to the message of the result. *)
Theorem flows_fail_fast_without_token (updates : json) (w : World) :
  let told (m : string) : World :=
    {| self := {| currentUser := currentUser (self w); session := session (self w);
                  preferences := preferences (self w); isLoading := isLoading (self w);
                  isAuthenticating := isAuthenticating (self w); error := Some m |};
       storage := storage w; clock := clock w; reads := reads w |} in
  (has_token (self w) = false ->
     refreshUser interleave w = (Normal tt, w)
     /\ updateUserProfile interleave updates w
        = (Normal (failure "Not authenticated"), told "Not authenticated"))
  /\ (has_refreshToken (self w) = false ->
      refreshSession Date_toISOString interleave w
      = (Normal (failure "No refresh token available"), told "No refresh token available")).
Proof.
  cbv zeta. split.
  - intros H. split.
    + unfold refreshUser, bind, get_self. now rewrite H.
    + unfold updateUserProfile. unfold bind at 1, get_self. rewrite H. reflexivity.
  - intros H. unfold refreshSession. unfold bind at 1, get_self. rewrite H. reflexivity.
Qed.

Lemma setPreferences_unknown_theme (p : PreferencesInput) (t : string) (w : World) :
  theme_in p = Some t ->
  t <> "" ->
  as_theme (Some (JStr t)) = None ->
  setPreferences (PreferencesInput_js p) w =
  (Throw (mst_error match preferences (self w) with
                    | Some _ => "theme"
                    | None => "UserPreferences"
                    end), w).
Proof.
  destruct p as [th la no]. destruct w as [[cu se pr il ia er] st cl rd].
  cbn [theme_in]. intros -> Hne Hbad. apply String.eqb_neq in Hne.
  destruct pr as [[ot ol on]|]; destruct la as [l|]; destruct no as [n|];
    run_store; rewrite ?Hne, ?Hbad; run_store; reflexivity.
Qed.



Lemma as_theme_string (t : string) (th : Theme) :
  as_theme (Some (JStr t)) = Some th -> Theme_string th = t.
Proof.
  cbn. destruct (String.eqb t "light") eqn:E1;
    [apply String.eqb_eq in E1; intros [= <-]; now subst|].
  destruct (String.eqb t "dark") eqn:E2;
    [apply String.eqb_eq in E2; intros [= <-]; now subst|].
  destruct (String.eqb t "system") eqn:E3;
    [apply String.eqb_eq in E3; intros [= <-]; now subst|].
  discriminate.
Qed.

Lemma updatePreferences_run (p : PreferencesInput) (w : World) :
  theme_valid p = true ->
  updatePreferences interleave (PreferencesInput_js p) w =
  (Normal success,
   snd (setLoading false
          (snd (setPreferences (PreferencesInput_js p)
                  (interleave (snd (setLoading true w))))))).
Proof.
  intros Hvalid. unfold updatePreferences. unfold bind at 1. cbn [setLoading modify fst snd].
  unfold try_catch_finally, try_finally, try_catch. unfold bind at 1, sleep.
  cbv beta iota.
  match goal with |- context [ interleave ?w1 ] => generalize (interleave w1) end.
  intros w0. unfold bind at 1.
  rewrite (setPreferences_input p w0 Hvalid). reflexivity.
Qed.

(** X11. updatePreferences with a theme of the enumeration (or none)
    resolves to success; afterwards the store holds the given fields laid
    over the preferences it had when the timer fired, storage holds their
    blob, and the views currentTheme, preferredLanguage and
    notificationsEnabled return what was given (a language that is the
    empty string is not applied). Session, current user and error are
    those of the moment the timer fired. *)
Theorem updatePreferences_applies (p : PreferencesInput) (w : World) :
  theme_valid p = true ->
  let w0 := interleave (snd (setLoading true w)) in
  let q := merged_preferences (preferences (self w0)) p in
  let r := updatePreferences interleave (PreferencesInput_js p) w in
  fst r = Normal success
  /\ preferences (self (snd r)) = Some q
  /\ storage (snd r)
     = <["userPreferences" := JSON.stringify (UserPreferences_snapshot q)]> (storage w0)
  /\ (forall t, theme_in p = Some t -> currentTheme (self (snd r)) = t)
  /\ (forall l, language_in p = Some l -> l <> "" -> preferredLanguage (self (snd r)) = l)
  /\ (forall b, notifications_in p = Some b -> notificationsEnabled (self (snd r)) = b)
  /\ session (self (snd r)) = session (self w0)
  /\ currentUser (self (snd r)) = currentUser (self w0)
  /\ error (self (snd r)) = error (self w0)
  /\ isLoading (self (snd r)) = false.
Proof.
  intros Hvalid. cbv zeta. rewrite (updatePreferences_run p w Hvalid).
  generalize (interleave (snd (setLoading true w))) as w0. intros w0.
  rewrite (setPreferences_input p _ Hvalid). cbn [fst snd setLoading modify self storage
    preferences session currentUser error isLoading].
  generalize (preferences (self w0)) as old. intros old.
  unfold currentTheme, preferredLanguage, notificationsEnabled.
  cbn [preferences option_map].
  destruct p as [th la no]. unfold theme_valid in Hvalid.
  cbn [theme_in language_in notifications_in] in *.
  repeat split.
  - intros t ->. destruct (as_theme (Some (JStr t))) as [tv|] eqn:Et; [|discriminate].
    pose proof (as_theme_string t tv Et) as Hs.
    assert (Hq : theme (merged_preferences old
                         {| theme_in := Some t; language_in := la; notifications_in := no |})
                 = tv).
    { destruct old; cbn [merged_preferences theme theme_in]; rewrite Et; reflexivity. }
    rewrite Hq, Hs. unfold or_string.
    rewrite (as_theme_not_empty t tv Et). reflexivity.
  - intros l -> Hl. apply String.eqb_neq in Hl.
    assert (Hq : language (merged_preferences old
                         {| theme_in := th; language_in := Some l; notifications_in := no |})
                 = l).
    { destruct old; cbn; rewrite ?Hl; reflexivity. }
    rewrite Hq. unfold or_string. rewrite Hl. reflexivity.
  - intros b ->. destruct old; reflexivity.
Qed.

Lemma updateProfile_run (p : ProfileUpdates) (w : World) :
  updateProfile (ProfileUpdates_js p) w =
  (Normal tt,
   match currentUser (self w) with
   | Some u =>
       {| self := {| currentUser := Some (merged_profile p u); session := session (self w);
                     preferences := preferences (self w); isLoading := isLoading (self w);
                     isAuthenticating := isAuthenticating (self w);
                     error := error (self w) |};
          storage := <["currentUser" := JSON.stringify (User_snapshot (merged_profile p u))]>
                       (storage w);
          clock := clock w; reads := reads w |}
   | None => w
   end).
Proof.
  destruct p as [n a]. destruct w as [[cu se pr il ia er] st cl rd].
  destruct cu as [[i e on oa]|]; [|reflexivity].
  destruct n as [n|]; destruct a as [a|];
    try (destruct (String.eqb n "") eqn:En); try (destruct (String.eqb a "") eqn:Ea);
    unfold merged_profile, or_maybe; run_store; rewrite ?En, ?Ea; run_store;
    rewrite ?En, ?Ea; reflexivity.
Qed.

Lemma updateUserProfile_run (p : ProfileUpdates) (w : World) :
  has_token (self w) = true ->
  updateUserProfile interleave (ProfileUpdates_js p) w =
  (Normal success,
   snd (setLoading false
          (snd (updateProfile (ProfileUpdates_js p)
                  (interleave (snd (setLoading true w))))))).
Proof.
  intros Htoken. unfold updateUserProfile. unfold bind at 1, get_self. rewrite Htoken.
  cbn [negb]. unfold bind at 1. cbn [setLoading modify fst snd].
  unfold try_catch_finally, try_finally, try_catch. unfold bind at 1, sleep.
  cbv beta iota.
  match goal with |- context [ interleave ?w1 ] => generalize (interleave w1) end.
  intros w0. unfold bind at 1. rewrite (updateProfile_run p w0). reflexivity.
Qed.

(** X12. updateUserProfile on a store whose session has a token resolves to
    success. The user the store holds when the timer fires keeps id and
    email; a name or avatar that is given and not the empty string
    replaces the old one, anything else leaves the old one, so neither is
    ever cleared. The new user is written to storage under currentUser.
    When no user is left by then the flow still resolves to success and
    writes nothing. *)
Theorem updateUserProfile_applies (p : ProfileUpdates) (w : World) :
  has_token (self w) = true ->
  let w0 := interleave (snd (setLoading true w)) in
  let r := updateUserProfile interleave (ProfileUpdates_js p) w in
  fst r = Normal success
  /\ currentUser (self (snd r)) = option_map (merged_profile p) (currentUser (self w0))
  /\ storage (snd r)
     = match currentUser (self w0) with
       | Some u => <["currentUser" := JSON.stringify (User_snapshot (merged_profile p u))]>
                     (storage w0)
       | None => storage w0
       end
  /\ (forall u u', currentUser (self w0) = Some u -> currentUser (self (snd r)) = Some u' ->
      id u' = id u /\ email u' = email u
      /\ (name u <> None -> name u' <> None)
      /\ (avatar u <> None -> avatar u' <> None)
      /\ (forall n, name_in p = Some n -> n <> "" -> name u' = Some n)
      /\ (forall a, avatar_in p = Some a -> a <> "" -> avatar u' = Some a))
  /\ session (self (snd r)) = session (self w0)
  /\ preferences (self (snd r)) = preferences (self w0)
  /\ error (self (snd r)) = error (self w0)
  /\ isLoading (self (snd r)) = false.
Proof.
  intros Htoken. cbv zeta. rewrite (updateUserProfile_run p w Htoken).
  generalize (interleave (snd (setLoading true w))) as w0. intros w0.
  rewrite (updateProfile_run p w0). cbn [fst snd].
  destruct (currentUser (self w0)) as [u|] eqn:Eu.
  - cbn. repeat split; try (intros; discriminate).
    all: match goal with
         | H : Some _ = Some _, H' : Some _ = Some _ |- _ =>
             injection H as <-; injection H' as <-
         end; cbn; try reflexivity.
    + unfold or_maybe. destruct (name_in p) as [n|]; [destruct (String.eqb n "")|];
        intros; congruence.
    + unfold or_maybe. destruct (avatar_in p) as [a|]; [destruct (String.eqb a "")|];
        intros; congruence.
    + intros n -> Hn. apply String.eqb_neq in Hn. unfold or_maybe. now rewrite Hn.
    + intros a -> Ha. apply String.eqb_neq in Ha. unfold or_maybe. now rewrite Ha.
  - cbn. rewrite Eu. repeat split; intros; discriminate.
Qed.

(** X13. setUserEmail(e) on a store with a user makes the userEmail view
    return [e], keeps the user's id, name and avatar, and writes the user
    to storage; on a store without a user it does nothing. *)
Theorem setUserEmail_sets (e : string) (w : World) :
  let r := setUserEmail e w in
  fst r = Normal tt
  /\ match currentUser (self w) with
     | Some u =>
         let u' := {| id := id u; email := e; name := name u; avatar := avatar u |} in
         currentUser (self (snd r)) = Some u'
         /\ userEmail (self (snd r)) = e
         /\ storage (snd r)
            = <["currentUser" := JSON.stringify (User_snapshot u')]> (storage w)
     | None => snd r = w
     end
  /\ same_error w (snd r)
  /\ session (self (snd r)) = session (self w)
  /\ preferences (self (snd r)) = preferences (self w).
Proof.
  destruct w as [[cu se pr il ia er] st cl rd]. cbv zeta.
  destruct cu as [[i e0 on oa]|]; unfold same_error; run_store; repeat split.
  unfold userEmail, or_string. cbn. destruct (String.eqb e "") eqn:E; [|reflexivity].
  apply String.eqb_eq in E. now subst.
Qed.

Variable Date_parse : string -> option Z.

Ltac run_session :=
  unfold setSession, setCurrentUser, UserSession_create, User_create, assign_session,
    assign_currentUser, session_refreshToken, Date_now, clearError, setError, assign_error,
    setAuthenticating, setLoading;
  run_store.

Lemma refreshSession_try_run (s0 : UserSession) (w : World) :
  session (self (interleave w)) = Some s0 ->
  let w0 := interleave w in
  let s1 := newSession Date_toISOString (clock w0 (reads w0)) (clock w0 (S (reads w0)))
              (refreshToken s0) in
  refreshSession_try Date_toISOString interleave w =
  (Normal success,
   {| self := {| currentUser := currentUser (self w0); session := Some s1;
                 preferences := preferences (self w0); isLoading := isLoading (self w0);
                 isAuthenticating := isAuthenticating (self w0);
                 error := error (self w0) |};
      storage := <["userSession" := JSON.stringify (UserSession_snapshot s1)]> (storage w0);
      clock := clock w0; reads := S (S (reads w0)) |}).
Proof.
  cbv zeta. unfold refreshSession_try, sleep. unfold bind at 1.
  generalize (interleave w) as w0. intros [[cu se pr il ia er] st cl rd].
  cbn [self session]. intros ->. destruct s0 as [t e [r|]]; reflexivity.
Qed.

(** X14. refreshSession on a store with a refresh token, when a session is
    still there as the timer fires, resolves to success: the session gets a
    token that starts with refreshed_token_ and an expiry a day after the
    clock, keeps the refresh token it had, and is written to storage.
    Current user, preferences, the error field and isLoading are not
    touched. *)
Theorem refreshSession_renews (s0 : UserSession) (w : World) :
  has_refreshToken (self w) = true ->
  session (self (interleave w)) = Some s0 ->
  let w0 := interleave w in
  let s1 := newSession Date_toISOString (clock w0 (reads w0)) (clock w0 (S (reads w0)))
              (refreshToken s0) in
  let r := refreshSession Date_toISOString interleave w in
  fst r = Normal success
  /\ session (self (snd r)) = Some s1
  /\ has_token (self (snd r)) = true
  /\ storage (snd r)
     = <["userSession" := JSON.stringify (UserSession_snapshot s1)]> (storage w0)
  /\ currentUser (self (snd r)) = currentUser (self w0)
  /\ preferences (self (snd r)) = preferences (self w0)
  /\ error (self (snd r)) = error (self w0)
  /\ isLoading (self (snd r)) = isLoading (self w0).
Proof.
  intros Hrefresh Hs. cbv zeta.
  assert (Hrun : refreshSession Date_toISOString interleave w
                 = refreshSession_try Date_toISOString interleave w).
  { unfold refreshSession. unfold bind at 1, get_self. rewrite Hrefresh. cbn [negb].
    unfold try_catch. rewrite (refreshSession_try_run s0 w Hs). reflexivity. }
  rewrite Hrun, (refreshSession_try_run s0 w Hs). cbn [fst snd self session storage
    currentUser preferences error isLoading].
  repeat split.
Qed.

Lemma login_try_demo_run (w : World) :
  let w0 := interleave w in
  let s1 := mockSession Date_toISOString (clock w0 (reads w0)) (clock w0 (S (reads w0)))
              (clock w0 (S (S (reads w0)))) in
  login_try Date_toISOString interleave "demo@example.com" "password" w =
  (Normal success,
   {| self := {| currentUser := Some mockUser; session := Some s1;
                 preferences := Some defaultPreferences; isLoading := isLoading (self w0);
                 isAuthenticating := isAuthenticating (self w0);
                 error := error (self w0) |};
      storage :=
        <["userPreferences" := JSON.stringify (UserPreferences_snapshot defaultPreferences)]>
          (<["currentUser" := JSON.stringify (User_snapshot mockUser)]>
             (<["userSession" := JSON.stringify (UserSession_snapshot s1)]> (storage w0)));
      clock := clock w0; reads := S (S (S (reads w0))) |}).
Proof.
  cbv zeta. unfold login_try, sleep. unfold bind at 1.
  generalize (interleave w) as w0. intros [[cu se [[ot ol on]|] il ia er] st cl rd];
    reflexivity.
Qed.

Lemma login_demo_run_state (w : World) :
  let w0 := interleave (snd (clearError (snd (setAuthenticating true w)))) in
  let s1 := mockSession Date_toISOString (clock w0 (reads w0)) (clock w0 (S (reads w0)))
              (clock w0 (S (S (reads w0)))) in
  login Date_toISOString interleave "demo@example.com" "password" w =
  (Normal success,
   {| self := {| currentUser := Some mockUser; session := Some s1;
                 preferences := Some defaultPreferences; isLoading := isLoading (self w0);
                 isAuthenticating := false; error := error (self w0) |};
      storage :=
        <["userPreferences" := JSON.stringify (UserPreferences_snapshot defaultPreferences)]>
          (<["currentUser" := JSON.stringify (User_snapshot mockUser)]>
             (<["userSession" := JSON.stringify (UserSession_snapshot s1)]> (storage w0)));
      clock := clock w0; reads := S (S (S (reads w0))) |}).
Proof.
  cbv zeta. rewrite login_unfold.
  erewrite try_normal by (first [apply login_try_demo_run | reflexivity]).
  reflexivity.
Qed.

(** X15. A login with the demo credentials leaves the same store whatever
    it held before: the mock user with id 1, a session whose token,
    expiry and refresh token come from three readings of the clock, and
    the preferences system, en, true, which overwrite any preferences the
    user had chosen. All three are written to storage, isAuthenticating
    ends false, and the error field is the one of the moment the timer
    fired. *)
Theorem login_demo_state (w : World) :
  let w0 := interleave (snd (clearError (snd (setAuthenticating true w)))) in
  let s1 := mockSession Date_toISOString (clock w0 (reads w0)) (clock w0 (S (reads w0)))
              (clock w0 (S (S (reads w0)))) in
  let r := login Date_toISOString interleave "demo@example.com" "password" w in
  fst r = Normal success
  /\ currentUser (self (snd r)) = Some mockUser
  /\ session (self (snd r)) = Some s1
  /\ preferences (self (snd r)) = Some defaultPreferences
  /\ in_sync (snd r)
  /\ same_foreign_keys w0 (snd r)
  /\ error (self (snd r)) = error (self w0)
  /\ isAuthenticating (self (snd r)) = false.
Proof.
  cbv zeta. rewrite login_demo_run_state. cbn [fst snd self currentUser session preferences
    error isAuthenticating].
  repeat split.
  - cbn [storage]. rewrite !lookup_insert_ne by discriminate. apply lookup_insert_eq.
  - cbn [storage]. rewrite lookup_insert_ne by discriminate. apply lookup_insert_eq.
  - cbn [storage]. apply lookup_insert_eq.
  - intros k H1 H2 H3. cbn [storage]. now rewrite !lookup_insert_ne by congruence.
Qed.

(** X16. The session a demo login creates expires a day after the second
    reading of the clock: where the Date constructor reads back the text
    toISOString wrote for that instant, isSessionExpired is true exactly at
    the times after it. *)
Theorem login_session_expires_after_a_day (now : Z) (w : World) :
  let w0 := interleave (snd (clearError (snd (setAuthenticating true w)))) in
  let x := clock w0 (S (reads w0)) + 24 * 60 * 60 * 1000 in
  Date_toISOString x <> "" ->
  Date_parse (Date_toISOString x) = Some x ->
  isSessionExpired Date_parse now
    (self (snd (login Date_toISOString interleave "demo@example.com" "password" w)))
  = (now >? x).
Proof.
  cbv zeta. intros Hne Hparse. rewrite login_demo_run_state.
  cbn [snd self]. unfold isSessionExpired. cbn [session mockSession expiresAt].
  apply String.eqb_neq in Hne. rewrite Hne, Hparse. reflexivity.
Qed.

Lemma maintains_ret {A : Type} (I : World -> Prop) (a : A) : maintains I (ret a).
Proof. intros w H. exact H. Qed.

Lemma maintains_throw {A : Type} (I : World -> Prop) (e : exception) :
  maintains I (@throw A e).
Proof. intros w H. exact H. Qed.

Lemma maintains_bind {A B : Type} (I : World -> Prop) (m : Action A) (k : A -> Action B) :
  maintains I m -> (forall a, maintains I (k a)) -> maintains I (bind m k).
Proof.
  intros Hm Hk w H. unfold bind. specialize (Hm w H).
  destruct (m w) as [[a|e] w1]; [apply Hk|]; exact Hm.
Qed.

Lemma maintains_try_catch {A : Type} (I : World -> Prop) (body : Action A)
    (handler : exception -> Action A) :
  maintains I body -> (forall e, maintains I (handler e)) ->
  maintains I (try_catch body handler).
Proof.
  intros Hb Hh w H. unfold try_catch. specialize (Hb w H).
  destruct (body w) as [[a|e] w1]; [|apply Hh]; exact Hb.
Qed.

Lemma maintains_try_finally {A : Type} (I : World -> Prop) (body : Action A)
    (finalizer : Action unit) :
  maintains I body -> maintains I finalizer -> maintains I (try_finally body finalizer).
Proof.
  intros Hb Hf w H. unfold try_finally. specialize (Hb w H).
  destruct (body w) as [c w1]. specialize (Hf w1 Hb).
  destruct (finalizer w1) as [[[]|e] w2]; exact Hf.
Qed.

Lemma flags_in_sync (w : World) (s : UserStoreModel) (n : nat) :
  session s = session (self w) ->
  currentUser s = currentUser (self w) ->
  preferences s = preferences (self w) ->
  in_sync w ->
  in_sync {| self := s; storage := storage w; clock := clock w; reads := n |}.
Proof.
  unfold in_sync. cbn [self storage]. intros -> -> -> H. exact H.
Qed.

Lemma setLoading_sync (b : bool) : maintains in_sync (setLoading b).
Proof. intros w. now apply flags_in_sync. Qed.

Lemma setAuthenticating_sync (b : bool) : maintains in_sync (setAuthenticating b).
Proof. intros w. now apply flags_in_sync. Qed.

Lemma setError_sync (e : option string) : maintains in_sync (setError e).
Proof. intros w. now apply flags_in_sync. Qed.

Lemma clearError_sync : maintains in_sync clearError.
Proof. intros w. now apply flags_in_sync. Qed.

Lemma Date_now_sync : maintains in_sync Date_now.
Proof. intros w. now apply flags_in_sync. Qed.

Lemma get_self_sync : maintains in_sync get_self.
Proof. intros w H. exact H. Qed.

Lemma setSession_sync (s : UserSession) :
  maintains in_sync (setSession (UserSession_snapshot s)).
Proof.
  intros w (Hs & Hu & Hp). rewrite setSession_snapshot. unfold in_sync.
  cbn [snd self storage session currentUser preferences option_map].
  rewrite lookup_insert_eq, !lookup_insert_ne by discriminate. auto.
Qed.

Lemma setCurrentUser_sync (u : User) :
  maintains in_sync (setCurrentUser (User_snapshot u)).
Proof.
  intros w (Hs & Hu & Hp). rewrite setCurrentUser_snapshot. unfold in_sync.
  cbn [snd self storage session currentUser preferences option_map].
  rewrite lookup_insert_eq, !lookup_insert_ne by discriminate. auto.
Qed.

Lemma setSession_null_sync : maintains in_sync (setSession JNull).
Proof.
  intros w (Hs & Hu & Hp). unfold in_sync.
  cbn [setSession truthy bind assign_session modify storage_delete snd self storage session
       currentUser preferences option_map].
  rewrite lookup_delete_eq, !lookup_delete_ne by discriminate. auto.
Qed.

Lemma setCurrentUser_null_sync : maintains in_sync (setCurrentUser JNull).
Proof.
  intros w (Hs & Hu & Hp). unfold in_sync.
  cbn [setCurrentUser truthy bind assign_currentUser modify storage_delete snd self storage
       session currentUser preferences option_map].
  rewrite lookup_delete_eq, !lookup_delete_ne by discriminate. auto.
Qed.

Lemma setPreferences_sync (p : PreferencesInput) :
  maintains in_sync (setPreferences (PreferencesInput_js p)).
Proof.
  intros w (Hs & Hu & Hp).
  destruct (theme_valid p) eqn:Hvalid.
  - rewrite (setPreferences_input p w Hvalid). unfold in_sync.
    cbn [snd self storage session currentUser preferences option_map].
    rewrite lookup_insert_eq, !lookup_insert_ne by discriminate. auto.
  - destruct p as [[t|] la no]; [|discriminate]. unfold theme_valid in Hvalid.
    cbn [theme_in] in Hvalid.
    destruct (as_theme (Some (JStr t))) eqn:Et; [discriminate|].
    destruct (String.eqb t "") eqn:Ee.
    + apply String.eqb_eq in Ee. subst t.
      destruct (preferences (self w)) as [old|] eqn:Eold.
      * assert (Hsame : setPreferences
                          (PreferencesInput_js
                             {| theme_in := Some ""; language_in := la;
                                notifications_in := no |}) w
                        = setPreferences
                            (PreferencesInput_js
                               {| theme_in := None; language_in := la;
                                  notifications_in := no |}) w).
        { destruct w as [[cu se pr il ia er] st cl rd]. cbn [self preferences] in Eold.
          subst pr. destruct old as [ot ol on]; destruct la as [l|]; destruct no as [n|];
            try (destruct (String.eqb l "") eqn:El);
            run_store; rewrite ?El; run_store; reflexivity. }
        rewrite Hsame, setPreferences_input by reflexivity. unfold in_sync.
        cbn [snd self storage session currentUser preferences option_map].
        rewrite lookup_insert_eq, !lookup_insert_ne by discriminate. auto.
      * assert (Hrun : setPreferences
                         (PreferencesInput_js
                            {| theme_in := Some ""; language_in := la;
                               notifications_in := no |}) w
                       = (Throw (mst_error "UserPreferences"), w)).
        { destruct w as [[cu se pr il ia er] st cl rd]. cbn [self preferences] in Eold.
          subst pr. destruct la as [l|]; destruct no as [n|]; reflexivity. }
        rewrite Hrun. cbn [snd]. unfold in_sync. rewrite Eold. auto.
    + apply String.eqb_neq in Ee.
      rewrite (setPreferences_unknown_theme
                 {| theme_in := Some t; language_in := la; notifications_in := no |}
                 t w eq_refl Ee Et). cbn [snd].
      unfold in_sync. auto.
Qed.

Lemma updateProfile_sync (p : ProfileUpdates) :
  maintains in_sync (updateProfile (ProfileUpdates_js p)).
Proof.
  intros w (Hs & Hu & Hp). rewrite updateProfile_run. cbn [snd].
  destruct (currentUser (self w)) as [u|] eqn:Eu.
  - unfold in_sync. cbn [self storage session currentUser preferences option_map].
    rewrite lookup_insert_eq, !lookup_insert_ne by discriminate. auto.
  - unfold in_sync. rewrite Eu. auto.
Qed.

Lemma setUserEmail_sync (e : string) : maintains in_sync (setUserEmail e).
Proof.
  intros [[cu se pr il ia er] st cl rd] (Hs & Hu & Hp).
  cbn [self storage session currentUser preferences] in *.
  destruct cu as [[i e0 on oa]|]; unfold in_sync; run_store.
  - rewrite lookup_insert_eq, !lookup_insert_ne by discriminate. auto.
  - auto.
Qed.

Ltac sync_step :=
  lazymatch goal with
  | |- maintains _ (bind _ _) => apply maintains_bind; [ | intros ?]
  | |- maintains _ (try_catch_finally _ _ _) =>
      unfold try_catch_finally; apply maintains_try_finally
  | |- maintains _ (try_catch _ _) => apply maintains_try_catch; [ | intros ?]
  | |- maintains _ (ret _) => apply maintains_ret
  | |- maintains _ (throw _) => apply maintains_throw
  | |- maintains _ (if ?b then _ else _) => destruct b
  | |- maintains _ (setLoading _) => apply setLoading_sync
  | |- maintains _ (setAuthenticating _) => apply setAuthenticating_sync
  | |- maintains _ (setError _) => apply setError_sync
  | |- maintains _ clearError => apply clearError_sync
  | |- maintains _ Date_now => apply Date_now_sync
  | |- maintains _ get_self => apply get_self_sync
  | |- maintains _ (setSession JNull) => apply setSession_null_sync
  | |- maintains _ (setCurrentUser JNull) => apply setCurrentUser_null_sync
  | |- maintains _ (updateProfile _) => apply updateProfile_sync
  | |- maintains _ (setSession (JObj [("token", JStr ?t); ("expiresAt", JStr ?e);
                                       ("refreshToken", JStr ?r)])) =>
      apply (setSession_sync {| token := t; expiresAt := Some e; refreshToken := Some r |})
  | |- maintains _ (setSession (JObj ([("token", JStr ?t); ("expiresAt", JStr ?e)]
                                       ++ field "refreshToken" ?r))) =>
      apply (setSession_sync {| token := t; expiresAt := Some e; refreshToken := r |})
  | |- maintains _ (setCurrentUser (JObj [("id", JStr ?i); ("email", JStr ?e);
                                           ("name", JStr ?n); ("avatar", JStr ?a)])) =>
      apply (setCurrentUser_sync {| id := i; email := e; name := Some n; avatar := Some a |})
  | |- maintains _ (setPreferences (JObj [("theme", JStr ?t); ("language", JStr ?l);
                                           ("notifications", JBool ?n)])) =>
      apply (setPreferences_sync
               {| theme_in := Some t; language_in := Some l; notifications_in := Some n |})
  | |- maintains _ (setPreferences (PreferencesInput_js _)) => apply setPreferences_sync
  end.

Lemma logout_sync : maintains in_sync logout.
Proof. unfold logout. repeat sync_step. Qed.

Lemma load_session_sync : maintains in_sync (load "userSession" setSession).
Proof.
  intros w H. rewrite load_run. pose proof H as (Hs & _ & _). rewrite Hs.
  destruct (session (self w)) as [s|]; cbn [option_map when_saved]; [|exact H].
  rewrite (stringify_object_not_empty _
             : String.eqb (JSON.stringify (UserSession_snapshot s)) "" = false).
  unfold bind at 1, JSON_parse.
  rewrite parse_UserSession_snapshot. now apply setSession_sync.
Qed.

Lemma load_currentUser_sync : maintains in_sync (load "currentUser" setCurrentUser).
Proof.
  intros w H. rewrite load_run. pose proof H as (_ & Hu & _). rewrite Hu.
  destruct (currentUser (self w)) as [u|]; cbn [option_map when_saved]; [|exact H].
  rewrite (stringify_object_not_empty _
             : String.eqb (JSON.stringify (User_snapshot u)) "" = false).
  unfold bind at 1, JSON_parse.
  rewrite parse_User_snapshot. now apply setCurrentUser_sync.
Qed.

Lemma load_preferences_sync : maintains in_sync (load "userPreferences" setPreferences).
Proof.
  intros w H. rewrite load_run. pose proof H as (_ & _ & Hp). rewrite Hp.
  destruct (preferences (self w)) as [q|]; cbn [option_map when_saved]; [|exact H].
  rewrite (stringify_object_not_empty _
             : String.eqb (JSON.stringify (UserPreferences_snapshot q)) "" = false).
  unfold bind at 1, JSON_parse.
  rewrite parse_UserPreferences_snapshot.
  now apply (setPreferences_sync
               {| theme_in := Some (Theme_string (theme q)); language_in := Some (language q);
                  notifications_in := Some (notifications q) |}).
Qed.

Lemma hydrate_sync : maintains in_sync hydrate.
Proof.
  unfold hydrate. sync_step; [sync_step|]. sync_step; [|sync_step].
  sync_step.
  - change (maintains in_sync (load "userSession" setSession ;;
                               load "currentUser" setCurrentUser ;;
                               load "userPreferences" setPreferences)).
    apply maintains_bind; [apply load_session_sync|intros _].
    apply maintains_bind; [apply load_currentUser_sync|intros _].
    apply load_preferences_sync.
  - unfold hydrate_catch. repeat sync_step.
Qed.

(** X17. As long as what runs while a flow waits keeps storage in step with
    the store, so does every action and flow of the store on the arguments
    its signatures allow: after login, logout, hydrate, refreshUser,
    updateUserProfile, updatePreferences, refreshSession, updateProfile,
    setPreferences or setUserEmail, each of the keys userSession,
    currentUser and userPreferences holds the blob of the matching field,
    and nothing where the field is undefined, whether the call succeeded or
    failed. *)
Theorem flows_keep_storage_in_sync (w : World) :
  (forall w0, in_sync w0 -> in_sync (interleave w0)) ->
  in_sync w ->
  (forall e p, in_sync (snd (login Date_toISOString interleave e p w)))
  /\ in_sync (snd (logout w))
  /\ in_sync (snd (hydrate w))
  /\ in_sync (snd (refreshUser interleave w))
  /\ (forall p, in_sync (snd (updateUserProfile interleave (ProfileUpdates_js p) w)))
  /\ (forall p, in_sync (snd (updatePreferences interleave (PreferencesInput_js p) w)))
  /\ in_sync (snd (refreshSession Date_toISOString interleave w))
  /\ (forall p, in_sync (snd (updateProfile (ProfileUpdates_js p) w)))
  /\ (forall p, in_sync (snd (setPreferences (PreferencesInput_js p) w)))
  /\ (forall e, in_sync (snd (setUserEmail e w))).
Proof.
  intros Hquiet Hw.
  assert (Hsleep : forall ms, maintains in_sync (sleep interleave ms)).
  { intros ms w0. apply Hquiet. }
  repeat match goal with |- _ /\ _ => split end; intros;
    match goal with |- in_sync (snd (?m w)) => revert w Hw; change (maintains in_sync m) end.
  - unfold login, login_try, login_catch. cbv zeta.
    repeat first [apply Hsleep | sync_step].
  - apply logout_sync.
  - apply hydrate_sync.
  - unfold refreshUser. repeat first [apply Hsleep | sync_step].
  - unfold updateUserProfile. cbv zeta. repeat first [apply Hsleep | sync_step].
  - unfold updatePreferences. cbv zeta. repeat first [apply Hsleep | sync_step].
  - unfold refreshSession, refreshSession_try, refreshSession_catch, session_refreshToken.
    cbv zeta.
    repeat first [apply Hsleep | apply logout_sync | sync_step
                 | match goal with |- maintains _ (match ?x with _ => _ end) => destruct x end].
  - apply updateProfile_sync.
  - apply setPreferences_sync.
  - apply setUserEmail_sync.
Qed.

Lemma load_session_synced (o : option UserSession) (w : World) :
  storage w !! "userSession"
    = option_map (fun s => JSON.stringify (UserSession_snapshot s)) o ->
  (o = None -> session (self w) = None) ->
  load "userSession" setSession w =
  (Normal tt,
   {| self := {| currentUser := currentUser (self w); session := o;
                 preferences := preferences (self w); isLoading := isLoading (self w);
                 isAuthenticating := isAuthenticating (self w); error := error (self w) |};
      storage := storage w; clock := clock w; reads := reads w |}).
Proof.
  intros Hs Hnone. destruct o as [s|]; cbn [option_map] in Hs.
  - erewrite load_saved;
      [| exact Hs | apply stringify_object_not_empty | apply parse_UserSession_snapshot].
    rewrite setSession_snapshot, (insert_id _ _ _ Hs). reflexivity.
  - rewrite load_run, Hs. cbn [when_saved].
    destruct w as [[cu se pr il ia er] st cl rd]. cbn in Hnone |- *.
    now rewrite Hnone.
Qed.

Lemma load_currentUser_synced (o : option User) (w : World) :
  storage w !! "currentUser" = option_map (fun u => JSON.stringify (User_snapshot u)) o ->
  (o = None -> currentUser (self w) = None) ->
  load "currentUser" setCurrentUser w =
  (Normal tt,
   {| self := {| currentUser := o; session := session (self w);
                 preferences := preferences (self w); isLoading := isLoading (self w);
                 isAuthenticating := isAuthenticating (self w); error := error (self w) |};
      storage := storage w; clock := clock w; reads := reads w |}).
Proof.
  intros Hu Hnone. destruct o as [u|]; cbn [option_map] in Hu.
  - erewrite load_saved;
      [| exact Hu | apply stringify_object_not_empty | apply parse_User_snapshot].
    rewrite setCurrentUser_snapshot, (insert_id _ _ _ Hu). reflexivity.
  - rewrite load_run, Hu. cbn [when_saved].
    destruct w as [[cu se pr il ia er] st cl rd]. cbn in Hnone |- *.
    now rewrite Hnone.
Qed.

Lemma merged_preferences_same (q : UserPreferences) :
  merged_preferences (Some q)
    {| theme_in := Some (Theme_string (theme q)); language_in := Some (language q);
       notifications_in := Some (notifications q) |} = q.
Proof.
  destruct q as [t l n]. unfold merged_preferences.
  cbn [theme_in language_in notifications_in theme language notifications default].
  destruct (String.eqb l ""); destruct t; reflexivity.
Qed.

Lemma load_preferences_synced (o : option UserPreferences) (w : World) :
  storage w !! "userPreferences"
    = option_map (fun p => JSON.stringify (UserPreferences_snapshot p)) o ->
  preferences (self w) = None \/ preferences (self w) = o ->
  load "userPreferences" setPreferences w =
  (Normal tt,
   {| self := {| currentUser := currentUser (self w); session := session (self w);
                 preferences := o; isLoading := isLoading (self w);
                 isAuthenticating := isAuthenticating (self w); error := error (self w) |};
      storage := storage w; clock := clock w; reads := reads w |}).
Proof.
  intros Hp Hold. destruct o as [q|]; cbn [option_map] in Hp.
  - erewrite load_saved;
      [| exact Hp | apply stringify_object_not_empty | apply parse_UserPreferences_snapshot].
    destruct Hold as [Hold|Hold].
    + rewrite (setPreferences_snapshot q w Hold), (insert_id _ _ _ Hp). reflexivity.
    + change (UserPreferences_snapshot q)
        with (PreferencesInput_js
                {| theme_in := Some (Theme_string (theme q));
                   language_in := Some (language q);
                   notifications_in := Some (notifications q) |}).
      rewrite setPreferences_input by (destruct q as [[] l n]; reflexivity).
      rewrite Hold, merged_preferences_same, (insert_id _ _ _ Hp). reflexivity.
  - rewrite load_run, Hp. cbn [when_saved].
    destruct w as [[cu se pr il ia er] st cl rd]. cbn in Hold |- *.
    destruct Hold as [->| ->]; reflexivity.
Qed.

Lemma hydrate_synced (w0 w : World) :
  in_sync w ->
  storage w0 = storage w ->
  (session (self w) = None -> session (self w0) = None) ->
  (currentUser (self w) = None -> currentUser (self w0) = None) ->
  preferences (self w0) = None \/ preferences (self w0) = preferences (self w) ->
  hydrate w0 =
  (Normal tt,
   {| self := {| currentUser := currentUser (self w); session := session (self w);
                 preferences := preferences (self w); isLoading := false;
                 isAuthenticating := isAuthenticating (self w0);
                 error := error (self w0) |};
      storage := storage w0; clock := clock w0; reads := reads w0 |}).
Proof.
  intros (Hs & Hu & Hp) Hst Hns Hnu Hold. rewrite <- Hst in Hs, Hu, Hp.
  assert (Hrun : hydrate_try (snd (setLoading true w0))
                 = (Normal tt,
                    {| self := {| currentUser := currentUser (self w);
                                  session := session (self w);
                                  preferences := preferences (self w); isLoading := true;
                                  isAuthenticating := isAuthenticating (self w0);
                                  error := error (self w0) |};
                       storage := storage w0; clock := clock w0; reads := reads w0 |})).
  { rewrite hydrate_try_steps. unfold bind at 1.
    rewrite (load_session_synced (session (self w))) by assumption.
    unfold bind at 1.
    rewrite (load_currentUser_synced (currentUser (self w))) by assumption.
    rewrite (load_preferences_synced (preferences (self w))) by assumption.
    reflexivity. }
  rewrite hydrate_unfold.
  erewrite try_normal by (first [exact Hrun | reflexivity]).
  reflexivity.
Qed.

(** X18. When storage is in step with the store, hydrate loses nothing:
    on a new store over the same storage (the next start of the
    application) it completes with the session, the current user and the
    preferences the old store held, defined or not, and leaves storage as
    it was; on the store itself it changes nothing but isLoading. *)
Theorem hydrate_restores_synced_state (w : World) :
  in_sync w ->
  hydrate (restart w)
  = (Normal tt,
     {| self := {| currentUser := currentUser (self w); session := session (self w);
                   preferences := preferences (self w); isLoading := false;
                   isAuthenticating := false; error := None |};
        storage := storage w; clock := clock w; reads := reads w |})
  /\ hydrate w = (Normal tt, snd (setLoading false w)).
Proof.
  intros Hsync. split.
  - rewrite (hydrate_synced (restart w) w Hsync); auto.
  - rewrite (hydrate_synced w w Hsync); auto.
Qed.

#[local] Instance same_session_slot_refl : Reflexive same_session_slot.
Proof. intros w. split; reflexivity. Qed.

#[local] Instance same_session_slot_trans : Transitive same_session_slot.
Proof. intros a b c [H1 H2] [H3 H4]. split; congruence. Qed.

Lemma setCurrentUser_same_session_slot (v : json) :
  preserves same_session_slot (setCurrentUser v).
Proof. unfold setCurrentUser. frame. Qed.

Lemma setPreferences_same_session_slot (v : json) :
  preserves same_session_slot (setPreferences v).
Proof.
  unfold setPreferences, prop, assign_theme, assign_language, assign_notifications,
    with_preferences, persist_preferences.
  frame.
Qed.

Lemma hydrate_signed_out : maintains signed_out hydrate.
Proof.
  intros w [Hs Hb]. rewrite hydrate_unfold.
  assert (Hrest : preserves same_session_slot
                    (load "currentUser" setCurrentUser ;;
                     load "userPreferences" setPreferences)).
  { unfold load, when_saved, JSON_parse.
    repeat frame_step;
      first [apply setCurrentUser_same_session_slot
            | apply setPreferences_same_session_slot | frame]. }
  assert (Hrun : hydrate_try (snd (setLoading true w))
                 = (load "currentUser" setCurrentUser ;;
                    load "userPreferences" setPreferences) (snd (setLoading true w))).
  { rewrite hydrate_try_steps. unfold bind at 1.
    rewrite load_absent by (left; exact Hb). reflexivity. }
  specialize (Hrest (snd (setLoading true w))). rewrite <- Hrun in Hrest.
  unfold try_catch_finally, try_finally, try_catch.
  destruct (hydrate_try (snd (setLoading true w))) as [[[]|e] w1];
    cbn [snd] in Hrest; destruct Hrest as [H1 H2].
  - split; cbn; [rewrite H1 | rewrite H2]; assumption.
  - rewrite hydrate_catch_run. split; cbn; [reflexivity|].
    rewrite lookup_delete_ne by discriminate. apply lookup_delete_eq.
Qed.

(** X19. RootStore.reset completes and leaves the application signed
    out, with no session in the store and no session blob in storage, the
    preferences kept. From there RootStore.initialize, on the same store or
    on a new one over the same storage, completes as well and cannot sign
    the user back in. *)
Theorem reset_signs_out_for_good (w : World) :
  let w1 := snd (RootStore.reset w) in
  fst (RootStore.reset w) = Normal tt
  /\ RootStore.isAuthenticated (self w1) = false
  /\ preferences (self w1) = preferences (self w)
  /\ signed_out w1
  /\ signed_out (restart w1)
  /\ (forall w2, signed_out w2 ->
      fst (RootStore.initialize w2) = Normal tt
      /\ signed_out (snd (RootStore.initialize w2))
      /\ RootStore.isAuthenticated (self (snd (RootStore.initialize w2))) = false).
Proof.
  cbv zeta. unfold RootStore.reset, RootStore.initialize, try_catch.
  rewrite logout_run. cbn [fst snd self preferences].
  assert (Hout : forall st,
            (delete "currentUser" (delete "userSession" st) : gmap string string)
              !! "userSession" = None).
  { intros st. rewrite lookup_delete_ne by discriminate. apply lookup_delete_eq. }
  repeat match goal with |- _ /\ _ => split end; try reflexivity.
  - split; [reflexivity | apply Hout].
  - split; [reflexivity | apply Hout].
  - intros w2 Hw2. pose proof (hydrate_completes w2) as Hc.
    pose proof (hydrate_signed_out w2 Hw2) as Hs.
    destruct (hydrate w2) as [c w3]. cbn [fst snd] in Hc, Hs. subst c. cbn [fst snd].
    split; [reflexivity|]. split; [exact Hs|].
    unfold RootStore.isAuthenticated, isAuthenticated, has_token.
    destruct Hs as [-> _]. reflexivity.
Qed.

End MoreActionProperties.

(** ** The client under a run of responses *)

Section TrafficProperties.
Import I3HostApi I3HostApiTraffic.

Variable App : Type.

Lemma responses_cons (this : I3HostApi App) (status : option Z) (l : list (option Z))
    (env : Env App) :
  responses App this (status :: l) env
  = responses App this l (responseTransform App this status env).
Proof. reflexivity. Qed.

Lemma responseTransform_run (this : I3HostApi App) (status : option Z) (env : Env App) :
  responseTransform App this status env
  = if is_401 status
    then {| navigation := if isReady (navigation App env)
                          then reset_to_Login (navigation App env)
                          else navigation App env;
            app := on_401 App this (app App env) |}
    else env.
Proof.
  unfold responseTransform, is_401, handle401Error, on_401.
  destruct status as [code|]; [|reflexivity].
  destruct (code =? 401); [|reflexivity].
  destruct (logoutCallback App this); reflexivity.
Qed.

(** X20. Over any run of responses the client invokes the registered
    logout callback once for each response with status 401 and never
    otherwise; with no callback registered the application is left
    alone. Navigation ends reset to the single route Login exactly when it
    was ready and at least one 401 arrived, and as it was otherwise. *)
Theorem responses_run_callback_per_401 (this : I3HostApi App) (l : list (option Z))
    (env : Env App) :
  app App (responses App this l env)
  = Nat.iter (length (List.filter is_401 l)) (on_401 App this) (app App env)
  /\ navigation App (responses App this l env)
     = (if isReady (navigation App env) && existsb is_401 l
        then reset_to_Login (navigation App env)
        else navigation App env)
  /\ (logoutCallback App this = None -> app App (responses App this l env) = app App env).
Proof.
  assert (Hmain : forall l env,
            app App (responses App this l env)
            = Nat.iter (length (List.filter is_401 l)) (on_401 App this) (app App env)
            /\ navigation App (responses App this l env)
               = (if isReady (navigation App env) && existsb is_401 l
                  then reset_to_Login (navigation App env)
                  else navigation App env)).
  { clear l env. induction l as [|status l IH]; intros env.
    - cbn. rewrite andb_false_r. split; reflexivity.
    - rewrite responses_cons. destruct (IH (responseTransform App this status env))
        as [Ha Hn]. rewrite Ha, Hn, responseTransform_run. clear Ha Hn.
      cbn [List.filter existsb]. destruct (is_401 status); cbn [orb length app navigation].
      + split.
        * rewrite Nat.iter_succ_r. reflexivity.
        * destruct (isReady (navigation App env)) eqn:E; cbn [andb];
            [cbn [reset_to_Login isReady]; rewrite E; cbn [andb];
             destruct (existsb is_401 l); reflexivity
            | rewrite E; reflexivity].
      + split; reflexivity. }
  destruct (Hmain l env) as [Ha Hn]. split; [exact Ha|]. split; [exact Hn|].
  intros Hnone. rewrite Ha. unfold on_401. rewrite Hnone. clear Ha.
  generalize (length (List.filter is_401 l)) as n.
  induction n as [|n IHn]; [reflexivity | exact IHn].
Qed.

End TrafficProperties.

(** ** The cart of the demo store *)

Section CartProperties.
Import ProductStore.

Variable number : Type.

Lemma is_product_true (id : string) (x : CartItem number) :
  is_product number id x = true <-> productId number x = id.
Proof. unfold is_product. apply String.eqb_eq. Qed.

Lemma find_product_none (id : string) (l : Cart number) :
  List.find (is_product number id) l = None <-> ~ In id (products_of number l).
Proof.
  induction l as [|x r IH]; cbn.
  - tauto.
  - destruct (is_product number id x) eqn:E.
    + apply is_product_true in E. split; [discriminate | intros H; exfalso; auto].
    + rewrite IH. split.
      * intros H [Hx|Hr]; [|tauto].
        apply is_product_true in Hx. congruence.
      * tauto.
Qed.

Lemma products_of_update_first (id : string) (f : CartItem number -> CartItem number)
    (l : Cart number) :
  (forall x, productId number (f x) = productId number x) ->
  products_of number (update_first number (is_product number id) f l)
  = products_of number l.
Proof.
  intros Hf. unfold products_of. induction l as [|x r IH]; [reflexivity|]. cbn.
  destruct (is_product number id x); cbn; [now rewrite Hf | now rewrite IH].
Qed.


Lemma products_of_remove_first (id : string) (l : Cart number) :
  List.NoDup (products_of number l) ->
  List.NoDup (products_of number (remove_first number (is_product number id) l)).
Proof.
  induction l as [|x r IH]; [trivial|]. cbn. intros Hnd.
  apply List.NoDup_cons_iff in Hnd as [Hx Hr].
  destruct (is_product number id x); [exact Hr|].
  cbn. apply List.NoDup_cons_iff. split; [|now apply IH].
  intros Hin. apply Hx. clear -Hin.
  induction r as [|y r IHr]; [contradiction|]. cbn in Hin |- *.
  destruct (is_product number id y); [now right|].
  destruct Hin as [Hy|Hr]; [now left | right; now apply IHr].
Qed.

Lemma find_update_first_same (id : string) (f : CartItem number -> CartItem number)
    (l : Cart number) :
  (forall x, productId number (f x) = productId number x) ->
  List.find (is_product number id) (update_first number (is_product number id) f l)
  = option_map f (List.find (is_product number id) l).
Proof.
  intros Hf. induction l as [|x r IH]; [reflexivity|]. cbn.
  destruct (is_product number id x) eqn:E; cbn.
  - assert (E' : is_product number id (f x) = true).
    { apply is_product_true. rewrite Hf. now apply is_product_true. }
    now rewrite E'.
  - now rewrite E, IH.
Qed.

Lemma find_update_first_other (id id' : string) (f : CartItem number -> CartItem number)
    (l : Cart number) :
  id' <> id ->
  (forall x, productId number (f x) = productId number x) ->
  List.find (is_product number id') (update_first number (is_product number id) f l)
  = List.find (is_product number id') l.
Proof.
  intros Hne Hf. induction l as [|x r IH]; [reflexivity|]. cbn.
  destruct (is_product number id x) eqn:E; cbn.
  - apply is_product_true in E.
    assert (E1 : is_product number id' x = false).
    { apply not_true_iff_false. rewrite is_product_true. congruence. }
    assert (E2 : is_product number id' (f x) = false).
    { apply not_true_iff_false. rewrite is_product_true, Hf. congruence. }
    now rewrite E1, E2.
  - destruct (is_product number id' x); [reflexivity | exact IH].
Qed.

Lemma find_remove_first_other (id id' : string) (l : Cart number) :
  id' <> id ->
  List.find (is_product number id') (remove_first number (is_product number id) l)
  = List.find (is_product number id') l.
Proof.
  intros Hne. induction l as [|x r IH]; [reflexivity|]. cbn.
  destruct (is_product number id x) eqn:E; cbn.
  - apply is_product_true in E.
    assert (E1 : is_product number id' x = false).
    { apply not_true_iff_false. rewrite is_product_true. congruence. }
    now rewrite E1.
  - destruct (is_product number id' x); [reflexivity | exact IH].
Qed.

Lemma find_product_app (id : string) (l : Cart number) (x : CartItem number) :
  List.find (is_product number id) (l ++ [x])%list
  = match List.find (is_product number id) l with
    | Some y => Some y
    | None => if is_product number id x then Some x else None
    end.
Proof.
  induction l as [|y r IH]; [reflexivity|]. cbn.
  destruct (is_product number id y); [reflexivity | exact IH].
Qed.

Lemma length_update_first (p : CartItem number -> bool) (f : CartItem number -> CartItem number)
    (l : Cart number) :
  length (update_first number p f l) = length l.
Proof.
  induction l as [|x r IH]; [reflexivity|]. cbn.
  destruct (p x); cbn; [reflexivity | now rewrite IH].
Qed.

Variable zero : number.
Variable one : number.
Variable add : number -> number -> number.
Variable le_zero : number -> bool.

Lemma cartItemCount_app (l : Cart number) (x : CartItem number) :
  cartItemCount number zero add (l ++ [x])%list
  = add (cartItemCount number zero add l) (quantity number x).
Proof. unfold cartItemCount. now rewrite fold_left_app. Qed.

(** X21. A cart whose items are of distinct products stays so under every
    cart action: addToCart, removeFromCart, updateCartItemQuantity and
    clearCart never leave two items of one product. *)
Theorem cart_products_stay_distinct (id : string) (quantity_arg : option number)
    (q : number) (now_iso : string) (cartItems : Cart number) :
  List.NoDup (products_of number cartItems) ->
  List.NoDup (products_of number (addToCart number one add id quantity_arg now_iso cartItems))
  /\ List.NoDup (products_of number (removeFromCart number id cartItems))
  /\ List.NoDup (products_of number (updateCartItemQuantity number le_zero id q cartItems))
  /\ List.NoDup (products_of number (clearCart number cartItems)).
Proof.
  clear zero.
  intros Hnd. repeat split.
  - unfold addToCart. cbv zeta.
    destruct (List.find (is_product number id) cartItems) eqn:E.
    + now rewrite products_of_update_first.
    + unfold products_of. rewrite map_app. cbn.
      apply find_product_none in E.
      apply List.NoDup_app; [exact Hnd | |].
      * apply List.NoDup_cons; [intros [] | apply List.NoDup_nil].
      * intros x Hx [<-|[]]. now apply E.
  - now apply products_of_remove_first.
  - unfold updateCartItemQuantity.
    destruct (List.find (is_product number id) cartItems); [|exact Hnd].
    destruct (le_zero q); [now apply products_of_remove_first|].
    now rewrite products_of_update_first.
  - apply List.NoDup_nil.
Qed.

(** X22. After addToCart the cart is not empty and holds an item of the
    product: with the given quantity (1 when none is given) when the
    product was not in the cart, which then grows by that one item at its
    end and counts that many more; with the quantity added to the one it
    had when it was, the cart keeping its length. Items of other products
    are found as before. *)
Theorem addToCart_adds (id : string) (quantity_arg : option number) (now_iso : string)
    (cartItems : Cart number) :
  let q := default one quantity_arg in
  let cart' := addToCart number one add id quantity_arg now_iso cartItems in
  option_map (quantity number) (List.find (is_product number id) cart')
  = Some match List.find (is_product number id) cartItems with
         | Some x => add (quantity number x) q
         | None => q
         end
  /\ (forall id', id' <> id ->
      List.find (is_product number id') cart' = List.find (is_product number id') cartItems)
  /\ length cart' = match List.find (is_product number id) cartItems with
                    | Some _ => length cartItems
                    | None => S (length cartItems)
                    end
  /\ isCartEmpty number cart' = false
  /\ (List.find (is_product number id) cartItems = None ->
      cartItemCount number zero add cart' = add (cartItemCount number zero add cartItems) q).
Proof.
  clear le_zero.
  cbv zeta. unfold addToCart. cbv zeta.
  destruct (List.find (is_product number id) cartItems) as [x|] eqn:E.
  - repeat split.
    + rewrite find_update_first_same, E by reflexivity. reflexivity.
    + intros id' Hne. now apply find_update_first_other.
    + apply length_update_first.
    + unfold isCartEmpty. rewrite length_update_first.
      destruct cartItems; [discriminate E | reflexivity].
    + discriminate.
  - repeat split.
    + rewrite find_product_app, E. unfold is_product. cbn. now rewrite String.eqb_refl.
    + intros id' Hne. rewrite find_product_app.
      destruct (List.find (is_product number id') cartItems); [reflexivity|].
      unfold is_product. cbn. apply String.eqb_neq in Hne.
      rewrite String.eqb_sym in Hne. now rewrite Hne.
    + rewrite length_app. cbn. lia.
    + unfold isCartEmpty. rewrite length_app. cbn.
      destruct (length cartItems); reflexivity.
    + intros _. apply cartItemCount_app.
Qed.

(** X23. updateCartItemQuantity changes nothing when the product is not in
    the cart. When it is, a quantity that is not above zero takes the
    product's item out of the cart, and any other quantity becomes the
    quantity of the item, the cart keeping its products and their order.
    Items of other products are found as before in every case. *)
Theorem updateCartItemQuantity_cases (id : string) (q : number) (cartItems : Cart number) :
  let cart' := updateCartItemQuantity number le_zero id q cartItems in
  (List.find (is_product number id) cartItems = None -> cart' = cartItems)
  /\ (List.find (is_product number id) cartItems <> None -> le_zero q = true ->
      cart' = removeFromCart number id cartItems
      /\ length cart' = pred (length cartItems))
  /\ (List.find (is_product number id) cartItems <> None -> le_zero q = false ->
      option_map (quantity number) (List.find (is_product number id) cart') = Some q
      /\ products_of number cart' = products_of number cartItems)
  /\ (forall id', id' <> id ->
      List.find (is_product number id') cart' = List.find (is_product number id') cartItems).
Proof.
  clear zero one add.
  cbv zeta. unfold updateCartItemQuantity.
  assert (Hlen : forall l : Cart number,
            List.find (is_product number id) l <> None ->
            length (remove_first number (is_product number id) l) = pred (length l)).
  { induction l as [|y r IH]; cbn; [congruence|].
    destruct (is_product number id y); [reflexivity|].
    intros H. cbn. rewrite IH by assumption.
    destruct r; [cbn in H; congruence | reflexivity]. }
  destruct (List.find (is_product number id) cartItems) as [x|] eqn:E.
  - split; [discriminate|]. split; [|split].
    + intros _ Hq. rewrite Hq. split; [reflexivity|].
      apply Hlen. now rewrite E.
    + intros _ Hq. rewrite Hq. split.
      * rewrite find_update_first_same, E by reflexivity. reflexivity.
      * now apply products_of_update_first.
    + intros id' Hne. destruct (le_zero q).
      * now apply find_remove_first_other.
      * now apply find_update_first_other.
  - split; [reflexivity|]. split; [congruence|]. split; [congruence|]. reflexivity.
Qed.


End CartProperties.

(** ** More sample runs *)

Section MoreSampleRuns.
Import JS UserStore UserStoreViews Sample MoreSamples.

(** A signed-in store over wiped storage stays signed in. *)
Lemma hydrate_without_blobs_witness :
  hydrate wiped_storage = (Normal tt, snd (setLoading false wiped_storage))
  /\ session (self (snd (hydrate wiped_storage))) = session (self signed_in).
Proof.
  assert (H : hydrate wiped_storage = (Normal tt, snd (setLoading false wiped_storage))).
  { apply (hydrate_without_blobs wiped_storage). intros k _. left. apply lookup_empty. }
  split; [exact H|]. rewrite H. reflexivity.
Defined.



(** The demo user switches to dark, French, no notifications. *)
Lemma updatePreferences_applies_witness :
  fst (updatePreferences quiet (PreferencesInput_js french) signed_in) = Normal success
  /\ currentTheme (self (snd (updatePreferences quiet (PreferencesInput_js french) signed_in)))
     = "dark"
  /\ preferredLanguage
       (self (snd (updatePreferences quiet (PreferencesInput_js french) signed_in))) = "fr"
  /\ notificationsEnabled
       (self (snd (updatePreferences quiet (PreferencesInput_js french) signed_in))) = false.
Proof.
  destruct (updatePreferences_applies quiet french signed_in eq_refl)
    as (Hr & _ & _ & Ht & Hl & Hn & _).
  split; [exact Hr|]. split; [apply Ht; reflexivity|].
  split; [apply Hl; [reflexivity | discriminate] | apply Hn; reflexivity].
Defined.

(** The demo user takes a new name and gives an empty avatar. *)
Lemma updateUserProfile_applies_witness :
  has_token (self signed_in) = true
  /\ fst (updateUserProfile quiet (ProfileUpdates_js new_name) signed_in) = Normal success
  /\ currentUser (self (snd (updateUserProfile quiet (ProfileUpdates_js new_name) signed_in)))
     = Some {| id := "1"; email := "demo@example.com"; name := Some "Demo Two";
               avatar := Some "https://via.placeholder.com/150" |}.
Proof.
  assert (Htoken : has_token (self signed_in) = true) by (vm_compute; reflexivity).
  split; [exact Htoken|].
  destruct (updateUserProfile_applies quiet new_name signed_in Htoken) as (Hr & Hu & _).
  split; [exact Hr|]. rewrite Hu. vm_compute. reflexivity.
Defined.

(** The demo user refreshes the session with nothing else going on. *)
Lemma refreshSession_renews_witness :
  has_refreshToken (self signed_in) = true
  /\ fst (refreshSession toISOString quiet signed_in) = Normal success
  /\ has_token (self (snd (refreshSession toISOString quiet signed_in))) = true
  /\ option_map refreshToken (session (self (snd (refreshSession toISOString quiet signed_in))))
     = option_map refreshToken (session (self signed_in)).
Proof.
  assert (Hrefresh : has_refreshToken (self signed_in) = true) by (vm_compute; reflexivity).
  assert (Hs : session (self (quiet signed_in))
               = Some (mockSession toISOString 1700000000000 1700000000000 1700000000000))
    by (vm_compute; reflexivity).
  split; [exact Hrefresh|].
  destruct (refreshSession_renews toISOString quiet _ signed_in Hrefresh Hs)
    as (Hr & Hses & Ht & _).
  split; [exact Hr|]. split; [exact Ht|]. rewrite Hses. vm_compute. reflexivity.
Defined.

(** The session of the first demo login, a millisecond after its expiry. *)
Lemma login_session_expires_after_a_day_witness :
  isSessionExpired Date_parse 1700086400001
    (self (snd (login toISOString quiet "demo@example.com" "password" start))) = true
  /\ isSessionExpired Date_parse 1700086400000
       (self (snd (login toISOString quiet "demo@example.com" "password" start))) = false.
Proof.
  split.
  - apply (login_session_expires_after_a_day toISOString quiet Date_parse 1700086400001
             start); [vm_compute; discriminate | reflexivity].
  - apply (login_session_expires_after_a_day toISOString quiet Date_parse 1700086400000
             start); [vm_compute; discriminate | reflexivity].
Defined.

(** From the first start, with nothing else going on. *)
Lemma flows_keep_storage_in_sync_witness :
  in_sync start
  /\ in_sync (snd (login toISOString quiet "demo@example.com" "password" start))
  /\ in_sync (snd (updatePreferences quiet (PreferencesInput_js blue_theme) start))
  /\ in_sync (snd (logout start)).
Proof.
  assert (Hstart : in_sync start) by (repeat split; apply lookup_empty).
  split; [exact Hstart|].
  destruct (flows_keep_storage_in_sync toISOString quiet start (fun w0 H => H) Hstart)
    as (Hlogin & Hlogout & _ & _ & _ & Hprefs & _).
  split; [apply Hlogin|]. split; [apply Hprefs | exact Hlogout].
Defined.

(** The next start after the demo login. *)
Lemma hydrate_restores_synced_state_witness :
  in_sync signed_in
  /\ fst (hydrate (restart signed_in)) = Normal tt
  /\ session (self (snd (hydrate (restart signed_in)))) = session (self signed_in)
  /\ currentUser (self (snd (hydrate (restart signed_in)))) = Some mockUser
  /\ preferences (self (snd (hydrate (restart signed_in)))) = Some defaultPreferences.
Proof.
  assert (Hsync : in_sync signed_in) by (repeat split; vm_compute; reflexivity).
  split; [exact Hsync|].
  destruct (hydrate_restores_synced_state signed_in Hsync) as [Hr _].
  rewrite Hr. repeat split; vm_compute; reflexivity.
Defined.

(** A cart of two products, over the integers. *)
Lemma cart_products_stay_distinct_witness :
  List.NoDup (ProductStore.products_of Z cart)
  /\ List.NoDup (ProductStore.products_of Z
                   (ProductStore.addToCart Z 1 Z.add "p1" None "2023-11-15T22:13:20.000Z"
                      cart))
  /\ List.NoDup (ProductStore.products_of Z (ProductStore.removeFromCart Z "p2" cart)).
Proof.
  assert (Hcart : List.NoDup (ProductStore.products_of Z cart)).
  { repeat constructor; cbn; intuition discriminate. }
  split; [exact Hcart|].
  split.
  - apply (cart_products_stay_distinct Z 1 Z.add (fun q => q <=? 0) "p1" None 0
             "2023-11-15T22:13:20.000Z" cart Hcart).
  - apply (cart_products_stay_distinct Z 1 Z.add (fun q => q <=? 0) "p2" None 0
             "2023-11-15T22:13:20.000Z" cart Hcart).
Defined.

End MoreSampleRuns.
